(** * Book-inventory dashboards: risk classification and replenishment formulas

    A shallow embedding of the row formulas of the inventory dashboards
    ([book_inventory_risk_dashboard.py], [book_inventory_dashboard.py]) and of
    the scheduled report ([dk_airflow.py]), with the properties their
    specification states about them.

    Modelling conventions.
    - Numbers are those of numpy.  An int64 is an integer, and integer
      arithmetic wraps around at 64 bits.  A float64 is an IEEE 754 binary64
      value ([spec_float] with precision 53 and exponent bound 1024): every
      operation rounds to nearest, ties to even, and NaN, the infinities and
      the sign of zero are kept.  A decimal literal of the source is the
      float64 nearest to it.
    - A missing spreadsheet cell is NaN, as pandas reads it.
    - A DataFrame is the list of its rows; a row maps column names to cells.
      pandas stores a column in one dtype: a numeric column holds int64
      cells only, or float64 cells only (a whole number of a float64 column
      is the float of that value).  Reading a column that some row lacks
      raises [KeyError], arithmetic or an ordering comparison on a text cell
      raises [TypeError]: both are [None].
    - The classifier of the risk dashboard assigns columns to the DataFrame
      it is given: DataFrames live in a store and the function runs on a
      reference.  The report pages are scripts on their own frame; there,
      assigning to a column is state passing, the updated frame is bound
      again under the same name. *)

From Stdlib Require Import ZArith SpecFloat Lia.
From stdpp Require Import base numbers option list sorting strings gmap.

Local Open Scope Z_scope.

(** ** Numbers *)

Module Float.

(** *** float64 *)

Definition prec : Z := 53.
Definition emax : Z := 1024.

Definition fadd : spec_float → spec_float → spec_float := SFadd prec emax.
Definition fsub : spec_float → spec_float → spec_float := SFsub prec emax.
Definition fmul : spec_float → spec_float → spec_float := SFmul prec emax.
Definition fdiv : spec_float → spec_float → spec_float := SFdiv prec emax.
Definition flt : spec_float → spec_float → bool := SFltb.
Definition fle : spec_float → spec_float → bool := SFleb.
Definition feq : spec_float → spec_float → bool := SFeqb.

(** The float64 of an integer: the nearest one. *)
Definition of_int (z : Z) : spec_float := binary_normalize prec emax z 0 false.

(** Decimal literals of the source: [dec n d] is the float64 nearest to
    n/d (the correctly rounded quotient of two floats that are exact). *)
Definition dec (n : Z) (d : positive) : spec_float :=
  fdiv (of_int n) (of_int (Zpos d)).

(** *** int64 *)

(** The value an int64 operation keeps of its exact result. *)
Definition wrap (z : Z) : Z := (z + 2 ^ 63) `mod` 2 ^ 64 - 2 ^ 63.

(** *** The numbers of a column or of a scalar *)

Inductive num : Type :=
| I64 (z : Z)
| F64 (f : spec_float).

Definition NaN : num := F64 S754_nan.
Definition PInf : num := F64 (S754_infinity false).
Definition NInf : num := F64 (S754_infinity true).

Definition is_nan (x : num) : bool :=
  match x with F64 S754_nan => true | _ => false end.

Definition is_float (x : num) : bool :=
  match x with F64 _ => true | I64 _ => false end.

(** The operand of a float64 operation: an integer is converted. *)
Definition to_float (x : num) : spec_float :=
  match x with I64 z => of_int z | F64 f => f end.

(** [+], [-], [*]: on two integers the int64 operation, otherwise the
    float64 operation. *)
Definition nadd (x y : num) : num :=
  match x, y with
  | I64 a, I64 b => I64 (wrap (a + b))
  | _, _ => F64 (fadd (to_float x) (to_float y))
  end.

Definition nsub (x y : num) : num :=
  match x, y with
  | I64 a, I64 b => I64 (wrap (a - b))
  | _, _ => F64 (fsub (to_float x) (to_float y))
  end.

Definition nmul (x y : num) : num :=
  match x, y with
  | I64 a, I64 b => I64 (wrap (a * b))
  | _, _ => F64 (fmul (to_float x) (to_float y))
  end.

(** [/]: true division, always in float64; a finite value over 0 is an
    infinity (or NaN for 0/0), never an exception. *)
Definition ndiv (x y : num) : num := F64 (fdiv (to_float x) (to_float y)).

(** Comparisons: exact on two integers, otherwise on floats, where every
    comparison with NaN is false. *)
Definition nlt (x y : num) : bool :=
  match x, y with
  | I64 a, I64 b => a <? b
  | _, _ => flt (to_float x) (to_float y)
  end.

Definition ngt (x y : num) : bool := nlt y x.

Definition nle (x y : num) : bool :=
  match x, y with
  | I64 a, I64 b => a <=? b
  | _, _ => fle (to_float x) (to_float y)
  end.

Definition nge (x y : num) : bool := nle y x.

Definition neqb (x y : num) : bool :=
  match x, y with
  | I64 a, I64 b => a =? b
  | _, _ => feq (to_float x) (to_float y)
  end.

(** The value [v] as it is stored next to [x]: an integer written into a
    float64 series is stored as a float. *)
Definition astype_like (x v : num) : num :=
  match x, v with
  | F64 _, I64 k => F64 (of_int k)
  | _, _ => v
  end.

(** [Series.replace(old, new)] on one value. *)
Definition replace (old new x : num) : num :=
  if neqb x old then astype_like x new else x.

(** [Series.clip(lower=lo)] and [Series.clip(upper=hi)] on one value: a NaN
    value stays NaN, a NaN bound does not clip. *)
Definition clip_lower (lo x : num) : num :=
  if nlt x lo then astype_like x lo else x.

Definition clip_upper (hi x : num) : num :=
  if nlt hi x then astype_like x hi else x.

End Float.

Export Float.

(** ** Frames, rows and series *)

Module Pandas.

Inductive cell : Type :=
| Num (x : num)
| Str (s : string).

Abbreviation Row := (gmap string cell).
Abbreviation DataFrame := (list (gmap string cell)).

#[global] Instance spec_float_eq_dec : EqDecision spec_float.
Proof. solve_decision. Defined.

#[global] Instance num_eq_dec : EqDecision num.
Proof. solve_decision. Defined.

#[global] Instance cell_eq_dec : EqDecision cell.
Proof. solve_decision. Defined.

Definition as_num (c : cell) : option num :=
  match c with Num x => Some x | Str _ => None end.

(** *** The dtype of a column *)

Definition int64 (z : Z) : Prop := - 2 ^ 63 ≤ z < 2 ^ 63.

Definition float64 (f : spec_float) : Prop := valid_binary prec emax f = true.

Definition int64_cell (c : option cell) : Prop :=
  match c with Some (Num (I64 z)) => int64 z | _ => False end.

Definition float64_cell (c : option cell) : Prop :=
  match c with Some (Num (F64 f)) => float64 f | _ => False end.

#[global] Instance int64_cell_dec c : Decision (int64_cell c).
Proof. destruct c as [[[z|f]|s]|]; cbn; unfold int64; apply _. Defined.

#[global] Instance float64_cell_dec c : Decision (float64_cell c).
Proof. destruct c as [[[z|f]|s]|]; cbn; unfold float64; apply _. Defined.

(** Column [c] of the frame is an int64 column, a float64 column. *)
Definition int64_column (df : DataFrame) (c : string) : Prop :=
  Forall (λ r : Row, int64_cell (r !! c)) df.

Definition float64_column (df : DataFrame) (c : string) : Prop :=
  Forall (λ r : Row, float64_cell (r !! c)) df.

Definition numeric_column (df : DataFrame) (c : string) : Prop :=
  int64_column df c ∨ float64_column df c.

#[global] Instance numeric_column_dec df c : Decision (numeric_column df c).
Proof. unfold numeric_column, int64_column, float64_column. apply _. Defined.

(** The columns [cols] of the frame are numeric columns. *)
Definition numeric_columns (cols : list string) (df : DataFrame) : Prop :=
  Forall (numeric_column df) cols.

(** *** Columns *)

(** [df[c]]: the cells of column [c] ([KeyError] when missing). *)
Definition column (df : DataFrame) (c : string) : option (list cell) :=
  mapM (λ r : Row, r !! c) df.

(** [df[c]] used as a numeric series ([TypeError] on a text cell). *)
Definition num_column (df : DataFrame) (c : string) : option (list num) :=
  mapM (λ r : Row, r !! c ≫= as_num) df.

(** [df[c] = s]. *)
Definition set_column (df : DataFrame) (c : string) (s : list cell)
  : DataFrame :=
  zip_with (λ (r : Row) v, <[c := v]> r) df s.

(** A series has one dtype: when clipping leaves a float bound in a series
    of integers, the series becomes a float64 series and every value of it
    is stored as a float.  (pandas versions differ on whether such a series
    is kept, or cast back, as a series of integers when the numbers it takes
    from the bound are whole; this model follows the upcast, which differs
    from them in the dtype that whole numbers are stored in, and in the
    values only for integers beyond 2^53.) *)
Definition as_series (a : list num) : list num :=
  if existsb is_float a then (λ x, F64 (to_float x)) <$> a else a.

(** Element-wise operations between two series, and with a scalar. *)
Definition sadd (a b : list num) : list num := zip_with nadd a b.
Definition ssub (a b : list num) : list num := zip_with nsub a b.
Definition sdiv (a b : list num) : list num := zip_with ndiv a b.
Definition smul_scalar (a : list num) (k : num) : list num :=
  (λ x, nmul x k) <$> a.
Definition sdiv_scalar (a : list num) (k : num) : list num :=
  (λ x, ndiv x k) <$> a.
Definition slt (a b : list num) : list bool := zip_with nlt a b.
Definition sgt (a b : list num) : list bool := zip_with ngt a b.
Definition slt_scalar (a : list num) (k : num) : list bool :=
  (λ x, nlt x k) <$> a.
Definition sgt_scalar (a : list num) (k : num) : list bool :=
  (λ x, ngt x k) <$> a.
Definition sand (a b : list bool) : list bool := zip_with andb a b.
Definition sor (a b : list bool) : list bool := zip_with orb a b.
Definition sreplace (old new : num) (a : list num) : list num :=
  replace old new <$> a.
Definition sclip_lower (lo : num) (a : list num) : list num :=
  as_series (clip_lower lo <$> a).
Definition sclip_upper (a hi : list num) : list num :=
  as_series (zip_with (λ x h, clip_upper h x) a hi).

(** [s != text], on any cell: a number or NaN differs from every text. *)
Definition cell_ne_str (s : string) (c : cell) : bool :=
  match c with
  | Str t => negb (String.eqb t s)
  | Num _ => true
  end.

(** [df[mask]]: the rows whose mask entry is true. *)
Fixpoint boolean_index (df : DataFrame) (mask : list bool) : DataFrame :=
  match df, mask with
  | r :: df', b :: mask' =>
      if b then r :: boolean_index df' mask' else boolean_index df' mask'
  | _, _ => []
  end.

(** Order of [sort_values] (ascending, NaN last).  The keys are those of one
    column, so an integer never meets a float; the order puts integers
    first. *)
Definition sort_le (x y : num) : bool :=
  match x, y with
  | I64 a, I64 b => a <=? b
  | I64 _, F64 _ => true
  | F64 _, I64 _ => false
  | F64 f, F64 g => is_nan y || (negb (is_nan x) && fle f g)
  end.

Definition key_le (p q : num * gmap string cell) : Prop :=
  sort_le p.1 q.1 = true.

#[global] Instance key_le_dec : RelDecision key_le :=
  λ p q, decide (sort_le p.1 q.1 = true).

(** [df.sort_values(c)].  pandas' default sort is not stable, so the order
    of rows with equal keys is not fixed by the source; this model keeps
    them in their original order. *)
Definition sort_values (df : DataFrame) (c : string) : option DataFrame :=
  ks ← num_column df c;
  Some (snd <$> merge_sort key_le (zip ks df)).

(** [df.sort_values(c, ascending=False)]: descending, NaN still last. *)
Definition sort_ge (x y : num) : bool :=
  match x, y with
  | I64 a, I64 b => b <=? a
  | I64 _, F64 _ => true
  | F64 _, I64 _ => false
  | F64 f, F64 g => is_nan y || (negb (is_nan x) && fle g f)
  end.

Definition key_ge (p q : num * gmap string cell) : Prop :=
  sort_ge p.1 q.1 = true.

#[global] Instance key_ge_dec : RelDecision key_ge :=
  λ p q, decide (sort_ge p.1 q.1 = true).

Definition sort_values_desc (df : DataFrame) (c : string)
  : option DataFrame :=
  ks ← num_column df c;
  Some (snd <$> merge_sort key_ge (zip ks df)).

(** [np.select(condlist, choicelist, default)] over [n] rows: the choice of
    the first condition that holds, else the default. *)
Fixpoint np_select {A} (n : nat) (condlist : list (list bool))
    (choicelist : list A) (default : A) : list A :=
  match condlist, choicelist with
  | c :: cs, ch :: chs =>
      zip_with (λ (b : bool) rest, if b then ch else rest)
        c (np_select n cs chs default)
  | _, _ => replicate n default
  end.

End Pandas.

Export Pandas.

(** ** DataFrame objects

    A Python variable holds a reference to its DataFrame.  A statement runs
    on the store of the DataFrames: it ends with a value or with an
    exception ([None]), and leaves the store as it has changed it. *)

Module Python.

Definition ref : Type := nat.

Definition Store : Type := gmap nat DataFrame.

Definition M (A : Type) : Type := Store → option A * Store.

Definition ret {A} (a : A) : M A := λ σ, (Some a, σ).

Definition bind {A B} (m : M A) (k : A → M B) : M B :=
  λ σ, match m σ with
       | (Some a, σ') => k a σ'
       | (None, σ') => (None, σ')
       end.

(** [df[c]], read as a numeric series. *)
Definition getitem (df : ref) (c : string) : M (list num) :=
  λ σ, (fr ← σ !! df; num_column fr c, σ).

(** [df[c] = s]: the column is written into the DataFrame [df] refers
    to. *)
Definition setitem (df : ref) (c : string) (s : list cell) : M unit :=
  λ σ, match σ !! df with
       | Some fr => (Some (), <[df := set_column fr c s]> σ)
       | None => (None, σ)
       end.

#[global] Instance M_ret : MRet M := @ret.

#[global] Instance M_bind : MBind M := λ A B k m, bind m k.

End Python.

Export Python.

(** ** [book_inventory_risk_dashboard.py] *)

Module RiskDashboard.

Definition high_stockout_risk : string := "high_stockout_risk".
Definition overstocking_risk : string := "overstocking_risk".
Definition normal : string := "normal".

Definition classify_inventory_risk (df : ref) : M ref :=
  (* Create necessary derived metrics *)
  stock ← getitem df "Retailer number of units in stock";
  fc1 ← getitem df "Forecast sales for this week";
  setitem df "weeks_until_stockout"
    (Num <$> sdiv stock (sreplace (I64 0) (I64 1) fc1));;
  wh ← getitem df "Current number of units in DK warehouse";
  sales ← getitem df "Retailer sales out last week";
  setitem df "dk_warehouse_to_weekly_sales_ratio"
    (Num <$> sdiv wh (sreplace (I64 0) (I64 1) sales));;
  stock ← getitem df "Retailer number of units in stock";
  wh ← getitem df "Current number of units in DK warehouse";
  fc12 ← getitem df "Forecast sales for next 12 weeks";
  setitem df "total_available_to_12wk_forecast"
    (Num <$> sdiv (sadd stock wh) (sreplace (I64 0) (I64 1) fc12));;
  stock ← getitem df "Retailer number of units in stock";
  sales ← getitem df "Retailer sales out last week";
  setitem df "stock_to_weekly_sales_ratio"
    (Num <$> sdiv stock (sreplace (I64 0) (I64 1) sales));;
  ordered ← getitem df "Number of units reatiler has ordered from DK";
  fc4 ← getitem df "Forecast sales for next 4 weeks";
  setitem df "ordered_vs_forecasted"
    (Num <$> sdiv ordered (sreplace (I64 0) (I64 1) fc4));;
  (* Apply rules to classify risks *)
  wus ← getitem df "weeks_until_stockout";
  whr ← getitem df "dk_warehouse_to_weekly_sales_ratio";
  tot ← getitem df "total_available_to_12wk_forecast";
  str ← getitem df "stock_to_weekly_sales_ratio";
  ovf ← getitem df "ordered_vs_forecasted";
  let conditions :=
    [ sand (slt_scalar wus (I64 2)) (slt_scalar whr (I64 4));
      sor (sgt_scalar tot (I64 20))
          (sand (sgt_scalar str (I64 12))
                (sgt_scalar ovf (F64 (dec 15 10)))) ] in
  let choices := [high_stockout_risk; overstocking_risk] in
  setitem df "risk_category"
    (Str <$> np_select (length wus) conditions choices normal);;
  mret df.

End RiskDashboard.

(** ** [book_inventory_dashboard.py] *)

Module InventoryDashboard.

(** *** Inventory Health report *)

(** The edges of the bins; a list that holds [float('inf')] is an array of
    floats. *)
Definition wos_bins : list num :=
  [F64 (of_int 0); F64 (of_int 4); F64 (of_int 8); F64 (of_int 12);
   F64 (of_int 16); F64 (of_int 20); F64 (of_int 24); PInf].

Definition wos_labels : list string :=
  ["0-4 weeks"; "4-8 weeks"; "8-12 weeks"; "12-16 weeks";
   "16-20 weeks"; "20-24 weeks"; "24+ weeks"].

(** [bins.searchsorted(x, side='left')] on increasing bins: the number of
    edges strictly below [x]. *)
Definition searchsorted_left (bins : list num) (x : num) : nat :=
  length (List.filter (λ b, nlt b x) bins).

(** [pd.cut(x, bins, labels)] with its defaults [right=True] and
    [include_lowest=False], on one value: the edge index is looked up from
    the left, values at index 0 or beyond the last edge, and NaN, get no
    category (NaN). *)
Definition cut (bins : list num) (labels : list string) (x : num) : cell :=
  let ids := searchsorted_left bins x in
  if is_nan x || (ids =? length bins)%nat || (ids =? 0)%nat
  then Num NaN
  else match labels !! (ids - 1)%nat with
       | Some l => Str l
       | None => Num NaN
       end.

Definition calculated_wos (filtered_df : DataFrame) : option DataFrame :=
  stock ← num_column filtered_df "Retailer number of units in stock";
  fc1 ← num_column filtered_df "Forecast sales for this week";
  Some (set_column filtered_df "Calculated WOS"
          (Num <$> sdiv stock (sclip_lower (F64 (dec 1 10)) fc1))).

Definition wos_category (filtered_df : DataFrame) : option DataFrame :=
  wos ← num_column filtered_df "Calculated WOS";
  Some (set_column filtered_df "WOS Category"
          (cut wos_bins wos_labels <$> wos)).

(** The first two steps of the report. *)
Definition inventory_health (filtered_df : DataFrame) : option DataFrame :=
  filtered_df ← calculated_wos filtered_df;
  wos_category filtered_df.

(** Group keys of [groupby]: the distinct non-missing keys in increasing
    order, numbers before texts. *)
Definition cell_le (a b : cell) : Prop :=
  match a, b with
  | Num x, Num y => sort_le x y = true
  | Num _, Str _ => True
  | Str _, Num _ => False
  | Str s, Str t => String.leb s t = true
  end.

#[global] Instance cell_le_dec : RelDecision cell_le.
Proof. intros [x|s] [y|t]; simpl; apply _. Defined.

Definition is_missing (c : cell) : bool :=
  match c with Num x => is_nan x | Str _ => false end.

Definition group_keys (keys : list cell) : list cell :=
  merge_sort cell_le
    (remove_dups (List.filter (λ c, negb (is_missing c)) keys)).

(** Aggregations of a group, all skipping missing values as pandas does.
    The sum of an int64 column is an int64 sum; the sum of a float64 column
    is accumulated with a compensation term (Kahan summation), as the
    grouped sum and mean of pandas do. *)
Definition kahan_add (acc : spec_float * spec_float) (val : spec_float)
  : spec_float * spec_float :=
  let '(sumx, compensation) := acc in
  let y := fsub val compensation in
  let t := fadd sumx y in
  let compensation := fsub (fsub t sumx) y in
  (t, match compensation with S754_nan => of_int 0 | _ => compensation end).

Definition kahan_sum (xs : list spec_float) : spec_float :=
  (foldl kahan_add (of_int 0, of_int 0) xs).1.

Definition int64_sum (xs : list num) : Z :=
  foldl (λ acc x, match x with I64 z => wrap (acc + z) | F64 _ => acc end)
    0 xs.

Definition agg_sum (xs : list num) : num :=
  let present := List.filter (λ x, negb (is_nan x)) xs in
  if existsb is_float xs then F64 (kahan_sum (to_float <$> present))
  else I64 (int64_sum present).

Definition agg_count (cs : list cell) : nat :=
  length (List.filter (λ c, negb (is_missing c)) cs).

Definition agg_mean (xs : list num) : num :=
  let present := List.filter (λ x, negb (is_nan x)) xs in
  match present with
  | [] => NaN
  | _ => F64 (fdiv (kahan_sum (to_float <$> present))
                   (of_int (Z.of_nat (length present))))
  end.

(** One row of the aggregated frame, for the rows [g] of one brand, with the
    columns renamed as the source renames them. *)
Definition brand_aggregate (brand : cell) (g : DataFrame) : option Row :=
  wos ← num_column g "Calculated WOS";
  stock ← num_column g "Retailer number of units in stock";
  fc4 ← num_column g "Forecast sales for next 4 weeks";
  isbn ← column g "ISBN";
  Some (<["Title Count" := Num (I64 (Z.of_nat (agg_count isbn)))]>
        (<["Forecast 4-Week Sales" := Num (agg_sum fc4)]>
        (<["Total Stock" := Num (agg_sum stock)]>
        (<["Avg WOS" := Num (agg_mean wos)]>
        (<["Brand" := brand]> ∅))))).

Definition brand_health (filtered_df : DataFrame) : option DataFrame :=
  brands ← column filtered_df "Brand";
  brand_health ←
    mapM (λ k, brand_aggregate k
                 (List.filter (λ r : Row,
                    bool_decide (r !! "Brand" = Some k)) filtered_df))
         (group_keys brands);
  total ← num_column brand_health "Total Stock";
  forecast ← num_column brand_health "Forecast 4-Week Sales";
  let brand_health :=
    set_column brand_health "Stock Coverage Ratio"
      (Num <$> sdiv total forecast) in
  sort_values_desc brand_health "Avg WOS".

(** *** Stock Replenishment report *)

Definition weeks_coverage (filtered_df : DataFrame) : option DataFrame :=
  stock ← num_column filtered_df "Retailer number of units in stock";
  fc4 ← num_column filtered_df "Forecast sales for next 4 weeks";
  Some (set_column filtered_df "Weeks Coverage"
          (Num <$> sdiv stock
             (sclip_lower (F64 (dec 1 10))
                (sdiv_scalar fc4 (I64 4))))).

Definition reprint_candidates (filtered_df : DataFrame)
  : option DataFrame :=
  cov ← num_column filtered_df "Weeks Coverage";
  wh ← num_column filtered_df "Current number of units in DK warehouse";
  fc4 ← num_column filtered_df "Forecast sales for next 4 weeks";
  status ← column filtered_df "Print status";
  let mask :=
    sand (sand (slt_scalar cov (I64 6)) (slt wh fc4))
         (cell_ne_str "Out of Print" <$> status) in
  sort_values (boolean_index filtered_df mask) "Weeks Coverage".

(** The quantity is only computed when there is a candidate. *)
Definition recommended_reprint (reprint_candidates : DataFrame)
  : option DataFrame :=
  if (0 <? length reprint_candidates)%nat then
    fc12 ← num_column reprint_candidates "Forecast sales for next 12 weeks";
    stock ← num_column reprint_candidates
              "Retailer number of units in stock";
    wh ← num_column reprint_candidates
           "Current number of units in DK warehouse";
    Some (set_column reprint_candidates "Recommended Reprint"
            (Num <$> sclip_lower (I64 0)
               (ssub (ssub (smul_scalar fc12 (F64 (dec 15 10))) stock) wh)))
  else Some reprint_candidates.

Definition redistribution_candidates (filtered_df : DataFrame)
  : option DataFrame :=
  cov ← num_column filtered_df "Weeks Coverage";
  wh ← num_column filtered_df "Current number of units in DK warehouse";
  fc4 ← num_column filtered_df "Forecast sales for next 4 weeks";
  let mask :=
    sand (slt_scalar cov (I64 8))
         (sgt wh (smul_scalar fc4 (F64 (dec 5 10)))) in
  sort_values (boolean_index filtered_df mask) "Weeks Coverage".

Definition recommended_transfer (redistribution_candidates : DataFrame)
  : option DataFrame :=
  if (0 <? length redistribution_candidates)%nat then
    fc4 ← num_column redistribution_candidates
            "Forecast sales for next 4 weeks";
    stock ← num_column redistribution_candidates
              "Retailer number of units in stock";
    wh ← num_column redistribution_candidates
           "Current number of units in DK warehouse";
    Some (set_column redistribution_candidates "Recommended Transfer"
            (Num <$> sclip_upper
               (sclip_lower (I64 0)
                  (ssub (smul_scalar fc4 (I64 2)) stock))
               wh))
  else Some redistribution_candidates.

(** The report: both candidate tables, before they are cut to their first
    20 rows for display. *)
Definition stock_replenishment (filtered_df : DataFrame)
  : option (DataFrame * DataFrame) :=
  filtered_df ← weeks_coverage filtered_df;
  reprint ← reprint_candidates filtered_df;
  reprint ← recommended_reprint reprint;
  redistribution ← redistribution_candidates filtered_df;
  redistribution ← recommended_transfer redistribution;
  Some (reprint, redistribution).

(** *** Custom report *)

(** [filtered_df[selected_columns].copy()]. *)
Definition project (df : DataFrame) (selected_columns : list string)
  : option DataFrame :=
  mapM (λ r : Row,
          _ ← mapM (λ c, r !! c) selected_columns;
          Some (filter (λ kv : string * cell, kv.1 ∈ selected_columns) r))
       df.

Definition has (selected_columns : list string) (c : string) : bool :=
  bool_decide (c ∈ selected_columns).

(** The calculated fields of the custom report, for the ticked boxes and a
    selection that is not empty (with no column selected the page builds no
    report); the sort and the display that follow are not modelled. *)
Definition custom_report (filtered_df : DataFrame)
    (selected_columns : list string)
    (add_wos add_coverage_ratio add_reprint_recommendation : bool)
  : option DataFrame :=
  report_df ← project filtered_df selected_columns;
  report_df ←
    (if add_wos
        && has selected_columns "Retailer number of units in stock"
        && has selected_columns "Forecast sales for this week"
     then
       stock ← num_column report_df "Retailer number of units in stock";
       fc1 ← num_column report_df "Forecast sales for this week";
       Some (set_column report_df "Weeks of Supply"
               (Num <$> sdiv stock (sclip_lower (F64 (dec 1 10)) fc1)))
     else Some report_df);
  report_df ←
    (if add_coverage_ratio
        && has selected_columns "Retailer number of units in stock"
        && has selected_columns "Forecast sales for next 4 weeks"
     then
       stock ← num_column report_df "Retailer number of units in stock";
       fc4 ← num_column report_df "Forecast sales for next 4 weeks";
       Some (set_column report_df "4-Week Coverage Ratio"
               (Num <$> sdiv stock fc4))
     else Some report_df);
  report_df ←
    (if add_reprint_recommendation
        && has selected_columns "Retailer number of units in stock"
        && has selected_columns "Current number of units in DK warehouse"
        && has selected_columns "Forecast sales for next 12 weeks"
     then
       fc12 ← num_column report_df "Forecast sales for next 12 weeks";
       stock ← num_column report_df "Retailer number of units in stock";
       wh ← num_column report_df "Current number of units in DK warehouse";
       Some (set_column report_df "Reprint Recommendation"
               (Num <$> sclip_lower (I64 0)
                  (ssub (ssub (smul_scalar fc12 (F64 (dec 12 10))) stock)
                        wh)))
     else Some report_df);
  Some report_df.

End InventoryDashboard.

(** ** [dk_airflow.py] *)

Module Airflow.

(** [df.apply(f, axis=1)] hands [f] the rows of [df.values], one array for
    the whole frame.  A frame with a text column gives an array of Python
    objects: an integer cell is a Python [int], without bound; a frame of
    int64 columns only gives int64 values; any other frame of numbers gives
    float64 values, the integers converted. *)
Inductive values_dtype : Type :=
| object_values
| int64_values
| float64_values.

Definition is_text (c : cell) : bool :=
  match c with Str _ => true | Num _ => false end.

Definition is_int_cell (c : cell) : bool :=
  match c with Num (I64 _) => true | _ => false end.

Definition cells (df : DataFrame) : list cell :=
  df ≫= λ r : Row, (map_to_list r).*2.

Definition values_dtype_of (df : DataFrame) : values_dtype :=
  if existsb is_text (cells df) then object_values
  else if forallb is_int_cell (cells df) then int64_values
  else float64_values.

(** The values of a row. *)
Inductive value : Type :=
| py_int (z : Z)
| np_int64 (z : Z)
| py_float (f : spec_float)
| py_str (s : string).

Definition row_value (d : values_dtype) (c : cell) : value :=
  match c with
  | Str s => py_str s
  | Num (F64 f) => py_float f
  | Num (I64 z) =>
      match d with
      | object_values => py_int z
      | int64_values => np_int64 z
      | float64_values => py_float (of_int z)
      end
  end.

(** The exact comparison of an integer with a float, as Python compares an
    [int] with a [float]. *)
Definition compare_int_float (a : Z) (f : spec_float) : option comparison :=
  match f with
  | S754_nan => None
  | S754_infinity s => Some (if s then Gt else Lt)
  | S754_zero _ => Some (a ?= 0)
  | S754_finite s m e =>
      let v := cond_Zopp s (Zpos m) in
      Some (if 0 <=? e then a ?= v * 2 ^ e else a * 2 ^ (- e) ?= v)
  end.

(** [a + b] and [a < b] of Python on two values. *)
Definition py_add (a b : value) : option value :=
  match a, b with
  | py_int x, py_int y => Some (py_int (x + y))
  | np_int64 x, np_int64 y => Some (np_int64 (wrap (x + y)))
  | py_float x, py_float y => Some (py_float (fadd x y))
  | py_int x, py_float y => Some (py_float (fadd (of_int x) y))
  | py_float x, py_int y => Some (py_float (fadd x (of_int y)))
  | py_str s, py_str t => Some (py_str (s +:+ t))
  | _, _ => None
  end.

Definition py_lt (a b : value) : option bool :=
  match a, b with
  | py_int x, py_int y => Some (x <? y)
  | np_int64 x, np_int64 y => Some (x <? y)
  | py_float x, py_float y => Some (flt x y)
  | py_int x, py_float y =>
      Some (match compare_int_float x y with Some Lt => true | _ => false end)
  | py_float x, py_int y =>
      Some (match compare_int_float y x with Some Gt => true | _ => false end)
  | py_str s, py_str t => Some (String.ltb s t)
  | _, _ => None
  end.

(** The lambda applied to each row. *)
Definition stock_risk (d : values_dtype) (row : Row) : option string :=
  stock ← row !! "Retailer number of units in stock";
  wh ← row !! "Current number of units in DK warehouse";
  available ← py_add (row_value d stock) (row_value d wh);
  fc4 ← row !! "Forecast sales for next 4 weeks";
  b ← py_lt available (row_value d fc4);
  Some (if b : bool then "High" else "Low").

(** [generate_report], from the frame read to the frame written. *)
Definition generate_report (df : DataFrame) : option DataFrame :=
  risk ← mapM (stock_risk (values_dtype_of df)) df;
  Some (set_column df "Stock Risk" (Str <$> risk)).

End Airflow.

(** ** The formulas read row by row

    The source computes whole columns at a time.  The definitions below are
    the same formulas on a single row; the lemmas of the next sections show
    that the column programs above compute them on every row. *)

Module Rowwise.

Import RiskDashboard InventoryDashboard.

(** The number in column [c] of a row (NaN when there is none). *)
Definition getn (c : string) (r : Row) : num :=
  default NaN (r !! c ≫= as_num).

(** Column [c] of the row holds a number (possibly NaN). *)
Definition numeric (c : string) (r : Row) : Prop :=
  is_Some (r !! c ≫= as_num).

(** The row after [df[c] = v], [v] computed from the row itself. *)
Definition assign (c : string) (v : Row → cell) (r : Row) : Row :=
  <[c := v r]> r.

(** [a / b.replace(0, 1)] *)
Definition ratio (a b : string) (r : Row) : cell :=
  Num (ndiv (getn a r) (replace (I64 0) (I64 1) (getn b r))).

(** [(a1 + a2) / b.replace(0, 1)] *)
Definition ratio_sum (a1 a2 b : string) (r : Row) : cell :=
  Num (ndiv (nadd (getn a1 r) (getn a2 r))
            (replace (I64 0) (I64 1) (getn b r))).

(** The two conditions and the selection, on the derived columns. *)
Definition stockout_condition (r : Row) : bool :=
  nlt (getn "weeks_until_stockout" r) (I64 2)
  && nlt (getn "dk_warehouse_to_weekly_sales_ratio" r) (I64 4).

Definition overstock_condition (r : Row) : bool :=
  ngt (getn "total_available_to_12wk_forecast" r) (I64 20)
  || (ngt (getn "stock_to_weekly_sales_ratio" r) (I64 12)
      && ngt (getn "ordered_vs_forecasted" r) (F64 (dec 15 10))).

Definition select_risk (r : Row) : cell :=
  Str (if stockout_condition r then high_stockout_risk
       else if overstock_condition r then overstocking_risk
       else normal).

(** One row through [classify_inventory_risk], line by line. *)
Definition classify_row (r : Row) : Row :=
  let r := assign "weeks_until_stockout"
             (ratio "Retailer number of units in stock"
                    "Forecast sales for this week") r in
  let r := assign "dk_warehouse_to_weekly_sales_ratio"
             (ratio "Current number of units in DK warehouse"
                    "Retailer sales out last week") r in
  let r := assign "total_available_to_12wk_forecast"
             (ratio_sum "Retailer number of units in stock"
                        "Current number of units in DK warehouse"
                        "Forecast sales for next 12 weeks") r in
  let r := assign "stock_to_weekly_sales_ratio"
             (ratio "Retailer number of units in stock"
                    "Retailer sales out last week") r in
  let r := assign "ordered_vs_forecasted"
             (ratio "Number of units reatiler has ordered from DK"
                    "Forecast sales for next 4 weeks") r in
  assign "risk_category" select_risk r.

(** The rows [classify_inventory_risk] accepts: its seven input columns hold
    numbers. *)
Definition numeric_inputs (r : Row) : Prop :=
  numeric "Retailer number of units in stock" r ∧
  numeric "Forecast sales for this week" r ∧
  numeric "Current number of units in DK warehouse" r ∧
  numeric "Retailer sales out last week" r ∧
  numeric "Forecast sales for next 12 weeks" r ∧
  numeric "Number of units reatiler has ordered from DK" r ∧
  numeric "Forecast sales for next 4 weeks" r.

#[global] Instance numeric_dec c r : Decision (numeric c r).
Proof. unfold numeric. apply _. Defined.

#[global] Instance numeric_inputs_dec r : Decision (numeric_inputs r).
Proof. unfold numeric_inputs. apply _. Defined.

(** The five metrics and the label of a row, from its input columns. *)
Definition weeks_until_stockout (r : Row) : num :=
  ndiv (getn "Retailer number of units in stock" r)
       (replace (I64 0) (I64 1) (getn "Forecast sales for this week" r)).

Definition dk_warehouse_to_weekly_sales_ratio (r : Row) : num :=
  ndiv (getn "Current number of units in DK warehouse" r)
       (replace (I64 0) (I64 1) (getn "Retailer sales out last week" r)).

Definition total_available_to_12wk_forecast (r : Row) : num :=
  ndiv (nadd (getn "Retailer number of units in stock" r)
             (getn "Current number of units in DK warehouse" r))
       (replace (I64 0) (I64 1)
          (getn "Forecast sales for next 12 weeks" r)).

Definition stock_to_weekly_sales_ratio (r : Row) : num :=
  ndiv (getn "Retailer number of units in stock" r)
       (replace (I64 0) (I64 1) (getn "Retailer sales out last week" r)).

Definition ordered_vs_forecasted (r : Row) : num :=
  ndiv (getn "Number of units reatiler has ordered from DK" r)
       (replace (I64 0) (I64 1) (getn "Forecast sales for next 4 weeks" r)).

Definition risk_category (r : Row) : string :=
  if nlt (weeks_until_stockout r) (I64 2)
     && nlt (dk_warehouse_to_weekly_sales_ratio r) (I64 4)
  then high_stockout_risk
  else if ngt (total_available_to_12wk_forecast r) (I64 20)
          || (ngt (stock_to_weekly_sales_ratio r) (I64 12)
              && ngt (ordered_vs_forecasted r) (F64 (dec 15 10)))
  then overstocking_risk
  else normal.

(** The columns [classify_inventory_risk] reads, and those it writes. *)
Definition input_columns : list string :=
  ["Retailer number of units in stock"; "Forecast sales for this week";
   "Current number of units in DK warehouse"; "Retailer sales out last week";
   "Forecast sales for next 12 weeks";
   "Number of units reatiler has ordered from DK";
   "Forecast sales for next 4 weeks"].

Definition derived_columns : list string :=
  ["weeks_until_stockout"; "dk_warehouse_to_weekly_sales_ratio";
   "total_available_to_12wk_forecast"; "stock_to_weekly_sales_ratio";
   "ordered_vs_forecasted"; "risk_category"].

(** Two rows agree on the columns [cols]. *)
Definition same_on (cols : list string) (r s : Row) : Prop :=
  ∀ c, c ∈ cols → r !! c = s !! c.

(** A required numeric field of the row is missing (NaN). *)
Definition missing_field (r : Row) : Prop :=
  ∃ c, c ∈ input_columns ∧ r !! c = Some (Num NaN).

(** The columns of the five ratios, and for each the input columns it is
    computed from. *)
Definition metric_columns : list string :=
  ["weeks_until_stockout"; "dk_warehouse_to_weekly_sales_ratio";
   "total_available_to_12wk_forecast"; "stock_to_weekly_sales_ratio";
   "ordered_vs_forecasted"].

Definition metric_inputs : list (string * list string) :=
  [("weeks_until_stockout",
    ["Retailer number of units in stock"; "Forecast sales for this week"]);
   ("dk_warehouse_to_weekly_sales_ratio",
    ["Current number of units in DK warehouse";
     "Retailer sales out last week"]);
   ("total_available_to_12wk_forecast",
    ["Retailer number of units in stock";
     "Current number of units in DK warehouse";
     "Forecast sales for next 12 weeks"]);
   ("stock_to_weekly_sales_ratio",
    ["Retailer number of units in stock"; "Retailer sales out last week"]);
   ("ordered_vs_forecasted",
    ["Number of units reatiler has ordered from DK";
     "Forecast sales for next 4 weeks"])].

(** A required column is absent from the row. *)
Definition absent_field (r : Row) : Prop :=
  ∃ c, c ∈ input_columns ∧ r !! c = None.

(** *** The scheduled report *)

Definition report_columns : list string :=
  ["Retailer number of units in stock";
   "Current number of units in DK warehouse";
   "Forecast sales for next 4 weeks"].

Definition report_inputs (r : Row) : Prop :=
  numeric "Retailer number of units in stock" r ∧
  numeric "Current number of units in DK warehouse" r ∧
  numeric "Forecast sales for next 4 weeks" r.

#[global] Instance report_inputs_dec r : Decision (report_inputs r).
Proof. unfold report_inputs. apply _. Defined.

(** The cell in column [c] of a row (NaN when there is none). *)
Definition getc (c : string) (r : Row) : cell := default (Num NaN) (r !! c).

(** [stock + warehouse < forecast] on the values of a row. *)
Definition stock_short (d : Airflow.values_dtype) (r : Row) : option bool :=
  available ←
    Airflow.py_add
      (Airflow.row_value d (getc "Retailer number of units in stock" r))
      (Airflow.row_value d
         (getc "Current number of units in DK warehouse" r));
  Airflow.py_lt available
    (Airflow.row_value d (getc "Forecast sales for next 4 weeks" r)).

Definition stock_risk_label (d : Airflow.values_dtype) (r : Row) : string :=
  if default false (stock_short d r) then "High" else "Low".

(** The row fits the values of its frame: among int64 values, its cells are
    integers. *)
Definition fits (d : Airflow.values_dtype) (r : Row) : Prop :=
  d = Airflow.int64_values →
  ∀ c v, c ∈ report_columns → r !! c = Some v →
         Airflow.is_int_cell v = true.

(** *** The inventory health report *)

Definition health_inputs (r : Row) : Prop :=
  numeric "Retailer number of units in stock" r ∧
  numeric "Forecast sales for this week" r.

#[global] Instance health_inputs_dec r : Decision (health_inputs r).
Proof. unfold health_inputs. apply _. Defined.

Definition calculated_wos_cell (r : Row) : cell :=
  Num (ndiv (getn "Retailer number of units in stock" r)
            (clip_lower (F64 (dec 1 10))
               (getn "Forecast sales for this week" r))).

Definition wos_category_cell (r : Row) : cell :=
  cut wos_bins wos_labels (getn "Calculated WOS" r).

Definition health_row (r : Row) : Row :=
  assign "WOS Category" wos_category_cell
    (assign "Calculated WOS" calculated_wos_cell r).

(** *** The stock replenishment report *)

Definition present (c : string) (r : Row) : Prop := is_Some (r !! c).

Definition replenishment_columns : list string :=
  ["Retailer number of units in stock";
   "Current number of units in DK warehouse";
   "Forecast sales for next 4 weeks";
   "Forecast sales for next 12 weeks"].

Definition replenishment_inputs (r : Row) : Prop :=
  numeric "Retailer number of units in stock" r ∧
  numeric "Current number of units in DK warehouse" r ∧
  numeric "Forecast sales for next 4 weeks" r ∧
  numeric "Forecast sales for next 12 weeks" r ∧
  present "Print status" r.

#[global] Instance replenishment_inputs_dec r :
  Decision (replenishment_inputs r).
Proof. unfold replenishment_inputs, present. apply _. Defined.

Definition weeks_coverage_cell (r : Row) : cell :=
  Num (ndiv (getn "Retailer number of units in stock" r)
            (clip_lower (F64 (dec 1 10))
               (ndiv (getn "Forecast sales for next 4 weeks" r) (I64 4)))).

Definition is_reprint_candidate (r : Row) : bool :=
  nlt (getn "Weeks Coverage" r) (I64 6)
  && nlt (getn "Current number of units in DK warehouse" r)
         (getn "Forecast sales for next 4 weeks" r)
  && cell_ne_str "Out of Print" (getc "Print status" r).

Definition recommended_reprint_cell (r : Row) : cell :=
  Num (clip_lower (I64 0)
         (nsub (nsub (nmul (getn "Forecast sales for next 12 weeks" r)
                           (F64 (dec 15 10)))
                     (getn "Retailer number of units in stock" r))
               (getn "Current number of units in DK warehouse" r))).

Definition is_redistribution_candidate (r : Row) : bool :=
  nlt (getn "Weeks Coverage" r) (I64 8)
  && ngt (getn "Current number of units in DK warehouse" r)
         (nmul (getn "Forecast sales for next 4 weeks" r)
               (F64 (dec 5 10))).

(** The transfer of a row, and the value the column stores for it: the
    float of it when the column is a float64 column ([up]). *)
Definition transfer (r : Row) : num :=
  clip_upper (getn "Current number of units in DK warehouse" r)
    (clip_lower (I64 0)
       (nsub (nmul (getn "Forecast sales for next 4 weeks" r) (I64 2))
             (getn "Retailer number of units in stock" r))).

Definition stored (up : bool) (x : num) : num :=
  if up then F64 (to_float x) else x.

Definition recommended_transfer_cell (up : bool) (r : Row) : cell :=
  Num (stored up (transfer r)).

(** The rows of a frame in the order [sort_values(c)] gives them. *)
Definition sort_rows (c : string) (l : DataFrame) : DataFrame :=
  snd <$> merge_sort key_le (zip (getn c <$> l) l).

Definition reprint_table (df : DataFrame) : DataFrame :=
  assign "Recommended Reprint" recommended_reprint_cell
    <$> sort_rows "Weeks Coverage"
          (List.filter is_reprint_candidate
             (assign "Weeks Coverage" weeks_coverage_cell <$> df)).

Definition redistribution_table (df : DataFrame) : DataFrame :=
  let candidates :=
    sort_rows "Weeks Coverage"
      (List.filter is_redistribution_candidate
         (assign "Weeks Coverage" weeks_coverage_cell <$> df)) in
  assign "Recommended Transfer"
    (recommended_transfer_cell
       (existsb (λ r, is_float (transfer r)) candidates))
    <$> candidates.

(** *** The custom report *)

Definition custom_numeric_columns : list string :=
  ["Retailer number of units in stock"; "Forecast sales for this week";
   "Forecast sales for next 4 weeks";
   "Current number of units in DK warehouse";
   "Forecast sales for next 12 weeks"].

(** Every selected column is in the row, a number where one is expected. *)
Definition selection_ok (selected_columns : list string) (r : Row) : Prop :=
  ∀ c, c ∈ selected_columns →
    present c r ∧ (c ∈ custom_numeric_columns → numeric c r).

(** The selected numeric columns hold numbers in every row of the frame. *)
Definition selected_numeric (selected_columns : list string)
    (l : DataFrame) : Prop :=
  ∀ c, c ∈ selected_columns → c ∈ custom_numeric_columns →
       Forall (numeric c) l.

Definition reprint_recommendation_cell (r : Row) : cell :=
  Num (clip_lower (I64 0)
         (nsub (nsub (nmul (getn "Forecast sales for next 12 weeks" r)
                           (F64 (dec 12 10)))
                     (getn "Retailer number of units in stock" r))
               (getn "Current number of units in DK warehouse" r))).

Definition project_row (selected_columns : list string) (r : Row) : Row :=
  filter (λ kv : string * cell, kv.1 ∈ selected_columns) r.

Definition weeks_of_supply_cell (r : Row) : cell :=
  Num (ndiv (getn "Retailer number of units in stock" r)
            (clip_lower (F64 (dec 1 10))
               (getn "Forecast sales for this week" r))).

Definition coverage_ratio_cell (r : Row) : cell :=
  Num (ndiv (getn "Retailer number of units in stock" r)
            (getn "Forecast sales for next 4 weeks" r)).

(** [assign], when the box is ticked and the columns are selected. *)
Definition assign_if (b : bool) (c : string) (v : Row → cell) (r : Row)
  : Row :=
  if b then assign c v r else r.

Definition custom_row (selected_columns : list string)
    (add_wos add_coverage_ratio add_reprint_recommendation : bool) (r : Row)
  : Row :=
  let r := project_row selected_columns r in
  let r :=
    assign_if
      (add_wos
       && has selected_columns "Retailer number of units in stock"
       && has selected_columns "Forecast sales for this week")
      "Weeks of Supply" weeks_of_supply_cell r in
  let r :=
    assign_if
      (add_coverage_ratio
       && has selected_columns "Retailer number of units in stock"
       && has selected_columns "Forecast sales for next 4 weeks")
      "4-Week Coverage Ratio" coverage_ratio_cell r in
  assign_if
    (add_reprint_recommendation
     && has selected_columns "Retailer number of units in stock"
     && has selected_columns "Current number of units in DK warehouse"
     && has selected_columns "Forecast sales for next 12 weeks")
    "Reprint Recommendation" reprint_recommendation_cell r.

End Rowwise.

Export Rowwise.

(** ** The specification's formulas

    The definitions of this module follow the words of the specification, on
    the fields of one record.  They are what the code is compared with.  The
    arithmetic is that of the fields: [+], [-], [*] on two int64 fields are
    int64 operations, every other operation is a float64 operation, and [/]
    is always a float64 division. *)

Module Spec.

Record inventory : Type := {
  units_in_stock : num;
  warehouse_units : num;
  units_ordered : num;
  sales_last_week : num;
  forecast_this_week : num;
  forecast_4wk : num;
  forecast_12wk : num
}.

(** The row holds the record. *)
Definition holds (r : Row) (x : inventory) : Prop :=
  r !! "Retailer number of units in stock"
    = Some (Num (units_in_stock x)) ∧
  r !! "Current number of units in DK warehouse"
    = Some (Num (warehouse_units x)) ∧
  r !! "Number of units reatiler has ordered from DK"
    = Some (Num (units_ordered x)) ∧
  r !! "Retailer sales out last week"
    = Some (Num (sales_last_week x)) ∧
  r !! "Forecast sales for this week"
    = Some (Num (forecast_this_week x)) ∧
  r !! "Forecast sales for next 4 weeks"
    = Some (Num (forecast_4wk x)) ∧
  r !! "Forecast sales for next 12 weeks"
    = Some (Num (forecast_12wk x)).

(** The spreadsheet row of a record, with further columns [more]. *)
Definition inventory_row (x : inventory) (more : Row) : Row :=
  <["Retailer number of units in stock" := Num (units_in_stock x)]>
  (<["Current number of units in DK warehouse" := Num (warehouse_units x)]>
  (<["Number of units reatiler has ordered from DK" :=
       Num (units_ordered x)]>
  (<["Retailer sales out last week" := Num (sales_last_week x)]>
  (<["Forecast sales for this week" := Num (forecast_this_week x)]>
  (<["Forecast sales for next 4 weeks" := Num (forecast_4wk x)]>
  (<["Forecast sales for next 12 weeks" := Num (forecast_12wk x)]>
   more)))))).

(** "max(a, b)" and "min(a, b)"; the result is in the dtype of [a]. *)
Definition max (a b : num) : num := if nlt a b then astype_like a b else a.

Definition min (a b : num) : num := if nlt b a then astype_like a b else a.

(** "max(denominator, floor)" *)
Definition max_floor (floor d : num) : num := max d floor.

(** "a denominator of exactly 0 is replaced by 1" *)
Definition zero_to_one (d : num) : num :=
  if neqb d (I64 0) then astype_like d (I64 1) else d.

Definition weeks_until_stockout (x : inventory) : num :=
  ndiv (units_in_stock x) (zero_to_one (forecast_this_week x)).

Definition warehouse_to_weekly_sales_ratio (x : inventory) : num :=
  ndiv (warehouse_units x) (zero_to_one (sales_last_week x)).

Definition total_available_to_12wk_forecast (x : inventory) : num :=
  ndiv (nadd (units_in_stock x) (warehouse_units x))
       (zero_to_one (forecast_12wk x)).

Definition stock_to_weekly_sales_ratio (x : inventory) : num :=
  ndiv (units_in_stock x) (zero_to_one (sales_last_week x)).

Definition ordered_vs_forecasted (x : inventory) : num :=
  ndiv (units_ordered x) (zero_to_one (forecast_4wk x)).

(** Rule 1 and rule 2 of the risk classification. *)
Definition rule1 (x : inventory) : Prop :=
  nlt (weeks_until_stockout x) (I64 2) = true ∧
  nlt (warehouse_to_weekly_sales_ratio x) (I64 4) = true.

Definition rule2 (x : inventory) : Prop :=
  ngt (total_available_to_12wk_forecast x) (I64 20) = true ∨
  (ngt (stock_to_weekly_sales_ratio x) (I64 12) = true ∧
   ngt (ordered_vs_forecasted x) (F64 (dec 15 10)) = true).

#[global] Instance rule1_dec x : Decision (rule1 x).
Proof. unfold rule1. apply _. Defined.

#[global] Instance rule2_dec x : Decision (rule2 x).
Proof. unfold rule2. apply _. Defined.

(** "stock_coverage_weeks_4wk = units_in_stock / max(forecast_4wk/4, floor)",
    with the floor 0.1 of the replenishment report. *)
Definition stock_coverage_weeks_4wk (x : inventory) : num :=
  ndiv (units_in_stock x)
       (max_floor (F64 (dec 1 10)) (ndiv (forecast_4wk x) (I64 4))).

(** "weeks_of_supply = units_in_stock / max(forecast_this_week, floor)", with
    the floor 0.1 of the inventory health report. *)
Definition weeks_of_supply (x : inventory) : num :=
  ndiv (units_in_stock x)
       (max_floor (F64 (dec 1 10)) (forecast_this_week x)).

(** "max(0, forecast_12wk * 1.5 - units_in_stock - warehouse_units)" *)
Definition recommended_reprint (x : inventory) : num :=
  max (nsub (nsub (nmul (forecast_12wk x) (F64 (dec 15 10)))
                  (units_in_stock x))
            (warehouse_units x))
      (I64 0).

(** "max(0, forecast_12wk * 1.2 - units_in_stock - warehouse_units)" *)
Definition custom_reprint_recommendation (x : inventory) : num :=
  max (nsub (nsub (nmul (forecast_12wk x) (F64 (dec 12 10)))
                  (units_in_stock x))
            (warehouse_units x))
      (I64 0).

(** "clip(0, warehouse_units, forecast_4wk * 2 - units_in_stock)
    (clamped to available warehouse stock, floored at zero)" *)
Definition recommended_transfer (x : inventory) : num :=
  min (max (nsub (nmul (forecast_4wk x) (I64 2)) (units_in_stock x))
           (I64 0))
      (warehouse_units x).

(** The buckets as the specification words them: right-open intervals
    [0,4) [4,8) ... [24,inf). *)
Definition wos_bucket_right_open (x : num) : option string :=
  if is_nan x || nlt x (I64 0) then None
  else if nlt x (I64 4) then Some "0-4 weeks"
  else if nlt x (I64 8) then Some "4-8 weeks"
  else if nlt x (I64 12) then Some "8-12 weeks"
  else if nlt x (I64 16) then Some "12-16 weeks"
  else if nlt x (I64 20) then Some "16-20 weeks"
  else if nlt x (I64 24) then Some "20-24 weeks"
  else Some "24+ weeks".

End Spec.

(** ** The order of float64

    A float that is not NaN has a rank: its class (-inf, negative, zero,
    positive, +inf), then its exponent and its mantissa, both counted
    downwards for a negative float.  The comparison of floats is the
    lexicographic comparison of their ranks. *)

Module FloatOrder.

Definition fnan (f : spec_float) : bool :=
  match f with S754_nan => true | _ => false end.

Definition rank (f : spec_float) : Z * Z * Z :=
  match f with
  | S754_nan => (3, 0, 0)
  | S754_infinity true => (-2, 0, 0)
  | S754_infinity false => (2, 0, 0)
  | S754_zero _ => (0, 0, 0)
  | S754_finite true m e => (-1, - e, Zneg m)
  | S754_finite false m e => (1, e, Zpos m)
  end.

Definition lex_lt (a b : Z * Z * Z) : Prop :=
  a.1.1 < b.1.1 ∨
  (a.1.1 = b.1.1 ∧ (a.1.2 < b.1.2 ∨ (a.1.2 = b.1.2 ∧ a.2 < b.2))).

Definition lex_eq (a b : Z * Z * Z) : Prop :=
  a.1.1 = b.1.1 ∧ a.1.2 = b.1.2 ∧ a.2 = b.2.

End FloatOrder.

Export FloatOrder.

(** ** Example records

    The stock, warehouse, order and sales fields are integers, the forecasts
    are floats. *)

Module Examples.

(** stock=10, warehouse=5, forecast_this_week=10, sales_last_week=20: the
    specification's stock-out example, with a 12-week forecast so small that
    rule 2 holds as well. *)
Definition both_rules : Spec.inventory :=
  {| Spec.units_in_stock := I64 10;
     Spec.warehouse_units := I64 5;
     Spec.units_ordered := I64 0;
     Spec.sales_last_week := I64 20;
     Spec.forecast_this_week := F64 (of_int 10);
     Spec.forecast_4wk := F64 (of_int 40);
     Spec.forecast_12wk := F64 (dec 5 10) |}.

(** A title with no sales forecast for this week. *)
Definition zero_forecast : Spec.inventory :=
  {| Spec.units_in_stock := I64 10;
     Spec.warehouse_units := I64 5;
     Spec.units_ordered := I64 0;
     Spec.sales_last_week := I64 20;
     Spec.forecast_this_week := F64 (of_int 0);
     Spec.forecast_4wk := F64 (of_int 40);
     Spec.forecast_12wk := F64 (of_int 100) |}.

(** A title forecast to sell half a unit this week. *)
Definition half_forecast : Spec.inventory :=
  {| Spec.units_in_stock := I64 10;
     Spec.warehouse_units := I64 5;
     Spec.units_ordered := I64 0;
     Spec.sales_last_week := I64 20;
     Spec.forecast_this_week := F64 (dec 5 10);
     Spec.forecast_4wk := F64 (of_int 40);
     Spec.forecast_12wk := F64 (of_int 100) |}.

(** Four units in stock and one forecast for this week: a weeks-of-supply
    value on the boundary 4. *)
Definition boundary_wos : Spec.inventory :=
  {| Spec.units_in_stock := I64 4;
     Spec.warehouse_units := I64 5;
     Spec.units_ordered := I64 0;
     Spec.sales_last_week := I64 2;
     Spec.forecast_this_week := F64 (of_int 1);
     Spec.forecast_4wk := F64 (of_int 4);
     Spec.forecast_12wk := F64 (of_int 12) |}.

(** stock=50, warehouse=20, forecast_4wk=40: the specification's reprint
    example, with a 12-week forecast of 120. *)
Definition reprint_example : Spec.inventory :=
  {| Spec.units_in_stock := I64 50;
     Spec.warehouse_units := I64 20;
     Spec.units_ordered := I64 0;
     Spec.sales_last_week := I64 10;
     Spec.forecast_this_week := F64 (of_int 10);
     Spec.forecast_4wk := F64 (of_int 40);
     Spec.forecast_12wk := F64 (of_int 120) |}.

(** A title short at the retailer with ample warehouse stock. *)
Definition redistribution_example : Spec.inventory :=
  {| Spec.units_in_stock := I64 16;
     Spec.warehouse_units := I64 30;
     Spec.units_ordered := I64 0;
     Spec.sales_last_week := I64 10;
     Spec.forecast_this_week := F64 (of_int 10);
     Spec.forecast_4wk := F64 (of_int 40);
     Spec.forecast_12wk := F64 (of_int 120) |}.

Definition in_print : Row := <["Print status" := Str "In Print"]> ∅.

(** Five units in stock of a title with no sales and no forecast at all. *)
Definition no_forecast : Spec.inventory :=
  {| Spec.units_in_stock := I64 5;
     Spec.warehouse_units := I64 0;
     Spec.units_ordered := I64 0;
     Spec.sales_last_week := I64 0;
     Spec.forecast_this_week := F64 (of_int 0);
     Spec.forecast_4wk := F64 (of_int 0);
     Spec.forecast_12wk := F64 (of_int 0) |}.

(** A title whose sales of last week are missing; its sales column is then a
    float64 column. *)
Definition missing_sales : Spec.inventory :=
  {| Spec.units_in_stock := I64 500;
     Spec.warehouse_units := I64 5;
     Spec.units_ordered := I64 0;
     Spec.sales_last_week := NaN;
     Spec.forecast_this_week := F64 (of_int 10);
     Spec.forecast_4wk := F64 (of_int 40);
     Spec.forecast_12wk := F64 (of_int 10) |}.

(** The text columns of a title. *)
Definition catalogue : Row :=
  <["ISBN" := Str "9780000000002"]>
  (<["Brand" := Str "DK"]>
  (<["Print status" := Str "In Print"]> ∅)).

(** A spreadsheet row whose numeric cells are all empty. *)
Definition empty_cells : Row :=
  <["Retailer number of units in stock" := Num NaN]>
  (<["Current number of units in DK warehouse" := Num NaN]>
  (<["Number of units reatiler has ordered from DK" := Num NaN]>
  (<["Retailer sales out last week" := Num NaN]>
  (<["Forecast sales for this week" := Num NaN]>
  (<["Forecast sales for next 4 weeks" := Num NaN]>
  (<["Forecast sales for next 12 weeks" := Num NaN]>
  (<["ISBN" := Str "9780000000001"]> ∅))))))).

(** The text columns of a title, with its name. *)
Definition title (isbn name brand status : string) : Row :=
  <["ISBN" := Str isbn]>
  (<["Product title" := Str name]>
  (<["Brand" := Str brand]>
  (<["Print status" := Str status]> ∅))).

(** A sheet of four titles of two brands. *)
Definition sheet : DataFrame :=
  [ Spec.inventory_row both_rules
      (title "9780000000003" "Atlas" "DK" "In Print");
    Spec.inventory_row no_forecast
      (title "9780000000004" "Almanac" "DK" "Out of Print");
    Spec.inventory_row reprint_example
      (title "9780000000005" "Bird Guide" "DK Children" "In Print");
    Spec.inventory_row redistribution_example
      (title "9780000000006" "Cook Book" "DK Children" "In Print") ].

(** A store that holds one DataFrame, under the reference 0. *)
Definition store (fr : DataFrame) : Store := {[ 0%nat := fr ]}.

End Examples.

(** * Properties *)

(** ** Numbers *)

Section float_order.
Implicit Types f g h : spec_float.

Lemma SFcompare_rank f g :
  fnan f = false → fnan g = false →
  match SFcompare f g with
  | Some Lt => lex_lt (rank f) (rank g)
  | Some Eq => rank f = rank g
  | Some Gt => lex_lt (rank g) (rank f)
  | None => False
  end.
Proof.
  unfold lex_lt.
  destruct f as [[]|[]| |[] m1 e1], g as [[]|[]| |[] m2 e2]; cbn;
    try discriminate; intros _ _; try lia; try reflexivity.
  - destruct (Z.compare_spec e1 e2); cbn; try lia.
    subst. change (Pos.compare_cont Eq m1 m2) with (Pos.compare m1 m2).
    destruct (Pos.compare_spec m1 m2); cbn; try lia. by subst.
  - destruct (Z.compare_spec e1 e2); cbn; try lia.
    subst. change (Pos.compare_cont Eq m1 m2) with (Pos.compare m1 m2).
    destruct (Pos.compare_spec m1 m2); cbn; try lia. by subst.
Qed.

Lemma SFcompare_nan f g :
  fnan f = true ∨ fnan g = true → SFcompare f g = None.
Proof. destruct f as [| | |], g as [| | |]; cbn; intuition discriminate. Qed.

Lemma lex_lt_irrefl a : ¬ lex_lt a a.
Proof. unfold lex_lt. lia. Qed.

Lemma lex_lt_trans a b c : lex_lt a b → lex_lt b c → lex_lt a c.
Proof. unfold lex_lt. lia. Qed.

Lemma lex_lt_asym a b : lex_lt a b → ¬ lex_lt b a.
Proof. unfold lex_lt. lia. Qed.

Lemma lex_total a b : lex_lt a b ∨ a = b ∨ lex_lt b a.
Proof.
  destruct a as [[a1 a2] a3], b as [[b1 b2] b3]. unfold lex_lt. cbn.
  destruct (Z.lt_total a1 b1) as [?|[->|?]]; [lia| |lia].
  destruct (Z.lt_total a2 b2) as [?|[->|?]]; [lia| |lia].
  destruct (Z.lt_total a3 b3) as [?|[->|?]]; [lia| |lia].
  auto.
Qed.

Lemma flt_rank f g :
  flt f g = true ↔
  fnan f = false ∧ fnan g = false ∧ lex_lt (rank f) (rank g).
Proof.
  unfold flt, SFltb. destruct (fnan f) eqn:Hf.
  { rewrite SFcompare_nan by auto. intuition discriminate. }
  destruct (fnan g) eqn:Hg.
  { rewrite SFcompare_nan by auto. intuition discriminate. }
  pose proof (SFcompare_rank f g Hf Hg) as H.
  destruct (SFcompare f g) as [[]|]; try done.
  - split; [done|]. intros (_ & _ & L). rewrite H in L.
    by apply lex_lt_irrefl in L.
  - split; [done|]. intros (_ & _ & L). by apply lex_lt_asym in L.
Qed.

Lemma feq_rank f g :
  feq f g = true ↔ fnan f = false ∧ fnan g = false ∧ rank f = rank g.
Proof.
  unfold feq, SFeqb. destruct (fnan f) eqn:Hf.
  { rewrite SFcompare_nan by auto. intuition discriminate. }
  destruct (fnan g) eqn:Hg.
  { rewrite SFcompare_nan by auto. intuition discriminate. }
  pose proof (SFcompare_rank f g Hf Hg) as H.
  destruct (SFcompare f g) as [[]|]; try done.
  - split; [done|]. intros (_ & _ & E). rewrite E in H.
    by apply lex_lt_irrefl in H.
  - split; [done|]. intros (_ & _ & E). rewrite E in H.
    by apply lex_lt_irrefl in H.
Qed.

Lemma fle_rank f g :
  fle f g = true ↔
  fnan f = false ∧ fnan g = false ∧
  (lex_lt (rank f) (rank g) ∨ rank f = rank g).
Proof.
  unfold fle, SFleb. destruct (fnan f) eqn:Hf.
  { rewrite SFcompare_nan by auto. intuition discriminate. }
  destruct (fnan g) eqn:Hg.
  { rewrite SFcompare_nan by auto. intuition discriminate. }
  pose proof (SFcompare_rank f g Hf Hg) as H.
  destruct (SFcompare f g) as [[]|]; try done.
  - tauto.
  - tauto.
  - split; [done|]. intros (_ & _ & [L|E]).
    + by apply lex_lt_asym in L.
    + rewrite E in H. by apply lex_lt_irrefl in H.
Qed.

Lemma flt_irrefl f : flt f f = false.
Proof.
  apply not_true_is_false. rewrite flt_rank. intros (_ & _ & H).
  by apply lex_lt_irrefl in H.
Qed.

Lemma flt_trans f g h : flt f g = true → flt g h = true → flt f h = true.
Proof.
  rewrite !flt_rank. intros (? & ? & ?) (_ & ? & ?).
  eauto using lex_lt_trans.
Qed.

Lemma flt_asym f g : flt f g = true → flt g f = false.
Proof.
  intros H. apply not_true_is_false. revert H. rewrite !flt_rank.
  intros (_ & _ & H) (_ & _ & H'). by apply lex_lt_asym in H.
Qed.

(** Among floats that are not NaN, [<=] is the negation of [>]. *)
Lemma fle_not_flt f g :
  fnan f = false → fnan g = false → fle f g = negb (flt g f).
Proof.
  intros Hf Hg. apply eq_true_iff_eq.
  rewrite negb_true_iff, <- not_true_iff_false, fle_rank, flt_rank.
  destruct (lex_total (rank f) (rank g)) as [L|[E|L]].
  - split; [|tauto]. intros _ (_ & _ & L'). by apply lex_lt_asym in L.
  - split; [|tauto]. intros _ (_ & _ & L'). rewrite E in L'.
    by apply lex_lt_irrefl in L'.
  - split; [|tauto]. intros (_ & _ & [L'|E]).
    + by apply lex_lt_asym in L.
    + rewrite E in L. by apply lex_lt_irrefl in L.
Qed.

Lemma flt_fle f g : flt f g = true → fle f g = true.
Proof. rewrite flt_rank, fle_rank. tauto. Qed.

Lemma fle_trans f g h : fle f g = true → fle g h = true → fle f h = true.
Proof.
  rewrite !fle_rank. intros (? & ? & H1) (_ & ? & H2).
  split; [done|]. split; [done|].
  destruct H1 as [L1|E1], H2 as [L2|E2].
  - left. eauto using lex_lt_trans.
  - left. by rewrite <- E2.
  - left. by rewrite E1.
  - right. congruence.
Qed.

Lemma flt_fle_trans f g h :
  flt f g = true → fle g h = true → flt f h = true.
Proof.
  rewrite !flt_rank, fle_rank. intros (? & ? & L1) (_ & ? & H2).
  split; [done|]. split; [done|].
  destruct H2 as [L2|E2]; [eauto using lex_lt_trans | by rewrite <- E2].
Qed.

Lemma fle_flt_trans f g h :
  fle f g = true → flt g h = true → flt f h = true.
Proof.
  rewrite !flt_rank, fle_rank. intros (? & ? & H1) (_ & ? & L2).
  split; [done|]. split; [done|].
  destruct H1 as [L1|E1]; [eauto using lex_lt_trans | by rewrite E1].
Qed.

Lemma fle_total f g :
  fnan f = false → fnan g = false → fle f g = true ∨ fle g f = true.
Proof.
  intros Hf Hg. rewrite !fle_rank.
  destruct (lex_total (rank f) (rank g)) as [L|[E|L]]; auto 10.
Qed.

Lemma flt_nan_l g : flt S754_nan g = false.
Proof. done. Qed.

Lemma flt_nan_r f : flt f S754_nan = false.
Proof. by destruct f. Qed.

Lemma fdiv_nan_r f : fdiv f S754_nan = S754_nan.
Proof. by destruct f. Qed.

Lemma fadd_nan_r f : fadd f S754_nan = S754_nan.
Proof. by destruct f. Qed.

(** Rounding keeps the sign. *)
Lemma binary_round_aux_sign sx mx ex lx :
  match binary_round_aux prec emax sx mx ex lx with
  | S754_zero s | S754_infinity s | S754_finite s _ _ => s = sx
  | S754_nan => True
  end.
Proof.
  unfold binary_round_aux.
  destruct (shr_fexp _ _ _ _ _) as [mrs' e'].
  destruct (shr_fexp _ _ _ _ _) as [mrs'' e''].
  destruct (shr_m mrs''); [done| |done].
  by destruct (_ <=? _).
Qed.

Lemma binary_round_sign sx mx ex :
  match binary_round prec emax sx mx ex with
  | S754_zero s | S754_infinity s | S754_finite s _ _ => s = sx
  | S754_nan => True
  end.
Proof.
  unfold binary_round. destruct (shl_align _ _ _) as [mz ez].
  apply binary_round_aux_sign.
Qed.

(** The float of an integer that is not negative is not below 0. *)
Lemma of_int_nonneg z : 0 ≤ z → flt (of_int z) (of_int 0) = false.
Proof.
  intros Hz. unfold of_int, binary_normalize.
  destruct z as [|p|p]; [done| |lia].
  pose proof (binary_round_sign false p 0) as H.
  by destruct (binary_round _ _ _ _ _) as [[]|[]| |[]].
Qed.

Lemma of_int_nonpos z : z ≤ 0 → flt (of_int 0) (of_int z) = false.
Proof.
  intros Hz. unfold of_int, binary_normalize.
  destruct z as [|p|p]; [done|lia|].
  pose proof (binary_round_sign true p 0) as H.
  by destruct (binary_round _ _ _ _ _) as [[]|[]| |[]].
Qed.

End float_order.

Section num_facts.
Implicit Types x y z : num.

Lemma to_float_astype_like x v :
  to_float (astype_like x v) = to_float v.
Proof. by destruct x, v. Qed.

Lemma is_float_astype_like x v :
  is_float x = true → is_float (astype_like x v) = true.
Proof. by destruct x, v. Qed.

Lemma nlt_irrefl x : nlt x x = false.
Proof. destruct x; cbn; [apply Z.ltb_irrefl | apply flt_irrefl]. Qed.

Lemma nlt_nan_l x y : is_nan x = true → nlt x y = false.
Proof. by destruct x as [|[]], y. Qed.

Lemma nlt_nan_r x y : is_nan y = true → nlt x y = false.
Proof.
  destruct y as [|[]]; try done. intros _.
  destruct x; cbn; apply flt_nan_r.
Qed.

Lemma neqb_nan_l x y : is_nan x = true → neqb x y = false.
Proof. by destruct x as [|[]], y. Qed.

Lemma nle_nan_l x y : is_nan x = true → nle x y = false.
Proof. by destruct x as [|[]], y. Qed.

Lemma nle_nan_r x y : is_nan y = true → nle x y = false.
Proof.
  destruct y as [|[]]; try done. intros _.
  destruct x as [a|f]; cbn; [by destruct (of_int a) | by destruct f].
Qed.

Lemma ndiv_nan_l x y : is_nan x = true → ndiv x y = NaN.
Proof. by destruct x as [|[]]. Qed.

Lemma ndiv_nan_r x y : is_nan y = true → ndiv x y = NaN.
Proof.
  destruct y as [|[]]; try done. intros _. unfold ndiv, NaN. f_equal.
  apply fdiv_nan_r.
Qed.

Lemma nadd_nan_l x y : is_nan x = true → nadd x y = NaN.
Proof. by destruct x as [|[]], y. Qed.

Lemma nadd_nan_r x y : is_nan y = true → nadd x y = NaN.
Proof.
  destruct y as [|[]]; try done. intros _.
  destruct x; unfold nadd, NaN; cbn; f_equal; apply fadd_nan_r.
Qed.

Lemma replace_nan old new x : is_nan x = true → replace old new x = x.
Proof. intros H. unfold replace. by rewrite neqb_nan_l. Qed.

(** A quotient is a float. *)
Lemma is_float_ndiv x y : is_float (ndiv x y) = true.
Proof. done. Qed.

Lemma ndiv_to_float_r x y : ndiv x (F64 (to_float y)) = ndiv x y.
Proof. done. Qed.

Lemma ndiv_astype_like x y v : ndiv x (astype_like y v) = ndiv x v.
Proof. unfold ndiv. by rewrite to_float_astype_like. Qed.

(** The specification's formulas are those of the code. *)
Lemma replace_zero_to_one x : replace (I64 0) (I64 1) x = Spec.zero_to_one x.
Proof. done. Qed.

Lemma clip_lower_max lo x : clip_lower lo x = Spec.max x lo.
Proof. done. Qed.

Lemma clip_upper_min hi x : clip_upper hi x = Spec.min x hi.
Proof. done. Qed.

(** The replaced denominator is never 0. *)
Lemma zero_to_one_nonzero x : neqb (Spec.zero_to_one x) (I64 0) = false.
Proof.
  unfold Spec.zero_to_one. destruct (neqb x (I64 0)) eqn:E; [|done].
  by destruct x.
Qed.

End num_facts.

(** ** Columns and rows *)

Section pandas_facts.
Implicit Types (df l : DataFrame) (r : Row) (c : string).

Lemma num_column_numeric l c :
  Forall (numeric c) l → num_column l c = Some (getn c <$> l).
Proof.
  intros H. apply mapM_Some_2.
  induction H as [|r l' [x Hr] _ IH]; cbn; constructor; [|done].
  unfold getn. by rewrite Hr.
Qed.

Lemma num_column_Some l c xs :
  num_column l c = Some xs → Forall (numeric c) l.
Proof.
  unfold num_column. intros H%mapM_Some_1.
  induction H as [|r x l' xs' Hr _ IH]; constructor; [|done].
  unfold numeric. by rewrite Hr.
Qed.

(** Reading a column either fails or yields the numbers of the rows. *)
Lemma read_column {B} l c (k : list num → option B) :
  num_column l c ≫= k
  = if decide (Forall (numeric c) l) then k (getn c <$> l) else None.
Proof.
  case_decide as H.
  - by rewrite (num_column_numeric _ _ H).
  - destruct (num_column l c) eqn:E; [|done].
    by apply num_column_Some in E.
Qed.

Lemma zip_with_fmap_same {A B C D} (f : B → C → D) (g : A → B) (h : A → C)
    (xs : list A) :
  zip_with f (g <$> xs) (h <$> xs) = (λ x, f (g x) (h x)) <$> xs.
Proof. rewrite zip_with_fmap_l, zip_with_fmap_r. apply zip_with_diag. Qed.

Lemma set_column_assign l c (v : Row → cell) :
  set_column l c (v <$> l) = assign c v <$> l.
Proof.
  unfold set_column. rewrite zip_with_fmap_r. apply zip_with_diag.
Qed.

Lemma replicate_fmap {A B} (xs : list A) (d : B) :
  replicate (length xs) d = (λ _, d) <$> xs.
Proof. induction xs; cbn; by f_equal. Qed.

Lemma numeric_insert_ne c c' (v : cell) r :
  c ≠ c' → numeric c (<[c' := v]> r) ↔ numeric c r.
Proof. intros. unfold numeric. by rewrite lookup_insert_ne. Qed.

Lemma numeric_assign_ne c c' v r :
  c ≠ c' → numeric c (assign c' v r) ↔ numeric c r.
Proof. intros. by apply numeric_insert_ne. Qed.

Lemma getn_insert_ne c c' (v : cell) r :
  c ≠ c' → getn c (<[c' := v]> r) = getn c r.
Proof. intros. unfold getn. by rewrite lookup_insert_ne. Qed.

Lemma getn_insert_eq c x r : getn c (<[c := Num x]> r) = x.
Proof. unfold getn. by rewrite lookup_insert_eq. Qed.

Lemma getn_lookup c x r : r !! c = Some (Num x) → getn c r = x.
Proof. unfold getn. by intros ->. Qed.

Lemma numeric_lookup c x r : r !! c = Some (Num x) → numeric c r.
Proof. unfold numeric. intros ->. by eexists. Qed.

Lemma Forall_numeric_assign_ne c c' v l :
  c ≠ c' → Forall (numeric c) (assign c' v <$> l) ↔ Forall (numeric c) l.
Proof.
  intros. rewrite Forall_fmap. apply Forall_iff. intros r.
  by apply numeric_assign_ne.
Qed.

(** *** Dtypes *)

Lemma int64_cell_numeric c r : int64_cell (r !! c) → numeric c r.
Proof.
  unfold numeric. destruct (r !! c) as [[[z|f]|s]|]; try done.
  all: intros _; by eexists.
Qed.

Lemma float64_cell_numeric c r : float64_cell (r !! c) → numeric c r.
Proof.
  unfold numeric. destruct (r !! c) as [[[z|f]|s]|]; try done.
  all: intros _; by eexists.
Qed.

Lemma numeric_column_numeric l c :
  numeric_column l c → Forall (numeric c) l.
Proof.
  intros [H|H]; (eapply Forall_impl; [exact H|]); intros r.
  - apply int64_cell_numeric.
  - apply float64_cell_numeric.
Qed.

Lemma numeric_columns_numeric cols l c :
  numeric_columns cols l → c ∈ cols → Forall (numeric c) l.
Proof.
  intros H Hc. apply numeric_column_numeric.
  unfold numeric_columns in H. rewrite Forall_forall in H. by apply H.
Qed.

Lemma int64_cell_getn c r : int64_cell (r !! c) → is_float (getn c r) = false.
Proof. unfold getn. by destruct (r !! c) as [[[z|f]|s]|]. Qed.

Lemma float64_cell_getn c r :
  float64_cell (r !! c) → is_float (getn c r) = true.
Proof. unfold getn. by destruct (r !! c) as [[[z|f]|s]|]. Qed.

(** *** Series of one dtype *)

Lemma as_series_floats (a : list num) :
  Forall (λ x, is_float x = true) a → as_series a = a.
Proof.
  intros H. unfold as_series. destruct (existsb is_float a); [|done].
  induction H as [|x a' Hx _ IH]; [done|]. cbn. f_equal; [|done].
  by destruct x.
Qed.

Lemma as_series_ints (a : list num) :
  Forall (λ x, is_float x = false) a → as_series a = a.
Proof.
  intros H. unfold as_series.
  assert (E : existsb is_float a = false).
  { induction H as [|x a' Hx _ IH]; [done|]. cbn. by rewrite Hx. }
  by rewrite E.
Qed.

Lemma as_series_stored (a : list num) :
  as_series a = stored (existsb is_float a) <$> a.
Proof.
  unfold as_series, stored. destruct (existsb is_float a); [done|].
  by rewrite list_fmap_id.
Qed.

Lemma existsb_fmap {A B} (f : B → bool) (g : A → B) (xs : list A) :
  existsb f (g <$> xs) = existsb (f ∘ g) xs.
Proof. induction xs as [|x xs IH]; [done|]. cbn. by rewrite IH. Qed.

(** Dividing by a series does not depend on the dtype it is stored in. *)
Lemma sdiv_as_series (a b : list num) : sdiv a (as_series b) = sdiv a b.
Proof.
  unfold sdiv, as_series. destruct (existsb is_float b); [|done].
  rewrite zip_with_fmap_r. apply zip_with_ext; [|done..].
  intros x y. apply ndiv_to_float_r.
Qed.

End pandas_facts.

(** Normal form of element-wise series expressions over one frame. *)
Ltac series_norm :=
  unfold sadd, ssub, sdiv, smul_scalar, sdiv_scalar, slt, sgt, slt_scalar,
    sgt_scalar, sand, sor, sreplace;
  repeat first
    [ rewrite zip_with_fmap_same
    | rewrite <- list_fmap_compose ];
  unfold compose.

(** ** Statements on the store *)

Section store_facts.
Implicit Types (σ : Store) (df : ref) (fr : DataFrame) (c : string).

Lemma run_getitem {B} df c (k : list num → M B) σ fr :
  (getitem df c ≫= k) (<[df := fr]> σ)
  = if decide (Forall (numeric c) fr)
    then k (getn c <$> fr) (<[df := fr]> σ)
    else (None, <[df := fr]> σ).
Proof.
  unfold mbind, M_bind, bind, getitem. rewrite (lookup_insert_eq σ df fr).
  cbn.
  case_decide as H.
  - by rewrite (num_column_numeric _ _ H).
  - destruct (num_column fr c) eqn:E; [|done].
    by apply num_column_Some in E.
Qed.

Lemma run_setitem {B} df c s (k : unit → M B) σ fr :
  (setitem df c s ≫= k) (<[df := fr]> σ)
  = k () (<[df := set_column fr c s]> σ).
Proof.
  unfold mbind, M_bind, bind, setitem. rewrite (lookup_insert_eq σ df fr).
  by rewrite (insert_insert_eq σ df).
Qed.

End store_facts.

(** ** [classify_inventory_risk], row by row *)

Section risk_rows.
Import RiskDashboard.
Implicit Types (df l : DataFrame) (r : Row) (a b c : string).

Lemma ratio_column l c a b :
  set_column l c
    (Num <$> sdiv (getn a <$> l) (sreplace (I64 0) (I64 1) (getn b <$> l)))
  = assign c (ratio a b) <$> l.
Proof. series_norm. apply set_column_assign. Qed.

Lemma ratio_sum_column l c a1 a2 b :
  set_column l c
    (Num <$> sdiv (sadd (getn a1 <$> l) (getn a2 <$> l))
               (sreplace (I64 0) (I64 1) (getn b <$> l)))
  = assign c (ratio_sum a1 a2 b) <$> l.
Proof. series_norm. apply set_column_assign. Qed.

Lemma risk_column l :
  set_column l "risk_category"
    (Str <$> np_select (length (getn "weeks_until_stockout" <$> l))
       [ sand (slt_scalar (getn "weeks_until_stockout" <$> l) (I64 2))
              (slt_scalar (getn "dk_warehouse_to_weekly_sales_ratio" <$> l)
                 (I64 4));
         sor (sgt_scalar (getn "total_available_to_12wk_forecast" <$> l)
                (I64 20))
             (sand (sgt_scalar (getn "stock_to_weekly_sales_ratio" <$> l)
                      (I64 12))
                   (sgt_scalar (getn "ordered_vs_forecasted" <$> l)
                      (F64 (dec 15 10)))) ]
       [high_stockout_risk; overstocking_risk] normal)
  = assign "risk_category" select_risk <$> l.
Proof.
  cbn [np_select]. rewrite length_fmap, replicate_fmap. series_norm.
  apply set_column_assign.
Qed.

Lemma numeric_ratio c a b r : numeric c (assign c (ratio a b) r).
Proof. unfold numeric, assign, ratio. rewrite lookup_insert_eq. by eexists. Qed.

Lemma numeric_ratio_sum c a1 a2 b r :
  numeric c (assign c (ratio_sum a1 a2 b) r).
Proof.
  unfold numeric, assign, ratio_sum. rewrite lookup_insert_eq. by eexists.
Qed.

Lemma Forall_numeric_inputs df :
  Forall numeric_inputs df ↔
  Forall (numeric "Retailer number of units in stock") df ∧
  Forall (numeric "Forecast sales for this week") df ∧
  Forall (numeric "Current number of units in DK warehouse") df ∧
  Forall (numeric "Retailer sales out last week") df ∧
  Forall (numeric "Forecast sales for next 12 weeks") df ∧
  Forall (numeric "Number of units reatiler has ordered from DK") df ∧
  Forall (numeric "Forecast sales for next 4 weeks") df.
Proof. unfold numeric_inputs. by rewrite <- !Forall_and. Qed.

End risk_rows.

Ltac numeric_column :=
  repeat (rewrite Forall_numeric_assign_ne by done);
  first [ assumption
        | apply Forall_fmap, Forall_true; intros ?;
          first [apply numeric_ratio | apply numeric_ratio_sum] ].

(** The program on a frame of the store is the row program on every row of
    that frame, written back into the store under the same reference, which
    is returned. *)
Lemma classify_inventory_risk_rows (df : ref) (fr : DataFrame) (σ : Store) :
  Forall numeric_inputs fr →
  RiskDashboard.classify_inventory_risk df (<[df := fr]> σ)
  = (Some df, <[df := classify_row <$> fr]> σ).
Proof.
  intros H. apply Forall_numeric_inputs in H as (?&?&?&?&?&?&?).
  unfold RiskDashboard.classify_inventory_risk.
  do 2 (rewrite run_getitem, decide_True by numeric_column).
  rewrite run_setitem, ratio_column.
  do 2 (rewrite run_getitem, decide_True by numeric_column).
  rewrite run_setitem, ratio_column.
  do 3 (rewrite run_getitem, decide_True by numeric_column).
  rewrite run_setitem, ratio_sum_column.
  do 2 (rewrite run_getitem, decide_True by numeric_column).
  rewrite run_setitem, ratio_column.
  do 2 (rewrite run_getitem, decide_True by numeric_column).
  rewrite run_setitem, ratio_column.
  do 5 (rewrite run_getitem, decide_True by numeric_column).
  cbv zeta. rewrite run_setitem, risk_column.
  by rewrite <- !list_fmap_compose.
Qed.

(** It raises exactly when some row lacks a number in one of the seven
    input columns. *)
Lemma classify_inventory_risk_raises (df : ref) (fr : DataFrame) (σ : Store) :
  ¬ Forall numeric_inputs fr →
  (RiskDashboard.classify_inventory_risk df (<[df := fr]> σ)).1 = None.
Proof.
  intros H.
  unfold RiskDashboard.classify_inventory_risk.
  repeat first
    [ rewrite run_getitem; case_decide; [|reflexivity]
    | rewrite run_setitem, ?ratio_column, ?ratio_sum_column ].
  destruct H. apply Forall_numeric_inputs.
  rewrite !Forall_numeric_assign_ne in * by done.
  done.
Qed.

Section classify_row_steps.
Implicit Types (r : Row) (v : cell) (x : num).

Local Ltac step :=
  intros; unfold assign, ratio, ratio_sum;
  by rewrite !getn_insert_ne by discriminate.

Lemma classify_row_step2 r v1 :
  assign "dk_warehouse_to_weekly_sales_ratio"
    (ratio "Current number of units in DK warehouse"
           "Retailer sales out last week")
    (<["weeks_until_stockout" := v1]> r)
  = <["dk_warehouse_to_weekly_sales_ratio" :=
        Num (dk_warehouse_to_weekly_sales_ratio r)]>
    (<["weeks_until_stockout" := v1]> r).
Proof. step. Qed.

Lemma classify_row_step3 r v1 v2 :
  assign "total_available_to_12wk_forecast"
    (ratio_sum "Retailer number of units in stock"
               "Current number of units in DK warehouse"
               "Forecast sales for next 12 weeks")
    (<["dk_warehouse_to_weekly_sales_ratio" := v2]>
     (<["weeks_until_stockout" := v1]> r))
  = <["total_available_to_12wk_forecast" :=
        Num (total_available_to_12wk_forecast r)]>
    (<["dk_warehouse_to_weekly_sales_ratio" := v2]>
     (<["weeks_until_stockout" := v1]> r)).
Proof. step. Qed.

Lemma classify_row_step4 r v1 v2 v3 :
  assign "stock_to_weekly_sales_ratio"
    (ratio "Retailer number of units in stock"
           "Retailer sales out last week")
    (<["total_available_to_12wk_forecast" := v3]>
     (<["dk_warehouse_to_weekly_sales_ratio" := v2]>
      (<["weeks_until_stockout" := v1]> r)))
  = <["stock_to_weekly_sales_ratio" := Num (stock_to_weekly_sales_ratio r)]>
    (<["total_available_to_12wk_forecast" := v3]>
     (<["dk_warehouse_to_weekly_sales_ratio" := v2]>
      (<["weeks_until_stockout" := v1]> r))).
Proof. step. Qed.

Lemma classify_row_step5 r v1 v2 v3 v4 :
  assign "ordered_vs_forecasted"
    (ratio "Number of units reatiler has ordered from DK"
           "Forecast sales for next 4 weeks")
    (<["stock_to_weekly_sales_ratio" := v4]>
     (<["total_available_to_12wk_forecast" := v3]>
      (<["dk_warehouse_to_weekly_sales_ratio" := v2]>
       (<["weeks_until_stockout" := v1]> r))))
  = <["ordered_vs_forecasted" := Num (ordered_vs_forecasted r)]>
    (<["stock_to_weekly_sales_ratio" := v4]>
     (<["total_available_to_12wk_forecast" := v3]>
      (<["dk_warehouse_to_weekly_sales_ratio" := v2]>
       (<["weeks_until_stockout" := v1]> r)))).
Proof. step. Qed.

Lemma select_risk_derived r x1 x2 x3 x4 x5 :
  select_risk
    (<["ordered_vs_forecasted" := Num x5]>
     (<["stock_to_weekly_sales_ratio" := Num x4]>
      (<["total_available_to_12wk_forecast" := Num x3]>
       (<["dk_warehouse_to_weekly_sales_ratio" := Num x2]>
        (<["weeks_until_stockout" := Num x1]> r)))))
  = Str (if nlt x1 (I64 2) && nlt x2 (I64 4)
         then RiskDashboard.high_stockout_risk
         else if ngt x3 (I64 20)
                 || (ngt x4 (I64 12) && ngt x5 (F64 (dec 15 10)))
         then RiskDashboard.overstocking_risk
         else RiskDashboard.normal).
Proof.
  unfold select_risk, stockout_condition, overstock_condition.
  by repeat first
    [ rewrite getn_insert_eq | rewrite getn_insert_ne by discriminate ].
Qed.

End classify_row_steps.

(** The row program in closed form: six columns are written, each computed
    from the input columns of the row. *)
Lemma classify_row_closed (r : Row) :
  classify_row r
  = <["risk_category" := Str (risk_category r)]>
    (<["ordered_vs_forecasted" := Num (ordered_vs_forecasted r)]>
    (<["stock_to_weekly_sales_ratio" := Num (stock_to_weekly_sales_ratio r)]>
    (<["total_available_to_12wk_forecast" :=
         Num (total_available_to_12wk_forecast r)]>
    (<["dk_warehouse_to_weekly_sales_ratio" :=
         Num (dk_warehouse_to_weekly_sales_ratio r)]>
    (<["weeks_until_stockout" := Num (weeks_until_stockout r)]> r))))).
Proof.
  unfold classify_row. cbv zeta.
  change (assign "weeks_until_stockout" _ r)
    with (<["weeks_until_stockout" := Num (weeks_until_stockout r)]> r).
  rewrite classify_row_step2, classify_row_step3, classify_row_step4,
    classify_row_step5.
  unfold assign at 1. by rewrite select_risk_derived.
Qed.

Ltac not_in_list :=
  unfold derived_columns, input_columns;
  repeat (apply not_elem_of_cons; split; [discriminate|]);
  apply not_elem_of_nil.

Ltac in_list := unfold input_columns, derived_columns; set_solver.

Ltac in_metrics := unfold metric_columns; set_solver.

Section classify_row_facts.
Import RiskDashboard.
Implicit Types (r : Row) (c : string).

(** Columns other than the six derived ones are left as they are. *)
Lemma classify_row_frame r c :
  c ∉ derived_columns → classify_row r !! c = r !! c.
Proof.
  intros H. rewrite classify_row_closed.
  rewrite !lookup_insert_ne; [done|..];
    intros <-; apply H; unfold derived_columns; set_solver.
Qed.

Lemma input_not_derived c : c ∈ input_columns → c ∉ derived_columns.
Proof.
  unfold input_columns. rewrite !elem_of_cons, elem_of_nil.
  intros H. repeat (destruct H as [->|H]; [not_in_list|]). done.
Qed.

Lemma classify_row_lookup r :
  classify_row r !! "weeks_until_stockout"
    = Some (Num (weeks_until_stockout r)) ∧
  classify_row r !! "dk_warehouse_to_weekly_sales_ratio"
    = Some (Num (dk_warehouse_to_weekly_sales_ratio r)) ∧
  classify_row r !! "total_available_to_12wk_forecast"
    = Some (Num (total_available_to_12wk_forecast r)) ∧
  classify_row r !! "stock_to_weekly_sales_ratio"
    = Some (Num (stock_to_weekly_sales_ratio r)) ∧
  classify_row r !! "ordered_vs_forecasted"
    = Some (Num (ordered_vs_forecasted r)) ∧
  classify_row r !! "risk_category" = Some (Str (risk_category r)).
Proof.
  rewrite classify_row_closed.
  repeat split;
    repeat first
      [ apply lookup_insert_eq | rewrite lookup_insert_ne by discriminate ].
Qed.

Lemma getn_classify_row r c :
  c ∈ input_columns → getn c (classify_row r) = getn c r.
Proof.
  intros H. unfold getn.
  by rewrite classify_row_frame by by apply input_not_derived.
Qed.

Lemma metrics_classify_row r :
  weeks_until_stockout (classify_row r) = weeks_until_stockout r ∧
  dk_warehouse_to_weekly_sales_ratio (classify_row r)
    = dk_warehouse_to_weekly_sales_ratio r ∧
  total_available_to_12wk_forecast (classify_row r)
    = total_available_to_12wk_forecast r ∧
  stock_to_weekly_sales_ratio (classify_row r)
    = stock_to_weekly_sales_ratio r ∧
  ordered_vs_forecasted (classify_row r) = ordered_vs_forecasted r.
Proof.
  unfold weeks_until_stockout, dk_warehouse_to_weekly_sales_ratio,
    total_available_to_12wk_forecast, stock_to_weekly_sales_ratio,
    ordered_vs_forecasted.
  by rewrite !getn_classify_row by in_list.
Qed.

Lemma risk_category_classify_row r :
  risk_category (classify_row r) = risk_category r.
Proof.
  unfold risk_category.
  destruct (metrics_classify_row r) as (-> & -> & -> & -> & ->). done.
Qed.

(** Classifying a classified row changes nothing. *)
Lemma classify_row_idemp r : classify_row (classify_row r) = classify_row r.
Proof.
  rewrite (classify_row_closed (classify_row r)).
  destruct (metrics_classify_row r) as (-> & -> & -> & -> & ->).
  rewrite risk_category_classify_row.
  destruct (classify_row_lookup r) as (H1 & H2 & H3 & H4 & H5 & H6).
  by rewrite (insert_id _ _ _ H1), (insert_id _ _ _ H2), (insert_id _ _ _ H3),
    (insert_id _ _ _ H4), (insert_id _ _ _ H5), (insert_id _ _ _ H6).
Qed.

Lemma numeric_inputs_classify_row r :
  numeric_inputs (classify_row r) ↔ numeric_inputs r.
Proof.
  unfold numeric_inputs, numeric.
  by rewrite !classify_row_frame by not_in_list.
Qed.

(** The metrics of a row are the quotients of the specification on its
    record, with a denominator 0 replaced by 1. *)
Lemma metrics_holds r x :
  Spec.holds r x →
  weeks_until_stockout r = Spec.weeks_until_stockout x ∧
  dk_warehouse_to_weekly_sales_ratio r
    = Spec.warehouse_to_weekly_sales_ratio x ∧
  total_available_to_12wk_forecast r
    = Spec.total_available_to_12wk_forecast x ∧
  stock_to_weekly_sales_ratio r = Spec.stock_to_weekly_sales_ratio x ∧
  ordered_vs_forecasted r = Spec.ordered_vs_forecasted x.
Proof.
  intros (H1 & H2 & H3 & H4 & H5 & H6 & H7).
  unfold weeks_until_stockout, dk_warehouse_to_weekly_sales_ratio,
    total_available_to_12wk_forecast, stock_to_weekly_sales_ratio,
    ordered_vs_forecasted.
  by rewrite (getn_lookup _ _ _ H1), (getn_lookup _ _ _ H2),
    (getn_lookup _ _ _ H3), (getn_lookup _ _ _ H4), (getn_lookup _ _ _ H5),
    (getn_lookup _ _ _ H6), (getn_lookup _ _ _ H7).
Qed.

Lemma numeric_inputs_holds r x : Spec.holds r x → numeric_inputs r.
Proof.
  intros (H1 & H2 & H3 & H4 & H5 & H6 & H7).
  repeat split; by eapply numeric_lookup.
Qed.

Lemma risk_category_cases r :
  risk_category r ∈ [high_stockout_risk; overstocking_risk; normal].
Proof. unfold risk_category. repeat case_match; set_solver. Qed.

(** The label follows rule 1, then rule 2, then the default. *)
Lemma risk_category_rules r x :
  Spec.holds r x →
  (risk_category r = high_stockout_risk ↔ Spec.rule1 x) ∧
  (risk_category r = overstocking_risk ↔ ¬ Spec.rule1 x ∧ Spec.rule2 x) ∧
  (risk_category r = normal ↔ ¬ Spec.rule1 x ∧ ¬ Spec.rule2 x).
Proof.
  intros H. unfold risk_category.
  destruct (metrics_holds r x H) as (-> & -> & -> & -> & ->).
  assert (R1 : nlt (Spec.weeks_until_stockout x) (I64 2)
               && nlt (Spec.warehouse_to_weekly_sales_ratio x) (I64 4)
               = true ↔ Spec.rule1 x).
  { unfold Spec.rule1. by rewrite andb_true_iff. }
  assert (R2 : ngt (Spec.total_available_to_12wk_forecast x) (I64 20)
               || (ngt (Spec.stock_to_weekly_sales_ratio x) (I64 12)
                   && ngt (Spec.ordered_vs_forecasted x) (F64 (dec 15 10)))
               = true ↔ Spec.rule2 x).
  { unfold Spec.rule2. by rewrite orb_true_iff, andb_true_iff. }
  unfold high_stockout_risk, overstocking_risk, normal.
  destruct (_ && _) eqn:E1 in |- *.
  - apply R1 in E1. intuition discriminate.
  - assert (¬ Spec.rule1 x) by (rewrite <- R1, E1; done).
    destruct (_ || _) eqn:E2 in |- *.
    + apply R2 in E2. intuition discriminate.
    + assert (¬ Spec.rule2 x) by (rewrite <- R2, E2; done).
      intuition discriminate.
Qed.

(** A missing input makes every metric computed from it NaN. *)
Lemma missing_input_metric_nan r m cols c :
  (m, cols) ∈ metric_inputs → c ∈ cols →
  r !! c = Some (Num NaN) →
  classify_row r !! m = Some (Num NaN).
Proof.
  intros Hm Hc E. apply getn_lookup in E.
  destruct (classify_row_lookup r) as (L1 & L2 & L3 & L4 & L5 & _).
  unfold weeks_until_stockout in L1.
  unfold dk_warehouse_to_weekly_sales_ratio in L2.
  unfold total_available_to_12wk_forecast in L3.
  unfold stock_to_weekly_sales_ratio in L4.
  unfold ordered_vs_forecasted in L5.
  unfold metric_inputs in Hm. rewrite !elem_of_cons, elem_of_nil in Hm.
  destruct Hm as [Hm|[Hm|[Hm|[Hm|[Hm|[]]]]]];
    injection Hm as -> ->; rewrite !elem_of_cons, elem_of_nil in Hc.
  - rewrite L1. destruct Hc as [->|[->|[]]]; rewrite E.
    + by rewrite ndiv_nan_l.
    + by rewrite ndiv_nan_r.
  - rewrite L2. destruct Hc as [->|[->|[]]]; rewrite E.
    + by rewrite ndiv_nan_l.
    + by rewrite ndiv_nan_r.
  - rewrite L3. destruct Hc as [->|[->|[->|[]]]]; rewrite E.
    + by rewrite nadd_nan_l, ndiv_nan_l.
    + by rewrite nadd_nan_r, ndiv_nan_l.
    + by rewrite ndiv_nan_r.
  - rewrite L4. destruct Hc as [->|[->|[]]]; rewrite E.
    + by rewrite ndiv_nan_l.
    + by rewrite ndiv_nan_r.
  - rewrite L5. destruct Hc as [->|[->|[]]]; rewrite E.
    + by rewrite ndiv_nan_l.
    + by rewrite ndiv_nan_r.
Qed.

(** A rule whose ratios are NaN does not hold. *)
Lemma risk_category_nan_stockout r :
  is_nan (weeks_until_stockout r) = true
  ∨ is_nan (dk_warehouse_to_weekly_sales_ratio r) = true →
  risk_category r ≠ high_stockout_risk.
Proof.
  unfold risk_category. intros [H|H].
  - rewrite (nlt_nan_l _ _ H). cbn. by repeat case_match.
  - rewrite (nlt_nan_l _ _ H), andb_false_r. by repeat case_match.
Qed.

Lemma risk_category_nan_overstock r :
  is_nan (total_available_to_12wk_forecast r) = true →
  is_nan (stock_to_weekly_sales_ratio r) = true
  ∨ is_nan (ordered_vs_forecasted r) = true →
  risk_category r ≠ overstocking_risk.
Proof.
  unfold risk_category, ngt. intros H3 H.
  rewrite (nlt_nan_r _ _ H3). cbn [orb].
  assert (E : nlt (I64 12) (stock_to_weekly_sales_ratio r)
              && nlt (F64 (dec 15 10)) (ordered_vs_forecasted r) = false).
  { destruct H as [H|H]; rewrite (nlt_nan_r _ _ H);
      [done | apply andb_false_r]. }
  rewrite E. clear E. unfold high_stockout_risk, overstocking_risk, normal.
  destruct (_ && _); discriminate.
Qed.

(** With every input missing, every metric is NaN, no comparison holds and
    the default label is chosen. *)
Lemma risk_category_all_missing r :
  (∀ c, c ∈ input_columns → r !! c = Some (Num NaN)) →
  risk_category r = normal.
Proof.
  intros H. unfold risk_category, weeks_until_stockout,
    dk_warehouse_to_weekly_sales_ratio, total_available_to_12wk_forecast,
    stock_to_weekly_sales_ratio, ordered_vs_forecasted.
  rewrite !(getn_lookup _ NaN) by (apply H; in_list). done.
Qed.

End classify_row_facts.

(** ** [classify_inventory_risk] on the frames of a store *)

Section classify_tables.
Import RiskDashboard.
Implicit Types (df : ref) (fr : DataFrame) (r : Row) (σ : Store).

Lemma store_insert_id σ df fr : σ !! df = Some fr → <[df := fr]> σ = σ.
Proof. apply insert_id. Qed.

Lemma classify_inventory_risk_total σ df fr :
  σ !! df = Some fr →
  Forall numeric_inputs fr →
  classify_inventory_risk df σ = (Some df, <[df := classify_row <$> fr]> σ).
Proof.
  intros Hσ H. rewrite <- (store_insert_id _ _ _ Hσ) at 1.
  by apply classify_inventory_risk_rows.
Qed.

Lemma classify_inventory_risk_None σ df fr :
  σ !! df = Some fr →
  ¬ Forall numeric_inputs fr →
  (classify_inventory_risk df σ).1 = None.
Proof.
  intros Hσ H. rewrite <- (store_insert_id _ _ _ Hσ).
  by apply classify_inventory_risk_raises.
Qed.

Lemma classify_inventory_risk_Some σ σ' df out fr :
  σ !! df = Some fr →
  classify_inventory_risk df σ = (Some out, σ') ↔
  Forall numeric_inputs fr ∧ out = df ∧
  σ' = <[df := classify_row <$> fr]> σ.
Proof.
  intros Hσ. destruct (decide (Forall numeric_inputs fr)) as [H|H].
  - rewrite (classify_inventory_risk_total _ _ _ Hσ H). split.
    + by intros [= <- <-].
    + by intros (_ & -> & ->).
  - pose proof (classify_inventory_risk_None _ _ _ Hσ H) as E. split.
    + intros E'. rewrite E' in E. discriminate E.
    + by intros [? _].
Qed.

Lemma absent_field_not_numeric r : absent_field r → ¬ numeric_inputs r.
Proof.
  intros (c & Hc & E) H. unfold input_columns in Hc.
  rewrite !elem_of_cons, elem_of_nil in Hc.
  destruct H as (H1 & H2 & H3 & H4 & H5 & H6 & H7).
  unfold numeric in *.
  repeat (destruct Hc as [->|Hc];
          [ match goal with
            | H : is_Some (r !! ?c ≫= as_num) |- _ =>
                rewrite E in H; by destruct H
            end |]).
  done.
Qed.

Lemma numeric_columns_inputs fr :
  numeric_columns input_columns fr → Forall numeric_inputs fr.
Proof.
  intros H. apply Forall_numeric_inputs.
  repeat split; (eapply numeric_columns_numeric; [exact H|in_list]).
Qed.

End classify_tables.

(** When the call raises, the DataFrame may already hold some of the ratio
    columns, but no label has been written. *)
Lemma classify_inventory_risk_raises_unlabelled
    (df : ref) (fr : DataFrame) (σ : Store) :
  ¬ Forall numeric_inputs fr →
  ∃ fr',
    RiskDashboard.classify_inventory_risk df (<[df := fr]> σ)
    = (None, <[df := fr']> σ) ∧
    Forall2 (same_on ["risk_category"]) fr fr'.
Proof.
  intros H.
  unfold RiskDashboard.classify_inventory_risk.
  repeat first
    [ rewrite run_getitem; case_decide;
      [| eexists; split; [reflexivity|];
         rewrite <- ?list_fmap_compose;
         first [ apply Forall2_fmap_r, Forall_Forall2_diag, Forall_true;
                 intros r c Hc; apply list_elem_of_singleton in Hc as ->;
                 unfold compose, assign;
                 by rewrite !lookup_insert_ne by discriminate
               | apply Forall_Forall2_diag, Forall_true; by intros r c Hc ] ]
    | rewrite run_setitem, ?ratio_column, ?ratio_sum_column ].
  destruct H. apply Forall_numeric_inputs.
  rewrite !Forall_numeric_assign_ne in * by done.
  done.
Qed.

(** C1. On a table whose seven input columns are numeric columns, the
    classifier writes the five ratios of a record into its row and labels
    the record by rule 1, then rule 2, then the default, evaluated on these
    ratios: 'high_stockout_risk' exactly when rule 1 holds,
    'overstocking_risk' exactly when rule 1 fails and rule 2 holds, 'normal'
    exactly when both fail.  So a record satisfying both rules is
    'high_stockout_risk', and every record gets one of the three labels. *)
Theorem C1_rules_in_order_first_match_wins
    (σ : Store) (df : ref) (fr : DataFrame) (i : nat) (r : Row)
    (x : Spec.inventory) :
  σ !! df = Some fr →
  numeric_columns input_columns fr →
  fr !! i = Some r →
  Spec.holds r x →
  ∃ σ' fr' r' label,
    RiskDashboard.classify_inventory_risk df σ = (Some df, σ') ∧
    σ' !! df = Some fr' ∧
    fr' !! i = Some r' ∧
    r' !! "weeks_until_stockout"
      = Some (Num (Spec.weeks_until_stockout x)) ∧
    r' !! "dk_warehouse_to_weekly_sales_ratio"
      = Some (Num (Spec.warehouse_to_weekly_sales_ratio x)) ∧
    r' !! "total_available_to_12wk_forecast"
      = Some (Num (Spec.total_available_to_12wk_forecast x)) ∧
    r' !! "stock_to_weekly_sales_ratio"
      = Some (Num (Spec.stock_to_weekly_sales_ratio x)) ∧
    r' !! "ordered_vs_forecasted"
      = Some (Num (Spec.ordered_vs_forecasted x)) ∧
    r' !! "risk_category" = Some (Str label) ∧
    (label = "high_stockout_risk" ↔ Spec.rule1 x) ∧
    (label = "overstocking_risk" ↔ ¬ Spec.rule1 x ∧ Spec.rule2 x) ∧
    (label = "normal" ↔ ¬ Spec.rule1 x ∧ ¬ Spec.rule2 x) ∧
    (Spec.rule1 x → Spec.rule2 x → label = "high_stockout_risk") ∧
    label ∈ ["high_stockout_risk"; "overstocking_risk"; "normal"].
Proof.
  intros Hσ Hdf Hi Hx.
  exists (<[df := classify_row <$> fr]> σ), (classify_row <$> fr),
    (classify_row r), (risk_category r).
  destruct (risk_category_rules r x Hx) as (R1 & R2 & R3).
  destruct (classify_row_lookup r) as (L1 & L2 & L3 & L4 & L5 & L6).
  destruct (metrics_holds r x Hx) as (M1 & M2 & M3 & M4 & M5).
  rewrite M1 in L1. rewrite M2 in L2. rewrite M3 in L3. rewrite M4 in L4.
  rewrite M5 in L5.
  split.
  { apply classify_inventory_risk_total; [done|].
    by apply numeric_columns_inputs. }
  split; [apply lookup_insert_eq|].
  split; [by rewrite list_lookup_fmap, Hi|].
  do 6 (split; [assumption|]).
  split; [exact R1|]. split; [exact R2|]. split; [exact R3|].
  split; [intros H1 _; by apply R1 | apply risk_category_cases].
Qed.

Lemma C1_witness :
  Spec.rule1 Examples.both_rules ∧ Spec.rule2 Examples.both_rules ∧
  ∃ σ' fr' r',
    RiskDashboard.classify_inventory_risk 0%nat
      (Examples.store [Spec.inventory_row Examples.both_rules ∅])
    = (Some 0%nat, σ') ∧
    σ' !! 0%nat = Some fr' ∧
    fr' !! 0%nat = Some r' ∧
    r' !! "risk_category" = Some (Str "high_stockout_risk").
Proof.
  assert (H1 : Spec.rule1 Examples.both_rules).
  { apply (bool_decide_unpack _). vm_compute. exact I. }
  assert (H2 : Spec.rule2 Examples.both_rules).
  { apply (bool_decide_unpack _). vm_compute. exact I. }
  split; [exact H1|]. split; [exact H2|].
  destruct (C1_rules_in_order_first_match_wins
              (Examples.store [Spec.inventory_row Examples.both_rules ∅])
              0%nat [Spec.inventory_row Examples.both_rules ∅] 0%nat
              (Spec.inventory_row Examples.both_rules ∅) Examples.both_rules)
    as (σ' & fr' & r' & label & E1 & E2 & E3 & _ & _ & _ & _ & _ & E4
        & _ & _ & _ & E5 & _).
  - reflexivity.
  - apply (bool_decide_unpack _). vm_compute. exact I.
  - reflexivity.
  - vm_compute. repeat split.
  - exists σ', fr', r'. rewrite <- (E5 H1 H2).
    exact (conj E1 (conj E2 (conj E3 E4))).
Defined.

(** Records that agree on the input columns get the same derived values. *)
Lemma classify_row_inputs_only (r s : Row) :
  same_on input_columns r s →
  same_on derived_columns (classify_row r) (classify_row s).
Proof.
  intros H.
  assert (G : ∀ c, c ∈ input_columns → getn c r = getn c s).
  { intros c Hc. unfold getn. by rewrite (H c Hc). }
  assert (weeks_until_stockout r = weeks_until_stockout s ∧
          dk_warehouse_to_weekly_sales_ratio r
            = dk_warehouse_to_weekly_sales_ratio s ∧
          total_available_to_12wk_forecast r
            = total_available_to_12wk_forecast s ∧
          stock_to_weekly_sales_ratio r = stock_to_weekly_sales_ratio s ∧
          ordered_vs_forecasted r = ordered_vs_forecasted s)
    as (E1 & E2 & E3 & E4 & E5).
  { unfold weeks_until_stockout, dk_warehouse_to_weekly_sales_ratio,
      total_available_to_12wk_forecast, stock_to_weekly_sales_ratio,
      ordered_vs_forecasted.
    by rewrite !(G _) by in_list. }
  assert (E6 : risk_category r = risk_category s).
  { unfold risk_category. by rewrite E1, E2, E3, E4, E5. }
  destruct (classify_row_lookup r) as (R1 & R2 & R3 & R4 & R5 & R6).
  destruct (classify_row_lookup s) as (S1 & S2 & S3 & S4 & S5 & S6).
  intros c Hc. unfold derived_columns in Hc.
  rewrite !elem_of_cons, elem_of_nil in Hc.
  destruct Hc as [->|[->|[->|[->|[->|[->|[]]]]]]]; congruence.
Qed.

Section denominators.
Implicit Types d : num.

(** A denominator above 0 is not 0. *)
Lemma positive_nonzero d : nlt (I64 0) d = true → neqb d (I64 0) = false.
Proof.
  destruct d as [z|f]; cbn.
  - intros H%Z.ltb_lt. apply Z.eqb_neq. lia.
  - intros H. apply not_true_is_false. revert H.
    rewrite flt_rank, feq_rank. intros (_ & _ & L) (_ & _ & E).
    rewrite E in L. by apply lex_lt_irrefl in L.
Qed.

Lemma zero_to_one_positive d :
  nlt (I64 0) d = true → Spec.zero_to_one d = d.
Proof.
  intros H. unfold Spec.zero_to_one. by rewrite (positive_nonzero _ H).
Qed.

Lemma max_floor_below d :
  nlt d (I64 1) = true →
  Spec.max_floor (I64 1) d = astype_like d (I64 1) ∧
  Spec.max_floor (I64 1) d ≠ d.
Proof.
  intros H. unfold Spec.max_floor, Spec.max. rewrite H. split; [done|].
  intros E. destruct d as [z|f]; cbn in E.
  - injection E as <-. discriminate H.
  - injection E as <-. cbn in H. by rewrite flt_irrefl in H.
Qed.

End denominators.

(** C2 (amended). On a table whose seven input columns are numeric columns,
    each of the five derived ratios of a record is its numerator divided by
    its denominator, where a denominator equal to 0 is replaced by 1 and
    every other denominator is used as it is: a denominator strictly between
    0 and 1 is not raised to 1, as max(denominator, 1) would.  The division
    is numpy's float64 division, and the sum of the two stock columns is
    taken in their dtype.  In particular weeks_until_stockout is
    units_in_stock / 1 when forecast_this_week is 0; the divisor is never
    0. *)
Theorem C2_zero_denominator_replaced_by_one
    (σ : Store) (df : ref) (fr : DataFrame) (i : nat) (r : Row)
    (x : Spec.inventory) :
  σ !! df = Some fr →
  numeric_columns input_columns fr →
  fr !! i = Some r →
  Spec.holds r x →
  ∃ σ' fr' r',
    RiskDashboard.classify_inventory_risk df σ = (Some df, σ') ∧
    σ' !! df = Some fr' ∧
    fr' !! i = Some r' ∧
    r' !! "weeks_until_stockout"
      = Some (Num (ndiv (Spec.units_in_stock x)
                        (Spec.zero_to_one (Spec.forecast_this_week x)))) ∧
    r' !! "dk_warehouse_to_weekly_sales_ratio"
      = Some (Num (ndiv (Spec.warehouse_units x)
                        (Spec.zero_to_one (Spec.sales_last_week x)))) ∧
    r' !! "total_available_to_12wk_forecast"
      = Some (Num (ndiv (nadd (Spec.units_in_stock x)
                              (Spec.warehouse_units x))
                        (Spec.zero_to_one (Spec.forecast_12wk x)))) ∧
    r' !! "stock_to_weekly_sales_ratio"
      = Some (Num (ndiv (Spec.units_in_stock x)
                        (Spec.zero_to_one (Spec.sales_last_week x)))) ∧
    r' !! "ordered_vs_forecasted"
      = Some (Num (ndiv (Spec.units_ordered x)
                        (Spec.zero_to_one (Spec.forecast_4wk x)))) ∧
    (neqb (Spec.forecast_this_week x) (I64 0) = true →
     r' !! "weeks_until_stockout"
       = Some (Num (ndiv (Spec.units_in_stock x) (I64 1)))) ∧
    (∀ d, neqb (Spec.zero_to_one d) (I64 0) = false) ∧
    (∀ d, neqb d (I64 0) = false → Spec.zero_to_one d = d) ∧
    (∀ d, nlt (I64 0) d = true → nlt d (I64 1) = true →
          Spec.zero_to_one d = d ∧ Spec.max_floor (I64 1) d ≠ d).
Proof.
  intros Hσ Hdf Hi Hx.
  exists (<[df := classify_row <$> fr]> σ), (classify_row <$> fr),
    (classify_row r).
  destruct (classify_row_lookup r) as (L1 & L2 & L3 & L4 & L5 & _).
  destruct (metrics_holds r x Hx) as (M1 & M2 & M3 & M4 & M5).
  rewrite M1 in L1. rewrite M2 in L2. rewrite M3 in L3. rewrite M4 in L4.
  rewrite M5 in L5.
  split.
  { apply classify_inventory_risk_total; [done|].
    by apply numeric_columns_inputs. }
  split; [apply lookup_insert_eq|].
  split; [by rewrite list_lookup_fmap, Hi|].
  do 5 (split; [assumption|]).
  split; [|split; [|split]].
  - intros E. rewrite L1. unfold Spec.weeks_until_stockout, Spec.zero_to_one.
    by rewrite E, ndiv_astype_like.
  - apply zero_to_one_nonzero.
  - intros d E. unfold Spec.zero_to_one. by rewrite E.
  - intros d H0 H1. split.
    + by apply zero_to_one_positive.
    + by apply max_floor_below.
Qed.

Lemma C2_witness :
  neqb (Spec.forecast_this_week Examples.zero_forecast) (I64 0) = true ∧
  ∃ σ' fr' r',
    RiskDashboard.classify_inventory_risk 0%nat
      (Examples.store [Spec.inventory_row Examples.zero_forecast ∅])
    = (Some 0%nat, σ') ∧
    σ' !! 0%nat = Some fr' ∧
    fr' !! 0%nat = Some r' ∧
    r' !! "weeks_until_stockout" = Some (Num (ndiv (I64 10) (I64 1))).
Proof.
  split; [reflexivity|].
  destruct (C2_zero_denominator_replaced_by_one
              (Examples.store [Spec.inventory_row Examples.zero_forecast ∅])
              0%nat [Spec.inventory_row Examples.zero_forecast ∅] 0%nat
              (Spec.inventory_row Examples.zero_forecast ∅)
              Examples.zero_forecast)
    as (σ' & fr' & r' & E1 & E2 & E3 & _ & _ & _ & _ & _ & E4 & _).
  - reflexivity.
  - apply (bool_decide_unpack _). vm_compute. exact I.
  - reflexivity.
  - vm_compute. repeat split.
  - exists σ', fr', r'. exact (conj E1 (conj E2 (conj E3 (E4 eq_refl)))).
Defined.

(** C2, as stated, fails: with forecast_this_week = 0.5 and 10 units in
    stock the code computes 10 / 0.5 = 20, while 10 / max(0.5, 1) = 10. *)
Lemma C2_counterexample :
  ∃ σ' fr' r' q,
    RiskDashboard.classify_inventory_risk 0%nat
      (Examples.store [Spec.inventory_row Examples.half_forecast ∅])
    = (Some 0%nat, σ') ∧
    σ' !! 0%nat = Some fr' ∧
    fr' !! 0%nat = Some r' ∧
    r' !! "weeks_until_stockout" = Some (Num q) ∧
    q = F64 (of_int 20) ∧
    ndiv (Spec.units_in_stock Examples.half_forecast)
         (Spec.max_floor (I64 1)
            (Spec.forecast_this_week Examples.half_forecast))
    = F64 (of_int 10) ∧
    q ≠ ndiv (Spec.units_in_stock Examples.half_forecast)
             (Spec.max_floor (I64 1)
                (Spec.forecast_this_week Examples.half_forecast)).
Proof.
  set (r := Spec.inventory_row Examples.half_forecast ∅).
  assert (Hx : Spec.holds r Examples.half_forecast).
  { vm_compute. repeat split. }
  exists (<[0%nat := classify_row <$> [r]]> (Examples.store [r])),
    (classify_row <$> [r]), (classify_row r),
    (Spec.weeks_until_stockout Examples.half_forecast).
  split.
  { apply classify_inventory_risk_total; [reflexivity|].
    constructor; [|constructor]. by eapply numeric_inputs_holds. }
  split; [reflexivity|].
  split; [reflexivity|].
  split.
  { destruct (classify_row_lookup r) as (L1 & _).
    destruct (metrics_holds r _ Hx) as (M1 & _). by rewrite <- M1. }
  split; [vm_compute; reflexivity|].
  split; [vm_compute; reflexivity|].
  vm_compute. discriminate.
Qed.

(** C4 (amended). The classifier has no per-record error.  On a table whose
    seven input columns are numeric columns, a record with a missing (NaN)
    numeric field is still given one of the three labels: the missing value
    makes every ratio computed from it NaN, every comparison on a NaN ratio
    is false, so a rule does not hold through a NaN ratio, and a record
    whose numeric fields are all missing is labelled 'normal'.  When a
    required column is absent the call raises: it returns no table and
    labels no record. *)
Theorem C4_missing_field_is_labelled_not_reported
    (σ : Store) (df : ref) (fr : DataFrame) (i : nat) (r : Row) :
  σ !! df = Some fr →
  fr !! i = Some r →
  (numeric_columns input_columns fr → missing_field r →
   ∃ σ' fr' r' label,
     RiskDashboard.classify_inventory_risk df σ = (Some df, σ') ∧
     σ' !! df = Some fr' ∧
     fr' !! i = Some r' ∧
     r' !! "risk_category" = Some (Str label) ∧
     label ∈ ["high_stockout_risk"; "overstocking_risk"; "normal"] ∧
     (∀ m cols c,
        (m, cols) ∈ metric_inputs → c ∈ cols →
        r !! c = Some (Num NaN) → r' !! m = Some (Num NaN)) ∧
     (∀ v k, is_nan v = true →
        nlt v k = false ∧ ngt v k = false ∧
        nlt k v = false ∧ ngt k v = false) ∧
     (r' !! "weeks_until_stockout" = Some (Num NaN)
      ∨ r' !! "dk_warehouse_to_weekly_sales_ratio" = Some (Num NaN) →
      label ≠ "high_stockout_risk") ∧
     (r' !! "total_available_to_12wk_forecast" = Some (Num NaN) →
      r' !! "stock_to_weekly_sales_ratio" = Some (Num NaN)
      ∨ r' !! "ordered_vs_forecasted" = Some (Num NaN) →
      label ≠ "overstocking_risk") ∧
     ((∀ c, c ∈ input_columns → r !! c = Some (Num NaN)) →
      label = "normal")) ∧
  (absent_field r →
   ∃ σ' fr',
     RiskDashboard.classify_inventory_risk df σ = (None, σ') ∧
     σ' !! df = Some fr' ∧
     Forall2 (same_on ["risk_category"]) fr fr').
Proof.
  intros Hσ Hi. split.
  - intros Hdf Hm.
    exists (<[df := classify_row <$> fr]> σ), (classify_row <$> fr),
      (classify_row r), (risk_category r).
    destruct (classify_row_lookup r) as (L1 & L2 & L3 & L4 & L5 & L6).
    split.
    { apply classify_inventory_risk_total; [done|].
      by apply numeric_columns_inputs. }
    split; [apply lookup_insert_eq|].
    split; [by rewrite list_lookup_fmap, Hi|].
    split; [exact L6|].
    split; [apply risk_category_cases|].
    split; [intros m cols c; apply missing_input_metric_nan|].
    split.
    { intros v k Hv. unfold ngt.
      by rewrite (nlt_nan_l _ _ Hv), (nlt_nan_r _ _ Hv). }
    assert (N : ∀ a, Some (Num a) = Some (Num NaN) → is_nan a = true).
    { by intros a [= ->]. }
    split.
    { rewrite L1, L2. intros H. apply risk_category_nan_stockout.
      destruct H as [H|H]; [left | right]; by apply N. }
    split.
    { rewrite L3, L4, L5. intros H3 H.
      apply risk_category_nan_overstock; [by apply N|].
      destruct H as [H|H]; [left | right]; by apply N. }
    apply risk_category_all_missing.
  - intros Hr%absent_field_not_numeric.
    destruct (classify_inventory_risk_raises_unlabelled df fr σ)
      as (fr' & E & H).
    { intros Hdf. apply Hr. by eapply Forall_lookup_1. }
    rewrite (store_insert_id _ _ _ Hσ) in E.
    exists (<[df := fr']> σ), fr'. split; [exact E|].
    split; [apply lookup_insert_eq | exact H].
Qed.

Lemma C4_witness :
  missing_field (Spec.inventory_row Examples.missing_sales ∅) ∧
  ∃ σ' fr' r',
    RiskDashboard.classify_inventory_risk 0%nat
      (Examples.store [Spec.inventory_row Examples.missing_sales ∅])
    = (Some 0%nat, σ') ∧
    σ' !! 0%nat = Some fr' ∧
    fr' !! 0%nat = Some r' ∧
    r' !! "dk_warehouse_to_weekly_sales_ratio" = Some (Num NaN) ∧
    r' !! "stock_to_weekly_sales_ratio" = Some (Num NaN) ∧
    ∃ label,
      r' !! "risk_category" = Some (Str label) ∧
      label ∈ ["high_stockout_risk"; "overstocking_risk"; "normal"] ∧
      label ≠ "high_stockout_risk".
Proof.
  assert (Hm : missing_field (Spec.inventory_row Examples.missing_sales ∅)).
  { exists "Retailer sales out last week". split; [in_list | reflexivity]. }
  split; [exact Hm|].
  destruct (C4_missing_field_is_labelled_not_reported
              (Examples.store [Spec.inventory_row Examples.missing_sales ∅])
              0%nat [Spec.inventory_row Examples.missing_sales ∅] 0%nat
              (Spec.inventory_row Examples.missing_sales ∅)
              eq_refl eq_refl)
    as [H _].
  destruct H as (σ' & fr' & r' & label & E1 & E2 & E3 & E4 & E5 & E6 & _
                 & E7 & _).
  - apply (bool_decide_unpack _). vm_compute. exact I.
  - exact Hm.
  - exists σ', fr', r'.
    assert (N2 : r' !! "dk_warehouse_to_weekly_sales_ratio"
                 = Some (Num NaN)).
    { apply (E6 _ ["Current number of units in DK warehouse";
                   "Retailer sales out last week"]
               "Retailer sales out last week").
      - unfold metric_inputs. by repeat constructor.
      - by repeat constructor.
      - reflexivity. }
    assert (N4 : r' !! "stock_to_weekly_sales_ratio" = Some (Num NaN)).
    { apply (E6 _ ["Retailer number of units in stock";
                   "Retailer sales out last week"]
               "Retailer sales out last week").
      - unfold metric_inputs. by repeat constructor.
      - by repeat constructor.
      - reflexivity. }
    split; [exact E1|]. split; [exact E2|]. split; [exact E3|].
    split; [exact N2|]. split; [exact N4|].
    exists label. split; [exact E4|]. split; [exact E5|].
    apply E7. right. exact N2.
Defined.

(** C4, as stated, fails: a row whose numeric cells are all empty raises no
    error and is labelled 'normal'. *)
Lemma C4_counterexample :
  missing_field Examples.empty_cells ∧
  ∃ σ' fr' r',
    RiskDashboard.classify_inventory_risk 0%nat
      (Examples.store [Examples.empty_cells])
    = (Some 0%nat, σ') ∧
    σ' !! 0%nat = Some fr' ∧
    fr' !! 0%nat = Some r' ∧
    r' !! "risk_category" = Some (Str "normal").
Proof.
  split.
  { exists "Forecast sales for this week". split; [in_list | reflexivity]. }
  exists (<[0%nat := classify_row <$> [Examples.empty_cells]]>
            (Examples.store [Examples.empty_cells])),
    (classify_row <$> [Examples.empty_cells]),
    (classify_row Examples.empty_cells).
  split.
  { apply classify_inventory_risk_total; [reflexivity|].
    apply (bool_decide_unpack _). vm_compute. exact I. }
  split; [reflexivity|].
  split; [reflexivity|].
  destruct (classify_row_lookup Examples.empty_cells) as (_&_&_&_&_&L).
  rewrite L. vm_compute. reflexivity.
Qed.

(** C9 (amended). The classifier is idempotent and its derived fields
    depend only on the seven input fields of each record: run again on the
    table it has classified, it leaves that table as it is, and two tables
    that agree on the input columns, row by row, get the same derived
    values.  It is not a pure function: it writes the six derived columns
    into the DataFrame it is given and returns that same DataFrame, so the
    caller's table is changed; it changes no other column of it and no other
    DataFrame, and the number of rows stays the same. *)
Theorem C9_idempotent_and_input_determined
    (σ σ' : Store) (df out : ref) (fr : DataFrame) :
  σ !! df = Some fr →
  RiskDashboard.classify_inventory_risk df σ = (Some out, σ') →
  out = df ∧
  ∃ fr',
    σ' !! df = Some fr' ∧
    (∀ other, other ≠ df → σ' !! other = σ !! other) ∧
    RiskDashboard.classify_inventory_risk df σ' = (Some df, σ') ∧
    length fr' = length fr ∧
    (∀ i r r' c,
       fr !! i = Some r → fr' !! i = Some r' →
       c ∉ derived_columns → r' !! c = r !! c) ∧
    (∀ i r, fr !! i = Some r →
       ∃ r', fr' !! i = Some r' ∧
             ∀ c, c ∈ derived_columns → is_Some (r' !! c)) ∧
    (∀ τ τ' dg out' gr gr',
       τ !! dg = Some gr →
       RiskDashboard.classify_inventory_risk dg τ = (Some out', τ') →
       τ' !! dg = Some gr' →
       Forall2 (same_on input_columns) fr gr →
       Forall2 (same_on derived_columns) fr' gr').
Proof.
  intros Hσ E.
  apply (classify_inventory_risk_Some _ _ _ _ _ Hσ) in E as (Hfr & -> & ->).
  split; [done|]. exists (classify_row <$> fr).
  split; [apply lookup_insert_eq|].
  split; [intros other Ho; by apply lookup_insert_ne|].
  split.
  { rewrite (classify_inventory_risk_rows df (classify_row <$> fr) σ).
    - f_equal. f_equal.
      rewrite <- list_fmap_compose. apply list_fmap_ext.
      intros i r _. unfold compose. apply classify_row_idemp.
    - apply Forall_fmap. eapply Forall_impl; [exact Hfr|].
      intros r Hr. by apply numeric_inputs_classify_row. }
  split; [apply length_fmap|].
  split.
  { intros i r r' c Hi Hi' Hc.
    rewrite list_lookup_fmap, Hi in Hi'. injection Hi' as <-.
    by apply classify_row_frame. }
  split.
  { intros i r Hi. exists (classify_row r).
    split; [by rewrite list_lookup_fmap, Hi|].
    intros c Hc. destruct (classify_row_lookup r) as (L1&L2&L3&L4&L5&L6).
    unfold derived_columns in Hc. rewrite !elem_of_cons, elem_of_nil in Hc.
    destruct Hc as [->|[->|[->|[->|[->|[->|[]]]]]]]; by eexists. }
  intros τ τ' dg out' gr gr' Hτ E Hg H.
  apply (classify_inventory_risk_Some _ _ _ _ _ Hτ) in E as (_ & -> & ->).
  rewrite (lookup_insert_eq τ dg) in Hg. injection Hg as <-.
  apply Forall2_fmap. eapply Forall2_impl; [exact H|].
  intros r s. apply classify_row_inputs_only.
Qed.

Lemma C9_witness :
  ∃ σ' fr',
    RiskDashboard.classify_inventory_risk 0%nat
      (Examples.store [Spec.inventory_row Examples.both_rules ∅])
    = (Some 0%nat, σ') ∧
    σ' !! 0%nat = Some fr' ∧
    RiskDashboard.classify_inventory_risk 0%nat σ' = (Some 0%nat, σ') ∧
    length fr' = 1%nat.
Proof.
  set (fr := [Spec.inventory_row Examples.both_rules ∅]).
  assert (E : RiskDashboard.classify_inventory_risk 0%nat (Examples.store fr)
              = (Some 0%nat, <[0%nat := classify_row <$> fr]>
                               (Examples.store fr))).
  { apply classify_inventory_risk_total; [reflexivity|].
    apply (bool_decide_unpack _). vm_compute. exact I. }
  destruct (C9_idempotent_and_input_determined
              (Examples.store fr) _ 0%nat 0%nat fr eq_refl E)
    as (_ & fr' & E1 & _ & E2 & E3 & _).
  exists (<[0%nat := classify_row <$> fr]> (Examples.store fr)), fr'.
  exact (conj E (conj E1 (conj E2 E3))).
Defined.

(** C9, as stated, fails: the classifier has a side effect.  The DataFrame
    the caller passes has no risk_category column before the call and has
    one after it. *)
Lemma C9_counterexample :
  ∃ σ' r r',
    RiskDashboard.classify_inventory_risk 0%nat
      (Examples.store [Spec.inventory_row Examples.both_rules ∅])
    = (Some 0%nat, σ') ∧
    (fr ← Examples.store [Spec.inventory_row Examples.both_rules ∅]
           !! 0%nat; fr !! 0%nat) = Some r ∧
    (fr ← σ' !! 0%nat; fr !! 0%nat) = Some r' ∧
    r !! "risk_category" = None ∧
    r' !! "risk_category" = Some (Str "high_stockout_risk") ∧
    σ' ≠ Examples.store [Spec.inventory_row Examples.both_rules ∅].
Proof.
  set (r := Spec.inventory_row Examples.both_rules ∅).
  exists (<[0%nat := classify_row <$> [r]]> (Examples.store [r])),
    r, (classify_row r).
  assert (L : classify_row r !! "risk_category"
              = Some (Str "high_stockout_risk")).
  { destruct (classify_row_lookup r) as (_&_&_&_&_&L).
    rewrite L. vm_compute. reflexivity. }
  split.
  { apply classify_inventory_risk_total; [reflexivity|].
    apply (bool_decide_unpack _). vm_compute. exact I. }
  split; [reflexivity|].
  split; [reflexivity|].
  split; [reflexivity|].
  split; [exact L|].
  intros E. apply (f_equal (λ σ : Store, fr ← σ !! 0%nat;
                              r ← fr !! 0%nat; r !! "risk_category")) in E.
  change (classify_row r !! "risk_category" = r !! "risk_category") in E.
  rewrite L in E. discriminate E.
Qed.

(** ** [generate_report] *)

Section airflow.
Import Airflow.
Implicit Types (df : DataFrame) (r : Row) (d : values_dtype).

Lemma elem_of_cells df r c v :
  r ∈ df → r !! c = Some v → v ∈ cells df.
Proof.
  intros Hr Hc. unfold cells. apply list_elem_of_bind. exists r.
  split; [|done]. apply list_elem_of_fmap. exists (c, v).
  split; [done|]. by apply elem_of_map_to_list.
Qed.

(** In a frame of int64 values every cell is an int64. *)
Lemma int64_values_cell df r c v :
  values_dtype_of df = int64_values →
  r ∈ df → r !! c = Some v → is_int_cell v = true.
Proof.
  unfold values_dtype_of. intros H Hr Hc.
  destruct (existsb is_text (cells df)); [done|].
  destruct (forallb is_int_cell (cells df)) eqn:E; [|done].
  rewrite forallb_forall in E. apply E.
  apply list_elem_of_In. by eapply elem_of_cells.
Qed.

Lemma fits_rows df : Forall (fits (values_dtype_of df)) df.
Proof.
  apply Forall_forall. intros r Hr Hd c v _ Hc.
  by eapply int64_values_cell.
Qed.

Lemma stock_risk_numeric d r :
  report_inputs r → fits d r →
  stock_risk d r = Some (stock_risk_label d r) ∧
  is_Some (stock_short d r).
Proof.
  intros (H1 & H2 & H3) Hfit. unfold stock_risk, stock_risk_label,
    stock_short, getc. unfold numeric in *.
  destruct (r !! "Retailer number of units in stock") as [[s|]|] eqn:E1;
    try by destruct H1.
  destruct (r !! "Current number of units in DK warehouse")
    as [[w|]|] eqn:E2; try by destruct H2.
  destruct (r !! "Forecast sales for next 4 weeks") as [[f|]|] eqn:E3;
    try by destruct H3.
  destruct d.
  - destruct s, w, f; cbn; split; try done; by eexists.
  - assert (I1 := Hfit eq_refl "Retailer number of units in stock" _
                   ltac:(by repeat constructor) E1).
    assert (I2 := Hfit eq_refl "Current number of units in DK warehouse" _
                   ltac:(by repeat constructor) E2).
    assert (I3 := Hfit eq_refl "Forecast sales for next 4 weeks" _
                   ltac:(by repeat constructor) E3).
    destruct s, w, f; try discriminate; cbn; split; try done; by eexists.
  - destruct s, w, f; cbn; split; try done; by eexists.
Qed.

Lemma generate_report_rows df :
  Forall report_inputs df →
  generate_report df
  = Some (assign "Stock Risk"
            (λ r, Str (stock_risk_label (values_dtype_of df) r)) <$> df).
Proof.
  intros H. unfold generate_report.
  assert (E : mapM (stock_risk (values_dtype_of df)) df
              = Some (stock_risk_label (values_dtype_of df) <$> df)).
  { apply mapM_Some_2, Forall2_fmap_r, Forall_Forall2_diag.
    pose proof (fits_rows df) as F.
    rewrite Forall_forall in H, F. apply Forall_forall. intros r Hr.
    by apply stock_risk_numeric; [apply H | apply F]. }
  rewrite E. cbn. f_equal. rewrite <- list_fmap_compose.
  apply set_column_assign.
Qed.

Lemma report_inputs_columns df :
  numeric_columns report_columns df → Forall report_inputs df.
Proof.
  intros H. unfold report_inputs. rewrite !Forall_and.
  repeat split;
    (eapply numeric_columns_numeric; [exact H | by repeat constructor]).
Qed.

Lemma stock_risk_label_short d r :
  is_Some (stock_short d r) →
  (stock_risk_label d r = "High" ↔ stock_short d r = Some true) ∧
  (stock_risk_label d r = "Low" ↔ stock_short d r = Some false).
Proof.
  unfold stock_risk_label. intros [[] ->]; cbn; split; split;
    (done || discriminate).
Qed.

End airflow.

(** C10. On a table whose stock, warehouse and 4-week forecast columns are
    numeric columns, the scheduled job returns the table with a Stock Risk
    column, leaving the other columns as they are, and every row has a
    Stock Risk that is 'High' or 'Low' and nothing else: 'High' exactly when
    units_in_stock + warehouse_units < forecast_4wk, 'Low' otherwise.  The
    sum and the comparison are those of the values the row-wise [apply]
    hands to the lambda: in a frame with a text column integers are Python
    integers, added without overflow and compared exactly with a float; in
    a frame of int64 columns only the sum is an int64 sum; in any other
    frame all values are floats. *)
Theorem C10_stock_risk_high_or_low (df : DataFrame) :
  numeric_columns report_columns df →
  ∃ df',
    Airflow.generate_report df = Some df' ∧
    length df' = length df ∧
    ∀ i r, df !! i = Some r →
      ∃ r' label,
        df' !! i = Some r' ∧
        r' !! "Stock Risk" = Some (Str label) ∧
        (∀ c, c ≠ "Stock Risk" → r' !! c = r !! c) ∧
        (label = "High" ∨ label = "Low") ∧
        (label = "High" ↔
         stock_short (Airflow.values_dtype_of df) r = Some true) ∧
        (label = "Low" ↔
         stock_short (Airflow.values_dtype_of df) r = Some false) ∧
        (∀ s w f,
           r !! "Retailer number of units in stock" = Some (Num (I64 s)) →
           r !! "Current number of units in DK warehouse"
             = Some (Num (I64 w)) →
           r !! "Forecast sales for next 4 weeks" = Some (Num (I64 f)) →
           match Airflow.values_dtype_of df with
           | Airflow.object_values => label = "High" ↔ s + w < f
           | Airflow.int64_values => label = "High" ↔ wrap (s + w) < f
           | Airflow.float64_values =>
               label = "High" ↔
               flt (fadd (of_int s) (of_int w)) (of_int f) = true
           end) ∧
        (∀ s w f,
           r !! "Retailer number of units in stock" = Some (Num (I64 s)) →
           r !! "Current number of units in DK warehouse"
             = Some (Num (I64 w)) →
           r !! "Forecast sales for next 4 weeks" = Some (Num (F64 f)) →
           match Airflow.values_dtype_of df with
           | Airflow.object_values =>
               label = "High" ↔
               Airflow.compare_int_float (s + w) f = Some Lt
           | _ =>
               label = "High" ↔
               flt (fadd (of_int s) (of_int w)) f = true
           end) ∧
        (∀ s w f,
           r !! "Retailer number of units in stock" = Some (Num (F64 s)) →
           r !! "Current number of units in DK warehouse"
             = Some (Num (F64 w)) →
           r !! "Forecast sales for next 4 weeks" = Some (Num (F64 f)) →
           label = "High" ↔ flt (fadd s w) f = true).
Proof.
  intros H. pose proof (report_inputs_columns _ H) as Hin.
  eexists. split; [by apply generate_report_rows|].
  split; [apply length_fmap|].
  intros i r Hi.
  set (d := Airflow.values_dtype_of df).
  assert (Hr : r ∈ df) by by eapply list_elem_of_lookup_2.
  assert (Hfit : fits d r).
  { pose proof (fits_rows df) as F. rewrite Forall_forall in F.
    by apply F. }
  assert (Hri : report_inputs r).
  { rewrite Forall_forall in Hin. by apply Hin. }
  destruct (stock_risk_numeric d r Hri Hfit) as [_ Hs].
  destruct (stock_risk_label_short d r Hs) as [Hh Hl].
  eexists _, (stock_risk_label d r).
  split; [by rewrite list_lookup_fmap, Hi|].
  split; [apply lookup_insert_eq|].
  split; [intros c Hc; by apply lookup_insert_ne|].
  split; [unfold stock_risk_label; destruct (default _ _); auto|].
  split; [exact Hh|]. split; [exact Hl|].
  clearbody d. clear Hl Hs. unfold stock_short, getc in Hh.
  split; [|split].
  - intros s w f E1 E2 E3. rewrite E1, E2, E3 in Hh.
    destruct d; cbn in Hh; rewrite Hh.
    + rewrite <- Z.ltb_lt. split; [by intros [= ->] | by intros ->].
    + rewrite <- Z.ltb_lt. split; [by intros [= ->] | by intros ->].
    + split; [by intros [= ->] | by intros ->].
  - intros s w f E1 E2 E3. rewrite E1, E2, E3 in Hh.
    destruct d; cbn in Hh.
    + rewrite Hh.
      destruct (Airflow.compare_int_float (s + w) f) as [[]|];
        split; (done || discriminate).
    + assert (I3 := Hfit eq_refl "Forecast sales for next 4 weeks" _
                     ltac:(by repeat constructor) E3).
      discriminate I3.
    + rewrite Hh. split; [by intros [= ->] | by intros ->].
  - intros s w f E1 E2 E3. rewrite E1, E2, E3 in Hh.
    destruct d; cbn in Hh; rewrite Hh;
      (split; [by intros [= ->] | by intros ->]).
Qed.

Lemma C10_witness :
  ∃ df' r',
    Airflow.generate_report Examples.sheet = Some df' ∧
    df' !! 0%nat = Some r' ∧
    r' !! "Stock Risk" = Some (Str "High").
Proof.
  destruct (C10_stock_risk_high_or_low Examples.sheet)
    as (df' & E1 & _ & H).
  - apply (bool_decide_unpack _). vm_compute. exact I.
  - destruct (H 0%nat _ eq_refl)
      as (r' & label & E2 & E3 & _ & _ & E4 & _).
    exists df', r'. rewrite <- (proj2 E4); [exact (conj E1 (conj E2 E3))|].
    vm_compute. reflexivity.
Defined.

(** ** The inventory health report *)

Section health.
Import InventoryDashboard.
Implicit Types (df l : DataFrame) (r : Row) (w : spec_float).

Lemma flt_inf_l w : flt (S754_infinity false) w = false.
Proof. by destruct w as [[]|[]| |[]]. Qed.

Lemma flt_true_rank a b :
  flt a b = true → fnan b = false ∧ lex_lt (rank a) (rank b).
Proof. rewrite flt_rank. tauto. Qed.

Lemma fle_true_rank a b :
  fle a b = true →
  fnan a = false ∧ (lex_lt (rank a) (rank b) ∨ lex_eq (rank a) (rank b)).
Proof.
  rewrite fle_rank. intros (? & _ & [?|E]); [tauto|].
  split; [done|]. right. by rewrite E.
Qed.

Lemma flt_rank_intro a b :
  fnan a = false → fnan b = false → lex_lt (rank a) (rank b) →
  flt a b = true.
Proof. rewrite flt_rank. tauto. Qed.

Lemma flt_rank_false a b : ¬ lex_lt (rank a) (rank b) → flt a b = false.
Proof.
  intros H. apply not_true_is_false. rewrite flt_rank. tauto.
Qed.

(** Settles the comparison of a finite edge with [w] from the ranks. *)
Ltac rank_consts :=
  repeat match goal with
  | H : context [rank (of_int ?k)] |- _ =>
      let v := eval vm_compute in (rank (of_int k)) in
      change (rank (of_int k)) with v in H
  | |- context [rank (of_int ?k)] =>
      let v := eval vm_compute in (rank (of_int k)) in
      change (rank (of_int k)) with v
  end.

Ltac rank_lia w :=
  rank_consts;
  destruct (rank w) as [[? ?] ?]; unfold lex_lt, lex_eq in *; cbn in *;
  lia.

Ltac edge w :=
  match goal with
  | |- context [flt (of_int ?k) w] =>
      let E := fresh in
      first
        [ assert (E : flt (of_int k) w = true)
            by (apply flt_rank_intro; [reflexivity | assumption |];
                rank_lia w)
        | assert (E : flt (of_int k) w = false)
            by (apply flt_rank_false; rank_lia w) ];
      rewrite E; clear E
  end.

Ltac settle_edges w :=
  unfold cut, searchsorted_left, wos_bins, PInf;
  cbn [List.filter nlt to_float is_float];
  rewrite flt_inf_l; repeat edge w;
  by destruct w.

(** The intervals of the bins are open on the left and closed on the
    right. *)
Lemma cut_wos_intervals w :
  (flt (of_int 0) w = true ∧ fle w (of_int 4) = true →
   cut wos_bins wos_labels (F64 w) = Str "0-4 weeks") ∧
  (flt (of_int 4) w = true ∧ fle w (of_int 8) = true →
   cut wos_bins wos_labels (F64 w) = Str "4-8 weeks") ∧
  (flt (of_int 8) w = true ∧ fle w (of_int 12) = true →
   cut wos_bins wos_labels (F64 w) = Str "8-12 weeks") ∧
  (flt (of_int 12) w = true ∧ fle w (of_int 16) = true →
   cut wos_bins wos_labels (F64 w) = Str "12-16 weeks") ∧
  (flt (of_int 16) w = true ∧ fle w (of_int 20) = true →
   cut wos_bins wos_labels (F64 w) = Str "16-20 weeks") ∧
  (flt (of_int 20) w = true ∧ fle w (of_int 24) = true →
   cut wos_bins wos_labels (F64 w) = Str "20-24 weeks") ∧
  (flt (of_int 24) w = true →
   cut wos_bins wos_labels (F64 w) = Str "24+ weeks").
Proof.
  repeat split.
  1-6: intros [[Hn L0]%flt_true_rank [_ L1]%fle_true_rank];
       settle_edges w.
  intros [Hn L0]%flt_true_rank. settle_edges w.
Qed.

(** A value that is not above 0, and NaN, get no category. *)
Lemma cut_wos_none w :
  flt (of_int 0) w = false →
  cut wos_bins wos_labels (F64 w) = Num NaN.
Proof.
  intros H0. destruct (fnan w) eqn:Hn; [by destruct w|].
  assert (L0 : ¬ lex_lt (rank (of_int 0)) (rank w)).
  { intros L. rewrite flt_rank_intro in H0; done. }
  settle_edges w.
Qed.

(** Every value above 0 is in one of the intervals. *)
Lemma intervals_cover w :
  flt (of_int 0) w = true →
  fle w (of_int 4) = true
  ∨ (flt (of_int 4) w = true ∧ fle w (of_int 8) = true)
  ∨ (flt (of_int 8) w = true ∧ fle w (of_int 12) = true)
  ∨ (flt (of_int 12) w = true ∧ fle w (of_int 16) = true)
  ∨ (flt (of_int 16) w = true ∧ fle w (of_int 20) = true)
  ∨ (flt (of_int 20) w = true ∧ fle w (of_int 24) = true)
  ∨ flt (of_int 24) w = true.
Proof.
  intros [Hn _]%flt_true_rank.
  rewrite !(fle_not_flt w) by done.
  destruct (flt (of_int 4) w); [|by left].
  destruct (flt (of_int 8) w); [|by auto].
  destruct (flt (of_int 12) w); [|by auto 10].
  destruct (flt (of_int 16) w); [|by auto 10].
  destruct (flt (of_int 20) w); [|by auto 10].
  destruct (flt (of_int 24) w); by auto 10.
Qed.

Lemma cut_wos_positive w :
  flt (of_int 0) w = true →
  ∃ label, cut wos_bins wos_labels (F64 w) = Str label ∧ label ∈ wos_labels.
Proof.
  intros H0.
  destruct (cut_wos_intervals w) as (C1 & C2 & C3 & C4 & C5 & C6 & C7).
  destruct (intervals_cover w H0) as [H|[H|[H|[H|[H|[H|H]]]]]];
    eexists; (split; [by auto | unfold wos_labels; by repeat constructor]).
Qed.

Lemma calculated_wos_rows df :
  Forall health_inputs df →
  calculated_wos df
  = Some (assign "Calculated WOS" calculated_wos_cell <$> df).
Proof.
  intros H. unfold calculated_wos.
  assert (Forall (numeric "Retailer number of units in stock") df ∧
          Forall (numeric "Forecast sales for this week") df) as [H1 H2].
  { by apply Forall_and. }
  rewrite (num_column_numeric _ _ H1), (num_column_numeric _ _ H2). cbn.
  f_equal. unfold sclip_lower. rewrite sdiv_as_series. series_norm.
  apply set_column_assign.
Qed.

Lemma wos_category_rows l :
  Forall (numeric "Calculated WOS") l →
  wos_category l = Some (assign "WOS Category" wos_category_cell <$> l).
Proof.
  intros H. unfold wos_category. rewrite (num_column_numeric _ _ H). cbn.
  f_equal. rewrite <- list_fmap_compose. apply set_column_assign.
Qed.

Lemma inventory_health_rows df :
  Forall health_inputs df → inventory_health df = Some (health_row <$> df).
Proof.
  intros H. unfold inventory_health.
  rewrite (calculated_wos_rows _ H). cbn.
  rewrite wos_category_rows.
  - by rewrite <- list_fmap_compose.
  - apply Forall_fmap, Forall_true. intros r.
    unfold compose, numeric, assign, calculated_wos_cell.
    rewrite lookup_insert_eq.
    by eexists.
Qed.

Lemma health_inputs_columns df :
  numeric_columns ["Retailer number of units in stock";
                   "Forecast sales for this week"] df →
  Forall health_inputs df.
Proof.
  intros H. unfold health_inputs. rewrite Forall_and.
  split; (eapply numeric_columns_numeric; [exact H | by repeat constructor]).
Qed.

Lemma health_row_holds r x :
  Spec.holds r x →
  health_row r !! "Calculated WOS" = Some (Num (Spec.weeks_of_supply x)) ∧
  health_row r !! "WOS Category"
    = Some (cut wos_bins wos_labels (Spec.weeks_of_supply x)).
Proof.
  intros (H1 & _ & _ & _ & H5 & _).
  assert (E : calculated_wos_cell r = Num (Spec.weeks_of_supply x)).
  { unfold calculated_wos_cell.
    by rewrite (getn_lookup _ _ _ H1), (getn_lookup _ _ _ H5). }
  assert (Hr : health_row r
               = <["WOS Category" :=
                     wos_category_cell
                       (<["Calculated WOS" := calculated_wos_cell r]> r)]>
                 (<["Calculated WOS" := calculated_wos_cell r]> r))
    by reflexivity.
  rewrite Hr, E. split.
  - rewrite lookup_insert_ne by discriminate. apply lookup_insert_eq.
  - rewrite lookup_insert_eq. unfold wos_category_cell.
    by rewrite getn_insert_eq.
Qed.

End health.

(** C3 (amended). Weeks-of-supply values are bucketed into the intervals
    (0,4] (4,8] (8,12] (12,16] (16,20] (20,24] (24,inf), open on the left and
    closed on the right, labelled '0-4 weeks' to '24+ weeks': every strictly
    positive value gets the label of the one interval that contains it, and
    a value on a boundary (4, 8, ..., 24) falls into the lower bucket.  The
    value that is bucketed is the float64 quotient the report computes,
    units_in_stock / max(forecast_this_week, 0.1). *)
Theorem C3_buckets_are_right_closed
    (df : DataFrame) (i : nat) (r : Row) (x : Spec.inventory) :
  numeric_columns ["Retailer number of units in stock";
                   "Forecast sales for this week"] df →
  df !! i = Some r →
  Spec.holds r x →
  ∃ df' r' cat,
    InventoryDashboard.inventory_health df = Some df' ∧
    df' !! i = Some r' ∧
    r' !! "Calculated WOS" = Some (Num (Spec.weeks_of_supply x)) ∧
    r' !! "WOS Category" = Some cat ∧
    let w := Spec.weeks_of_supply x in
    (nlt (I64 0) w = true ∧ nle w (I64 4) = true → cat = Str "0-4 weeks") ∧
    (nlt (I64 4) w = true ∧ nle w (I64 8) = true → cat = Str "4-8 weeks") ∧
    (nlt (I64 8) w = true ∧ nle w (I64 12) = true →
     cat = Str "8-12 weeks") ∧
    (nlt (I64 12) w = true ∧ nle w (I64 16) = true →
     cat = Str "12-16 weeks") ∧
    (nlt (I64 16) w = true ∧ nle w (I64 20) = true →
     cat = Str "16-20 weeks") ∧
    (nlt (I64 20) w = true ∧ nle w (I64 24) = true →
     cat = Str "20-24 weeks") ∧
    (nlt (I64 24) w = true → cat = Str "24+ weeks") ∧
    (nlt (I64 0) w = true →
     ∃ label, cat = Str label ∧ label ∈ InventoryDashboard.wos_labels).
Proof.
  intros Hdf Hi Hx.
  destruct (health_row_holds r x Hx) as [E1 E2].
  eexists _, (health_row r), _.
  split; [by apply inventory_health_rows, health_inputs_columns|].
  split; [by rewrite list_lookup_fmap, Hi|].
  split; [exact E1|]. split; [exact E2|].
  unfold Spec.weeks_of_supply, ndiv. cbn [nlt nle to_float].
  split_and?; try apply cut_wos_intervals. apply cut_wos_positive.
Qed.

Lemma C3_witness :
  Spec.weeks_of_supply Examples.boundary_wos = F64 (of_int 4) ∧
  ∃ df' r',
    InventoryDashboard.inventory_health
      [Spec.inventory_row Examples.boundary_wos ∅] = Some df' ∧
    df' !! 0%nat = Some r' ∧
    r' !! "WOS Category" = Some (Str "0-4 weeks").
Proof.
  assert (E : Spec.weeks_of_supply Examples.boundary_wos = F64 (of_int 4)).
  { vm_compute. reflexivity. }
  split; [exact E|].
  destruct (C3_buckets_are_right_closed
              [Spec.inventory_row Examples.boundary_wos ∅] 0
              (Spec.inventory_row Examples.boundary_wos ∅)
              Examples.boundary_wos)
    as (df' & r' & cat & E1 & E2 & _ & E3 & E4 & _).
  - apply (bool_decide_unpack _). vm_compute. exact I.
  - reflexivity.
  - vm_compute. repeat split.
  - exists df', r'. rewrite <- E4; [exact (conj E1 (conj E2 E3))|].
    rewrite E. split; vm_compute; reflexivity.
Defined.

(** C3, as stated, fails: the boundary value 4 is put into '0-4 weeks', the
    lower bucket, while the right-open intervals of the specification put it
    into '4-8 weeks'. *)
Lemma C3_counterexample :
  ∃ df' r',
    InventoryDashboard.inventory_health
      [Spec.inventory_row Examples.boundary_wos ∅] = Some df' ∧
    df' !! 0%nat = Some r' ∧
    r' !! "Calculated WOS" = Some (Num (F64 (of_int 4))) ∧
    r' !! "WOS Category" = Some (Str "0-4 weeks") ∧
    Spec.wos_bucket_right_open (F64 (of_int 4)) = Some "4-8 weeks".
Proof.
  set (r := Spec.inventory_row Examples.boundary_wos ∅).
  exists (health_row <$> [r]), (health_row r).
  split.
  { apply inventory_health_rows.
    apply (bool_decide_unpack _). vm_compute. exact I. }
  split; [reflexivity|].
  destruct (health_row_holds r Examples.boundary_wos) as [E1 E2].
  { vm_compute. repeat split. }
  split; [rewrite E1; vm_compute; reflexivity|].
  split; [rewrite E2; vm_compute; reflexivity|].
  vm_compute. reflexivity.
Qed.

(** ** The stock replenishment report *)

Section frames.
Implicit Types (df l : DataFrame) (r : Row) (c : string).

Lemma column_present l c :
  Forall (present c) l → column l c = Some (getc c <$> l).
Proof.
  intros H. apply mapM_Some_2.
  induction H as [|r l' [x Hr] _ IH]; cbn; constructor; [|done].
  unfold getc. by rewrite Hr.
Qed.

Lemma boolean_index_fmap l (f : Row → bool) :
  boolean_index l (f <$> l) = List.filter f l.
Proof. induction l as [|r l IH]; cbn; [done|]. by rewrite IH. Qed.

Lemma sort_rows_perm c l : sort_rows c l ≡ₚ l.
Proof.
  unfold sort_rows. rewrite merge_sort_Permutation.
  rewrite snd_zip; [done|]. by rewrite length_fmap.
Qed.

Lemma sort_values_rows l c :
  Forall (numeric c) l → sort_values l c = Some (sort_rows c l).
Proof.
  intros H. unfold sort_values. by rewrite (num_column_numeric _ _ H).
Qed.

Lemma Forall_list_filter {A} (P : A → Prop) (f : A → bool) (xs : list A) :
  Forall P xs → Forall P (List.filter f xs).
Proof.
  induction 1 as [|x xs Hx _ IH]; cbn; [constructor|].
  destruct (f x); [by constructor | done].
Qed.

Lemma elem_of_list_filter {A} (f : A → bool) (xs : list A) (x : A) :
  x ∈ List.filter f xs ↔ x ∈ xs ∧ f x = true.
Proof. rewrite !list_elem_of_In. apply filter_In. Qed.

Lemma present_assign_ne c c' v r :
  c ≠ c' → present c (assign c' v r) ↔ present c r.
Proof. intros. unfold present, assign. by rewrite lookup_insert_ne. Qed.

Lemma getc_insert_ne c c' (v : cell) r :
  c ≠ c' → getc c (<[c' := v]> r) = getc c r.
Proof. intros. unfold getc. by rewrite lookup_insert_ne. Qed.

Lemma getc_lookup c v r : r !! c = Some v → getc c r = v.
Proof. unfold getc. by intros ->. Qed.

Lemma existsb_false_Forall {A} (f : A → bool) (xs : list A) :
  Forall (λ x, f x = false) xs → existsb f xs = false.
Proof. induction 1 as [|x xs Hx _ IH]; [done|]. cbn. by rewrite Hx. Qed.

Lemma existsb_true_elem {A} (f : A → bool) (xs : list A) :
  existsb f xs = true → ∃ x, x ∈ xs ∧ f x = true.
Proof.
  intros (x & Hx & E)%existsb_exists. exists x.
  by rewrite list_elem_of_In.
Qed.

(** The dtype of a column: all its numbers are integers, or all floats. *)
Lemma numeric_column_dtype df c :
  numeric_column df c →
  ∃ b : bool, Forall (λ r, is_float (getn c r) = b) df.
Proof.
  intros [H|H]; [exists false | exists true];
    (eapply Forall_impl; [exact H|]); intros r Hr; cbn in Hr.
  - by apply int64_cell_getn.
  - by apply float64_cell_getn.
Qed.

End frames.

Section replenishment.
Import InventoryDashboard.
Implicit Types (df l : DataFrame) (r : Row) (c : string).

Lemma weeks_coverage_rows df :
  Forall (numeric "Retailer number of units in stock") df →
  Forall (numeric "Forecast sales for next 4 weeks") df →
  weeks_coverage df
  = Some (assign "Weeks Coverage" weeks_coverage_cell <$> df).
Proof.
  intros H1 H2. unfold weeks_coverage.
  rewrite (num_column_numeric _ _ H1), (num_column_numeric _ _ H2). cbn.
  f_equal. unfold sclip_lower. rewrite sdiv_as_series.
  series_norm. apply set_column_assign.
Qed.

Lemma reprint_candidates_rows l :
  Forall (numeric "Weeks Coverage") l →
  Forall (numeric "Current number of units in DK warehouse") l →
  Forall (numeric "Forecast sales for next 4 weeks") l →
  Forall (present "Print status") l →
  reprint_candidates l
  = Some (sort_rows "Weeks Coverage" (List.filter is_reprint_candidate l)).
Proof.
  intros H1 H2 H3 H4. unfold reprint_candidates.
  rewrite (num_column_numeric _ _ H1), (num_column_numeric _ _ H2),
    (num_column_numeric _ _ H3), (column_present _ _ H4). cbn.
  series_norm. rewrite boolean_index_fmap.
  apply sort_values_rows. by apply Forall_list_filter.
Qed.

Lemma redistribution_candidates_rows l :
  Forall (numeric "Weeks Coverage") l →
  Forall (numeric "Current number of units in DK warehouse") l →
  Forall (numeric "Forecast sales for next 4 weeks") l →
  redistribution_candidates l
  = Some (sort_rows "Weeks Coverage"
            (List.filter is_redistribution_candidate l)).
Proof.
  intros H1 H2 H3. unfold redistribution_candidates.
  rewrite (num_column_numeric _ _ H1), (num_column_numeric _ _ H2),
    (num_column_numeric _ _ H3). cbn.
  series_norm. rewrite boolean_index_fmap.
  apply sort_values_rows. by apply Forall_list_filter.
Qed.

(** Clipping at an integer bound keeps the dtype. *)
Lemma is_float_clip_lower k x :
  is_float (clip_lower (I64 k) x) = is_float x.
Proof.
  unfold clip_lower. destruct (nlt x (I64 k)); [|done].
  by destruct x.
Qed.

(** The reprint quantities are floats: the product with 1.5 is one. *)
Lemma recommended_reprint_rows l :
  Forall (numeric "Forecast sales for next 12 weeks") l →
  Forall (numeric "Retailer number of units in stock") l →
  Forall (numeric "Current number of units in DK warehouse") l →
  recommended_reprint l
  = Some (assign "Recommended Reprint" recommended_reprint_cell <$> l).
Proof.
  intros H1 H2 H3. unfold recommended_reprint.
  destruct l as [|r l]; [done|].
  cbn [length Nat.ltb Nat.leb].
  rewrite (num_column_numeric _ _ H1), (num_column_numeric _ _ H2),
    (num_column_numeric _ _ H3). cbn [mbind option_bind].
  f_equal. unfold sclip_lower. series_norm.
  rewrite as_series_floats.
  - rewrite <- list_fmap_compose. apply set_column_assign.
  - apply Forall_fmap, Forall_true. intros r'. unfold compose.
    rewrite is_float_clip_lower.
    by destruct (getn "Forecast sales for next 12 weeks" r'),
                (getn "Retailer number of units in stock" r'),
                (getn "Current number of units in DK warehouse" r').
Qed.

Lemma recommended_transfer_rows l (b : bool) :
  Forall (numeric "Forecast sales for next 4 weeks") l →
  Forall (numeric "Retailer number of units in stock") l →
  Forall (numeric "Current number of units in DK warehouse") l →
  Forall (λ r, is_float
                 (nsub (nmul (getn "Forecast sales for next 4 weeks" r)
                             (I64 2))
                       (getn "Retailer number of units in stock" r)) = b)
         l →
  recommended_transfer l
  = Some (assign "Recommended Transfer"
            (recommended_transfer_cell
               (existsb (λ r, is_float (transfer r)) l)) <$> l).
Proof.
  intros H1 H2 H3 Hb. unfold recommended_transfer.
  destruct l as [|r l]; [done|].
  cbn [length Nat.ltb Nat.leb].
  rewrite (num_column_numeric _ _ H1), (num_column_numeric _ _ H2),
    (num_column_numeric _ _ H3). cbn [mbind option_bind].
  f_equal. unfold sclip_upper, sclip_lower. series_norm.
  set (l' := r :: l) in *.
  assert (E : as_series
                ((λ x, clip_lower (I64 0)
                         (nsub (nmul (getn "Forecast sales for next 4 weeks" x)
                                     (I64 2))
                               (getn "Retailer number of units in stock" x)))
                   <$> l')
              = (λ x, clip_lower (I64 0)
                        (nsub (nmul (getn "Forecast sales for next 4 weeks" x)
                                    (I64 2))
                              (getn "Retailer number of units in stock" x)))
                  <$> l').
  { destruct b; [apply as_series_floats | apply as_series_ints];
      apply Forall_fmap; (eapply Forall_impl; [exact Hb|]);
      intros r' Hr'; unfold compose; by rewrite is_float_clip_lower. }
  rewrite E. series_norm.
  rewrite as_series_stored, existsb_fmap. series_norm.
  apply set_column_assign.
Qed.

(** The dtype of the difference, from the dtypes of its columns. *)
Lemma difference_dtype df :
  numeric_column df "Forecast sales for next 4 weeks" →
  numeric_column df "Retailer number of units in stock" →
  ∃ b : bool,
    Forall (λ r, is_float
                   (nsub (nmul (getn "Forecast sales for next 4 weeks" r)
                               (I64 2))
                         (getn "Retailer number of units in stock" r)) = b)
           df.
Proof.
  intros [b1 H1]%numeric_column_dtype [b2 H2]%numeric_column_dtype.
  exists (b1 || b2).
  assert (H : Forall (λ r,
                is_float (getn "Forecast sales for next 4 weeks" r) = b1 ∧
                is_float (getn "Retailer number of units in stock" r) = b2)
              df) by by apply Forall_and.
  eapply Forall_impl; [exact H|]. intros r [<- <-].
  by destruct (getn "Forecast sales for next 4 weeks" r),
              (getn "Retailer number of units in stock" r).
Qed.

Lemma replenishment_columns_numeric df c :
  numeric_columns replenishment_columns df →
  c ∈ replenishment_columns →
  numeric_column df c.
Proof.
  unfold numeric_columns. rewrite Forall_forall. intros H Hc. by apply H.
Qed.

Lemma stock_replenishment_rows df :
  numeric_columns replenishment_columns df →
  Forall (present "Print status") df →
  stock_replenishment df
  = Some (reprint_table df, redistribution_table df).
Proof.
  intros Hdf H5.
  assert (H1 : Forall (numeric "Retailer number of units in stock") df).
  { eapply numeric_columns_numeric; [exact Hdf|].
    unfold replenishment_columns. by repeat constructor. }
  assert (H2 : Forall (numeric "Current number of units in DK warehouse") df).
  { eapply numeric_columns_numeric; [exact Hdf|].
    unfold replenishment_columns. by repeat constructor. }
  assert (H3 : Forall (numeric "Forecast sales for next 4 weeks") df).
  { eapply numeric_columns_numeric; [exact Hdf|].
    unfold replenishment_columns. by repeat constructor. }
  assert (H4 : Forall (numeric "Forecast sales for next 12 weeks") df).
  { eapply numeric_columns_numeric; [exact Hdf|].
    unfold replenishment_columns. by repeat constructor. }
  destruct (difference_dtype df) as [b Hb].
  { apply replenishment_columns_numeric; [done|].
    unfold replenishment_columns. by repeat constructor. }
  { apply replenishment_columns_numeric; [done|].
    unfold replenishment_columns. by repeat constructor. }
  unfold stock_replenishment.
  rewrite (weeks_coverage_rows _ H1 H3). cbn [mbind option_bind].
  set (l := _ <$> df).
  assert (L0 : Forall (numeric "Weeks Coverage") l).
  { apply Forall_fmap, Forall_true. intros r.
    unfold compose, numeric, assign, weeks_coverage_cell.
    rewrite lookup_insert_eq. by eexists. }
  assert (L1 : Forall (numeric "Retailer number of units in stock") l)
    by by apply Forall_numeric_assign_ne.
  assert (L2 : Forall (numeric "Current number of units in DK warehouse") l)
    by by apply Forall_numeric_assign_ne.
  assert (L3 : Forall (numeric "Forecast sales for next 4 weeks") l)
    by by apply Forall_numeric_assign_ne.
  assert (L4 : Forall (numeric "Forecast sales for next 12 weeks") l)
    by by apply Forall_numeric_assign_ne.
  assert (L5 : Forall (present "Print status") l).
  { apply Forall_fmap. eapply Forall_impl; [exact H5|].
    intros r Hr. by apply present_assign_ne. }
  assert (Lb : Forall (λ r, is_float
                   (nsub (nmul (getn "Forecast sales for next 4 weeks" r)
                               (I64 2))
                         (getn "Retailer number of units in stock" r)) = b)
                 l).
  { apply Forall_fmap. eapply Forall_impl; [exact Hb|].
    intros r Hr. unfold compose, assign.
    by rewrite !getn_insert_ne by discriminate. }
  rewrite (reprint_candidates_rows l L0 L2 L3 L5). cbn [mbind option_bind].
  rewrite recommended_reprint_rows;
    [|rewrite sort_rows_perm; by apply Forall_list_filter..].
  cbn [mbind option_bind].
  rewrite (redistribution_candidates_rows l L0 L2 L3).
  cbn [mbind option_bind].
  rewrite (recommended_transfer_rows _ b);
    [|rewrite sort_rows_perm; by apply Forall_list_filter..].
  reflexivity.
Qed.

End replenishment.

Section replenishment_rows.
Import InventoryDashboard.
Implicit Types (df l : DataFrame) (r : Row) (c : string) (x : Spec.inventory).

Lemma cell_ne_str_true s (p : cell) :
  cell_ne_str s p = true ↔ p ≠ Str s.
Proof.
  destruct p as [n|t]; cbn.
  - split; [discriminate | done].
  - rewrite negb_true_iff, String.eqb_neq. split; [congruence|].
    intros H ->. by apply H.
Qed.

Lemma weeks_coverage_holds r x :
  Spec.holds r x →
  ndiv (getn "Retailer number of units in stock" r)
       (clip_lower (F64 (dec 1 10))
          (ndiv (getn "Forecast sales for next 4 weeks" r) (I64 4)))
  = Spec.stock_coverage_weeks_4wk x.
Proof.
  intros (H1 & _ & _ & _ & _ & H6 & _).
  by rewrite (getn_lookup _ _ _ H1), (getn_lookup _ _ _ H6).
Qed.

Lemma weeks_coverage_cell_holds r x :
  Spec.holds r x →
  weeks_coverage_cell r = Num (Spec.stock_coverage_weeks_4wk x).
Proof.
  intros Hx. unfold weeks_coverage_cell. by rewrite (weeks_coverage_holds r x).
Qed.

(** The selection reads the stock, the warehouse units, the 4-week forecast
    and the print status only. *)
Lemma is_reprint_candidate_coverage r :
  is_reprint_candidate (assign "Weeks Coverage" weeks_coverage_cell r)
  = nlt (ndiv (getn "Retailer number of units in stock" r)
              (clip_lower (F64 (dec 1 10))
                 (ndiv (getn "Forecast sales for next 4 weeks" r) (I64 4))))
        (I64 6)
    && nlt (getn "Current number of units in DK warehouse" r)
           (getn "Forecast sales for next 4 weeks" r)
    && cell_ne_str "Out of Print" (getc "Print status" r).
Proof.
  unfold is_reprint_candidate, assign, weeks_coverage_cell.
  rewrite getn_insert_eq.
  by rewrite !getn_insert_ne, getc_insert_ne by discriminate.
Qed.

Lemma is_redistribution_candidate_coverage r :
  is_redistribution_candidate
    (assign "Weeks Coverage" weeks_coverage_cell r)
  = nlt (ndiv (getn "Retailer number of units in stock" r)
              (clip_lower (F64 (dec 1 10))
                 (ndiv (getn "Forecast sales for next 4 weeks" r) (I64 4))))
        (I64 8)
    && ngt (getn "Current number of units in DK warehouse" r)
           (nmul (getn "Forecast sales for next 4 weeks" r)
                 (F64 (dec 5 10))).
Proof.
  unfold is_redistribution_candidate, assign, weeks_coverage_cell.
  rewrite getn_insert_eq.
  by rewrite !getn_insert_ne by discriminate.
Qed.

Lemma is_reprint_candidate_holds r x p :
  Spec.holds r x →
  r !! "Print status" = Some p →
  is_reprint_candidate (assign "Weeks Coverage" weeks_coverage_cell r) = true
  ↔ nlt (Spec.stock_coverage_weeks_4wk x) (I64 6) = true ∧
    nlt (Spec.warehouse_units x) (Spec.forecast_4wk x) = true ∧
    p ≠ Str "Out of Print".
Proof.
  intros Hx Hp. rewrite is_reprint_candidate_coverage.
  rewrite (weeks_coverage_holds r x Hx).
  destruct Hx as (_ & H2 & _ & _ & _ & H6 & _).
  rewrite (getn_lookup _ _ _ H2), (getn_lookup _ _ _ H6),
    (getc_lookup _ _ _ Hp).
  by rewrite !andb_true_iff, cell_ne_str_true, (assoc and).
Qed.

Lemma is_redistribution_candidate_holds r x :
  Spec.holds r x →
  is_redistribution_candidate
    (assign "Weeks Coverage" weeks_coverage_cell r) = true
  ↔ nlt (Spec.stock_coverage_weeks_4wk x) (I64 8) = true ∧
    ngt (Spec.warehouse_units x)
        (nmul (Spec.forecast_4wk x) (F64 (dec 5 10))) = true.
Proof.
  intros Hx. rewrite is_redistribution_candidate_coverage.
  rewrite (weeks_coverage_holds r x Hx).
  destruct Hx as (_ & H2 & _ & _ & _ & H6 & _).
  rewrite (getn_lookup _ _ _ H2), (getn_lookup _ _ _ H6).
  by rewrite !andb_true_iff.
Qed.

Lemma recommended_reprint_cell_holds r x v :
  Spec.holds r x →
  recommended_reprint_cell (<["Weeks Coverage" := v]> r)
  = Num (Spec.recommended_reprint x).
Proof.
  intros (H1 & H2 & _ & _ & _ & _ & H7). unfold recommended_reprint_cell.
  rewrite !getn_insert_ne by discriminate.
  by rewrite (getn_lookup _ _ _ H1), (getn_lookup _ _ _ H2),
    (getn_lookup _ _ _ H7).
Qed.

Lemma transfer_holds r x v :
  Spec.holds r x →
  transfer (<["Weeks Coverage" := v]> r) = Spec.recommended_transfer x.
Proof.
  intros (H1 & H2 & _ & _ & _ & H6 & _). unfold transfer.
  rewrite !getn_insert_ne by discriminate.
  by rewrite (getn_lookup _ _ _ H1), (getn_lookup _ _ _ H2),
    (getn_lookup _ _ _ H6).
Qed.

(** Rows with the same inputs are selected alike. *)
Lemma is_reprint_candidate_same r r0 :
  same_on ["Retailer number of units in stock";
           "Current number of units in DK warehouse";
           "Forecast sales for next 4 weeks"; "Print status"] r0 r →
  is_reprint_candidate (assign "Weeks Coverage" weeks_coverage_cell r0)
  = is_reprint_candidate (assign "Weeks Coverage" weeks_coverage_cell r).
Proof.
  intros H. rewrite !is_reprint_candidate_coverage. unfold getn, getc.
  by rewrite !(H _) by set_solver.
Qed.

Lemma is_redistribution_candidate_same r r0 :
  same_on ["Retailer number of units in stock";
           "Current number of units in DK warehouse";
           "Forecast sales for next 4 weeks"; "Print status"] r0 r →
  is_redistribution_candidate
    (assign "Weeks Coverage" weeks_coverage_cell r0)
  = is_redistribution_candidate
      (assign "Weeks Coverage" weeks_coverage_cell r).
Proof.
  intros H. rewrite !is_redistribution_candidate_coverage. unfold getn.
  by rewrite !(H _) by set_solver.
Qed.

Lemma elem_of_reprint_table df out :
  out ∈ reprint_table df ↔
  ∃ r0, r0 ∈ df ∧
    is_reprint_candidate (assign "Weeks Coverage" weeks_coverage_cell r0)
      = true ∧
    out = assign "Recommended Reprint" recommended_reprint_cell
            (assign "Weeks Coverage" weeks_coverage_cell r0).
Proof.
  unfold reprint_table. rewrite list_elem_of_fmap. split.
  - intros (y & -> & Hy). rewrite sort_rows_perm in Hy.
    apply elem_of_list_filter in Hy as [Hy Hc].
    apply list_elem_of_fmap in Hy as (r0 & -> & Hr0). eauto.
  - intros (r0 & Hr0 & Hc & ->). eexists. split; [done|].
    rewrite sort_rows_perm. apply elem_of_list_filter. split; [|done].
    apply list_elem_of_fmap. eauto.
Qed.

(** The candidates for redistribution, before their transfer is computed. *)
Lemma elem_of_redistribution_candidates df y :
  y ∈ sort_rows "Weeks Coverage"
        (List.filter is_redistribution_candidate
           (assign "Weeks Coverage" weeks_coverage_cell <$> df)) ↔
  ∃ r0, r0 ∈ df ∧
    is_redistribution_candidate
      (assign "Weeks Coverage" weeks_coverage_cell r0) = true ∧
    y = assign "Weeks Coverage" weeks_coverage_cell r0.
Proof.
  rewrite sort_rows_perm, elem_of_list_filter, list_elem_of_fmap. split.
  - intros [(r0 & -> & Hr0) Hc]. eauto.
  - intros (r0 & Hr0 & Hc & ->). eauto.
Qed.

(** The Recommended Transfer column of the table is a float64 column
    exactly when one of the transfers is a float. *)
Lemma transfer_column_dtype df :
  existsb (λ r', is_float (getn "Recommended Transfer" r'))
          (redistribution_table df)
  = existsb (λ r', is_float (transfer r'))
      (sort_rows "Weeks Coverage"
         (List.filter is_redistribution_candidate
            (assign "Weeks Coverage" weeks_coverage_cell <$> df))).
Proof.
  unfold redistribution_table. cbv zeta.
  set (l := sort_rows _ _). rewrite existsb_fmap.
  unfold compose, assign, recommended_transfer_cell.
  assert (E : ∀ up,
             existsb
               (λ y, is_float
                       (getn "Recommended Transfer"
                          (<["Recommended Transfer" :=
                               Num (stored up (transfer y))]> y))) l
             = existsb (λ y, is_float (stored up (transfer y))) l).
  { intros up. clearbody l. induction l as [|y l' IH]; [done|]. cbn.
    by rewrite getn_insert_eq, IH. }
  rewrite E. clear E.
  remember (existsb (λ r', is_float (transfer r')) l) as up eqn:Eu.
  destruct up; [|done].
  symmetry in Eu. apply existsb_exists in Eu as (y & Hy & _).
  apply existsb_exists. by exists y.
Qed.

Lemma elem_of_redistribution_table df out :
  out ∈ redistribution_table df ↔
  ∃ r0, r0 ∈ df ∧
    is_redistribution_candidate
      (assign "Weeks Coverage" weeks_coverage_cell r0) = true ∧
    out = assign "Recommended Transfer"
            (recommended_transfer_cell
               (existsb (λ r', is_float (getn "Recommended Transfer" r'))
                        (redistribution_table df)))
            (assign "Weeks Coverage" weeks_coverage_cell r0).
Proof.
  rewrite transfer_column_dtype.
  unfold redistribution_table. cbv zeta. rewrite list_elem_of_fmap. split.
  - intros (y & -> & Hy).
    apply elem_of_redistribution_candidates in Hy as (r0 & Hr0 & Hc & ->).
    eauto.
  - intros (r0 & Hr0 & Hc & ->). eexists. split; [done|].
    apply elem_of_redistribution_candidates. eauto.
Qed.

(** A row of a candidate table determines the inputs of its source row. *)
Lemma augmented_same_inputs r r0 c1 c2 (v1 v2 w1 w2 : cell) :
  c1 ∉ ["Retailer number of units in stock";
        "Current number of units in DK warehouse";
        "Forecast sales for next 4 weeks"; "Print status"] →
  c2 ∉ ["Retailer number of units in stock";
        "Current number of units in DK warehouse";
        "Forecast sales for next 4 weeks"; "Print status"] →
  <[c1 := v1]> (<[c2 := v2]> r) = <[c1 := w1]> (<[c2 := w2]> r0) →
  same_on ["Retailer number of units in stock";
           "Current number of units in DK warehouse";
           "Forecast sales for next 4 weeks"; "Print status"] r0 r.
Proof.
  intros H1 H2 E c Hc.
  assert (c ≠ c1) by (intros ->; done).
  assert (c ≠ c2) by (intros ->; done).
  apply (f_equal (.!! c)) in E.
  by rewrite !lookup_insert_ne in E by done.
Qed.

End replenishment_rows.

(** *** Bounds of the quantities *)

Section bounds.
Implicit Types (a c t hi wh f : num) (up : bool) (g : spec_float).

Lemma max_zero_nonneg a : nlt (Spec.max a (I64 0)) (I64 0) = false.
Proof.
  unfold Spec.max. destruct (nlt a (I64 0)) eqn:E; [|done].
  by destruct a.
Qed.

Lemma min_le_r c hi : nlt hi (Spec.min c hi) = false.
Proof.
  unfold Spec.min. destruct (nlt hi c) eqn:E; [|done].
  destruct c as [k|g], hi as [w|h]; cbn;
    first [apply Z.ltb_irrefl | apply flt_irrefl].
Qed.

Lemma min_nonneg c hi :
  nlt c (I64 0) = false → nlt hi (I64 0) = false →
  nlt (Spec.min c hi) (I64 0) = false.
Proof.
  intros Hc Hh. unfold Spec.min. destruct (nlt hi c); [|done].
  destruct c as [k|g], hi as [w|h]; cbn in *; try done.
  apply of_int_nonneg. by apply Z.ltb_ge.
Qed.

Lemma stored_float up g : stored up (F64 g) = F64 g.
Proof. by destruct up. Qed.

(** Storing a value as a float keeps its place next to the bounds. *)
Lemma stored_nonneg up t :
  nlt t (I64 0) = false → nlt (stored up t) (I64 0) = false.
Proof.
  intros H. destruct up; [|done]. destruct t as [k|g]; cbn in *; [|done].
  apply of_int_nonneg. by apply Z.ltb_ge.
Qed.

Lemma stored_le_r up t hi :
  nlt hi t = false →
  (up = true → is_float hi = true ∨ is_float t = true) →
  nlt hi (stored up t) = false.
Proof.
  intros H Hup. destruct up; [|done].
  destruct (Hup eq_refl) as [E|E].
  - destruct hi as [w|h]; [done|]. by destruct t.
  - by destruct t.
Qed.

(** Half of a forecast that is not negative is not negative. *)
Lemma fmul_half_nonneg g :
  flt g (of_int 0) = false → flt (fmul g (dec 5 10)) (of_int 0) = false.
Proof.
  intros H.
  assert (E : dec 5 10 = S754_finite false 4503599627370496 (-53))
    by (vm_compute; reflexivity).
  rewrite E. destruct g as [[]|[]| |[] m e]; try done.
  unfold fmul, SFmul. cbn [xorb].
  pose proof (binary_round_aux_sign false
                (Z.pos (m * 4503599627370496)) (e + -53)
                SpecFloat.loc_Exact) as S.
  by destruct (binary_round_aux _ _ _ _ _ _) as [[]|[]| |[]].
Qed.

Lemma above_half_nonneg f wh :
  nlt f (I64 0) = false →
  ngt wh (nmul f (F64 (dec 5 10))) = true →
  nlt wh (I64 0) = false.
Proof.
  intros Hf Hw.
  assert (P : flt (fmul (to_float f) (dec 5 10)) (of_int 0) = false).
  { apply fmul_half_nonneg. destruct f as [k|g]; [|done].
    apply of_int_nonneg. cbn in Hf. by apply Z.ltb_ge. }
  assert (W : flt (fmul (to_float f) (dec 5 10)) (to_float wh) = true).
  { by destruct f, wh. }
  apply not_true_is_false. intros N.
  assert (L : fle (to_float wh) (of_int 0) = true).
  { destruct wh as [w|h]; cbn in N |- *.
    - apply flt_rank in W as (_ & Hn & _).
      rewrite fle_not_flt by done.
      rewrite of_int_nonpos; [done|]. apply Z.ltb_lt in N. lia.
    - by apply flt_fle. }
  by rewrite (flt_fle_trans _ _ _ W L) in P.
Qed.

(** A transfer is a float when its difference or its bound is one. *)
Lemma is_float_min c hi :
  is_float (Spec.min c hi) = true →
  is_float c = true ∨ is_float hi = true.
Proof.
  unfold Spec.min. destruct (nlt hi c); [|by left].
  destruct c, hi; cbn; auto.
Qed.

Lemma is_float_min_l c hi :
  is_float c = true → is_float (Spec.min c hi) = true.
Proof.
  intros H. unfold Spec.min. destruct (nlt hi c); [|done].
  by apply is_float_astype_like.
Qed.

End bounds.

Section transfer_dtype.
Import InventoryDashboard.
Implicit Types (df l : DataFrame) (r : Row) (x : Spec.inventory).

(** When the transfers are stored as floats, the warehouse stock or the
    transfer of every row is a float already. *)
Lemma transfer_upcast df r x :
  numeric_columns replenishment_columns df →
  r ∈ df →
  Spec.holds r x →
  existsb (λ r', is_float (transfer r'))
    (sort_rows "Weeks Coverage"
       (List.filter is_redistribution_candidate
          (assign "Weeks Coverage" weeks_coverage_cell <$> df))) = true →
  is_float (Spec.warehouse_units x) = true ∨
  is_float (Spec.recommended_transfer x) = true.
Proof.
  intros Hdf Hr Hx (y & Hy & Ey)%existsb_true_elem.
  apply elem_of_redistribution_candidates in Hy as (r0 & Hr0 & _ & ->).
  destruct (difference_dtype df) as [b Hb].
  { apply replenishment_columns_numeric; [done|].
    unfold replenishment_columns. by repeat constructor. }
  { apply replenishment_columns_numeric; [done|].
    unfold replenishment_columns. by repeat constructor. }
  destruct (numeric_column_dtype df "Current number of units in DK warehouse")
    as [bw Hw].
  { apply replenishment_columns_numeric; [done|].
    unfold replenishment_columns. by repeat constructor. }
  rewrite Forall_forall in Hb, Hw.
  pose proof (Hb _ Hr) as B. pose proof (Hb _ Hr0) as B0.
  pose proof (Hw _ Hr) as W. pose proof (Hw _ Hr0) as W0.
  destruct Hx as (H1 & H2 & _ & _ & _ & H6 & _).
  rewrite (getn_lookup _ _ _ H1), (getn_lookup _ _ _ H6) in B.
  rewrite (getn_lookup _ _ _ H2) in W.
  unfold transfer, assign in Ey.
  rewrite !getn_insert_ne in Ey by discriminate.
  rewrite clip_upper_min in Ey.
  apply is_float_min in Ey as [Ey|Ey].
  - right. rewrite is_float_clip_lower in Ey.
    unfold Spec.recommended_transfer. apply is_float_min_l.
    rewrite <- clip_lower_max, is_float_clip_lower. congruence.
  - left. congruence.
Qed.

End transfer_dtype.

(** C5. On a table the replenishment report accepts, a record is among the
    reprint candidates exactly when stock_coverage_weeks_4wk < 6,
    warehouse_units < forecast_4wk and the print status is not
    "Out of Print"; its row in the candidate table carries the recommended
    quantity max(0, forecast_12wk * 1.5 - units_in_stock - warehouse_units),
    which is never below 0.  The coverage and the quantity are the float64
    values the report computes: the product with 1.5, the two differences
    and the quotient are rounded float64 operations. *)
Theorem C5_reprint_candidates_and_quantity
    (df : DataFrame) (i : nat) (r : Row) (x : Spec.inventory) (p : cell) :
  numeric_columns replenishment_columns df →
  Forall (present "Print status") df →
  df !! i = Some r →
  Spec.holds r x →
  r !! "Print status" = Some p →
  ∃ reprint redistribution,
    InventoryDashboard.stock_replenishment df
      = Some (reprint, redistribution) ∧
    (<["Recommended Reprint" := Num (Spec.recommended_reprint x)]>
       (<["Weeks Coverage" := Num (Spec.stock_coverage_weeks_4wk x)]> r)
       ∈ reprint
     ↔ nlt (Spec.stock_coverage_weeks_4wk x) (I64 6) = true ∧
       nlt (Spec.warehouse_units x) (Spec.forecast_4wk x) = true ∧
       p ≠ Str "Out of Print") ∧
    is_float (Spec.recommended_reprint x) = true ∧
    nlt (Spec.recommended_reprint x) (I64 0) = false.
Proof.
  intros Hdf Hps Hi Hx Hp.
  exists (reprint_table df), (redistribution_table df).
  split; [by apply stock_replenishment_rows|].
  split; [|split; [|apply max_zero_nonneg]].
  - rewrite <- (is_reprint_candidate_holds r x p Hx Hp).
    rewrite elem_of_reprint_table.
    pose proof (weeks_coverage_cell_holds r x Hx) as Ec.
    split.
    + intros (r0 & _ & Hc & E).
      rewrite <- (is_reprint_candidate_same r r0); [exact Hc|].
      unfold assign in E. eapply augmented_same_inputs; [..|exact E];
        repeat (apply not_elem_of_cons; split; [discriminate|]);
        apply not_elem_of_nil.
    + intros Hc. exists r. split; [by eapply list_elem_of_lookup_2|].
      split; [done|].
      unfold assign. rewrite Ec.
      by rewrite (recommended_reprint_cell_holds r x _ Hx).
  - unfold Spec.recommended_reprint.
    rewrite <- clip_lower_max, is_float_clip_lower.
    by destruct (Spec.forecast_12wk x), (Spec.units_in_stock x),
                (Spec.warehouse_units x).
Qed.

Lemma C5_witness :
  Spec.stock_coverage_weeks_4wk Examples.reprint_example = F64 (of_int 5) ∧
  Spec.recommended_reprint Examples.reprint_example = F64 (of_int 110) ∧
  ∃ reprint redistribution,
    InventoryDashboard.stock_replenishment
      [Spec.inventory_row Examples.reprint_example Examples.in_print]
      = Some (reprint, redistribution) ∧
    <["Recommended Reprint" := Num (F64 (of_int 110))]>
      (<["Weeks Coverage" := Num (F64 (of_int 5))]>
         (Spec.inventory_row Examples.reprint_example Examples.in_print))
      ∈ reprint.
Proof.
  assert (E5 : Spec.stock_coverage_weeks_4wk Examples.reprint_example
               = F64 (of_int 5)) by (vm_compute; reflexivity).
  assert (E110 : Spec.recommended_reprint Examples.reprint_example
                 = F64 (of_int 110)) by (vm_compute; reflexivity).
  split; [exact E5|]. split; [exact E110|].
  destruct (C5_reprint_candidates_and_quantity
              [Spec.inventory_row Examples.reprint_example Examples.in_print]
              0
              (Spec.inventory_row Examples.reprint_example Examples.in_print)
              Examples.reprint_example (Str "In Print"))
    as (reprint & redistribution & E1 & E2 & _).
  - apply (bool_decide_unpack _). vm_compute. exact I.
  - apply (bool_decide_unpack _). vm_compute. exact I.
  - reflexivity.
  - vm_compute. repeat split.
  - reflexivity.
  - exists reprint, redistribution. split; [exact E1|].
    rewrite <- E5, <- E110.
    apply E2. split; [|split].
    + vm_compute. reflexivity.
    + vm_compute. reflexivity.
    + discriminate.
Defined.

(** C6. On a table the replenishment report accepts, a record is among the
    redistribution candidates exactly when stock_coverage_weeks_4wk < 8 and
    warehouse_units > forecast_4wk * 0.5; its row in the candidate table
    carries the recommended transfer
    clip(0, warehouse_units, forecast_4wk * 2 - units_in_stock), stored as a
    float64 when the Recommended Transfer column of the table is a float64
    column.  The transfer never exceeds the warehouse stock, and it is never
    below 0 when the warehouse stock is not: so for every record whose
    warehouse stock is not negative, and for every selected record whose
    forecast is not negative.  The arithmetic is that of the columns: on
    int64 columns the product and the difference are int64 operations, which
    wrap around; otherwise they are rounded float64 operations. *)
Theorem C6_redistribution_candidates_and_transfer
    (df : DataFrame) (i : nat) (r : Row) (x : Spec.inventory) :
  numeric_columns replenishment_columns df →
  Forall (present "Print status") df →
  df !! i = Some r →
  Spec.holds r x →
  ∃ reprint redistribution,
    InventoryDashboard.stock_replenishment df
      = Some (reprint, redistribution) ∧
    let transfer :=
      stored (existsb (λ r', is_float (getn "Recommended Transfer" r'))
                      redistribution)
             (Spec.recommended_transfer x) in
    (<["Recommended Transfer" := Num transfer]>
       (<["Weeks Coverage" := Num (Spec.stock_coverage_weeks_4wk x)]> r)
       ∈ redistribution
     ↔ nlt (Spec.stock_coverage_weeks_4wk x) (I64 8) = true ∧
       ngt (Spec.warehouse_units x)
           (nmul (Spec.forecast_4wk x) (F64 (dec 5 10))) = true) ∧
    nlt (Spec.warehouse_units x) transfer = false ∧
    (nlt (Spec.warehouse_units x) (I64 0) = false →
     nlt transfer (I64 0) = false) ∧
    (nlt (Spec.forecast_4wk x) (I64 0) = false →
     ngt (Spec.warehouse_units x)
         (nmul (Spec.forecast_4wk x) (F64 (dec 5 10))) = true →
     nlt transfer (I64 0) = false).
Proof.
  intros Hdf Hps Hi Hx.
  exists (reprint_table df), (redistribution_table df).
  split; [by apply stock_replenishment_rows|].
  cbv zeta.
  assert (Hr : r ∈ df) by by eapply list_elem_of_lookup_2.
  assert (N : nlt (Spec.warehouse_units x) (I64 0) = false →
              nlt (stored
                     (existsb
                        (λ r', is_float (getn "Recommended Transfer" r'))
                        (redistribution_table df))
                     (Spec.recommended_transfer x)) (I64 0) = false).
  { intros Hw. apply stored_nonneg. unfold Spec.recommended_transfer.
    apply min_nonneg; [apply max_zero_nonneg | exact Hw]. }
  split; [|split; [|split]].
  - rewrite <- (is_redistribution_candidate_holds r x Hx).
    rewrite elem_of_redistribution_table.
    pose proof (weeks_coverage_cell_holds r x Hx) as Ec.
    split.
    + intros (r0 & _ & Hc & E).
      rewrite <- (is_redistribution_candidate_same r r0); [exact Hc|].
      unfold assign in E. eapply augmented_same_inputs; [..|exact E];
        repeat (apply not_elem_of_cons; split; [discriminate|]);
        apply not_elem_of_nil.
    + intros Hc. exists r. split; [done|]. split; [done|].
      unfold assign, recommended_transfer_cell. rewrite Ec.
      by rewrite (transfer_holds r x _ Hx).
  - apply stored_le_r; [apply min_le_r|].
    rewrite transfer_column_dtype. intros Hup.
    by apply (transfer_upcast df r x).
  - exact N.
  - intros Hf Hw. apply N. by eapply above_half_nonneg.
Qed.

Lemma C6_witness :
  Spec.recommended_transfer Examples.redistribution_example
  = F64 (of_int 30) ∧
  ∃ reprint redistribution,
    InventoryDashboard.stock_replenishment
      [Spec.inventory_row Examples.redistribution_example Examples.in_print]
      = Some (reprint, redistribution) ∧
    <["Recommended Transfer" := Num (F64 (of_int 30))]>
      (<["Weeks Coverage" :=
           Num (Spec.stock_coverage_weeks_4wk
                  Examples.redistribution_example)]>
         (Spec.inventory_row Examples.redistribution_example
            Examples.in_print))
      ∈ redistribution.
Proof.
  assert (E30 : Spec.recommended_transfer Examples.redistribution_example
                = F64 (of_int 30)) by (vm_compute; reflexivity).
  split; [exact E30|].
  destruct (C6_redistribution_candidates_and_transfer
              [Spec.inventory_row Examples.redistribution_example
                 Examples.in_print]
              0
              (Spec.inventory_row Examples.redistribution_example
                 Examples.in_print)
              Examples.redistribution_example)
    as (reprint & redistribution & E1 & E2 & _).
  - apply (bool_decide_unpack _). vm_compute. exact I.
  - apply (bool_decide_unpack _). vm_compute. exact I.
  - reflexivity.
  - vm_compute. repeat split.
  - exists reprint, redistribution. split; [exact E1|].
    rewrite E30, stored_float in E2.
    apply E2. split; vm_compute; reflexivity.
Defined.

(** ** The custom report *)

Section custom.
Import InventoryDashboard.
Implicit Types (df l : DataFrame) (r : Row) (c : string) (sel : list string).

Lemma project_row_lookup sel r c :
  c ∈ sel → project_row sel r !! c = r !! c.
Proof.
  intros Hc. unfold project_row. destruct (r !! c) as [v|] eqn:E.
  - by apply map_lookup_filter_Some_2.
  - apply map_lookup_filter_None. by left.
Qed.

Lemma project_rows df sel :
  Forall (selection_ok sel) df →
  project df sel = Some (project_row sel <$> df).
Proof.
  intros H. unfold project. apply mapM_Some_2, Forall2_fmap_r.
  apply Forall_Forall2_diag. eapply Forall_impl; [exact H|].
  intros r Hr.
  destruct (mapM (λ c, r !! c) sel) eqn:E; [done|].
  apply mapM_None_1, Exists_exists in E as (c & Hc & E).
  destruct (Hr c Hc) as [[v Hv] _]. congruence.
Qed.

Lemma selected_numeric_project df sel :
  Forall (selection_ok sel) df →
  selected_numeric sel (project_row sel <$> df).
Proof.
  intros H c Hc Hn. apply Forall_fmap. eapply Forall_impl; [exact H|].
  intros r Hr. unfold compose, numeric. rewrite project_row_lookup by done.
  by apply Hr.
Qed.

Lemma selected_numeric_assign_if sel l b c' v :
  c' ∉ custom_numeric_columns →
  selected_numeric sel l →
  selected_numeric sel (assign_if b c' v <$> l).
Proof.
  intros Hc' H c Hc Hn. apply Forall_fmap.
  eapply Forall_impl; [exact (H c Hc Hn)|].
  intros r Hr. unfold compose, assign_if. destruct b; [|done].
  apply numeric_assign_ne; [|done]. by intros ->.
Qed.

Lemma has_true sel c : has sel c = true → c ∈ sel.
Proof. unfold has. apply bool_decide_eq_true_1. Qed.

Lemma step_rows (b : bool) l c (v : Row → cell) (body : option DataFrame) :
  (b = true → body = Some (assign c v <$> l)) →
  (if b then body else Some l) = Some (assign_if b c v <$> l).
Proof.
  destruct b; cbn.
  - intros ->; done.
  - intros _. by rewrite list_fmap_id.
Qed.

Ltac selected H :=
  apply H; [by apply has_true | unfold custom_numeric_columns; set_solver].

Ltac not_numeric_column :=
  unfold custom_numeric_columns;
  repeat (apply not_elem_of_cons; split; [discriminate|]);
  apply not_elem_of_nil.

(** The recommendations are floats: the product with 1.2 is one. *)
Lemma is_float_reprint_recommendation (a b c : num) :
  is_float (clip_lower (I64 0) (nsub (nsub (nmul a (F64 (dec 12 10))) b) c))
  = true.
Proof. rewrite is_float_clip_lower. by destruct a, b, c. Qed.

Lemma custom_report_rows df sel (aw ac ar : bool) :
  Forall (selection_ok sel) df →
  custom_report df sel aw ac ar = Some (custom_row sel aw ac ar <$> df).
Proof.
  intros H. unfold custom_report.
  rewrite (project_rows _ _ H). cbn [mbind option_bind].
  pose proof (selected_numeric_project _ _ H) as H0.
  set (l0 := project_row sel <$> df) in *.
  rewrite (step_rows _ l0 "Weeks of Supply" weeks_of_supply_cell).
  2:{ intros [[_ B1]%andb_true_iff B2]%andb_true_iff.
      rewrite !num_column_numeric by selected H0. cbn [mbind option_bind].
      f_equal. unfold sclip_lower. rewrite sdiv_as_series.
      series_norm. apply set_column_assign. }
  cbn [mbind option_bind].
  set (l1 := assign_if _ _ _ <$> l0).
  assert (H1 : selected_numeric sel l1)
    by (apply selected_numeric_assign_if; [not_numeric_column | exact H0]).
  rewrite (step_rows _ l1 "4-Week Coverage Ratio" coverage_ratio_cell).
  2:{ intros [[_ B1]%andb_true_iff B2]%andb_true_iff.
      rewrite !num_column_numeric by selected H1. cbn [mbind option_bind].
      f_equal. series_norm. apply set_column_assign. }
  cbn [mbind option_bind].
  set (l2 := assign_if _ _ _ <$> l1).
  assert (H2 : selected_numeric sel l2)
    by (apply selected_numeric_assign_if; [not_numeric_column | exact H1]).
  rewrite (step_rows _ l2 "Reprint Recommendation"
             reprint_recommendation_cell).
  2:{ intros [[[_ B1]%andb_true_iff B2]%andb_true_iff B3]%andb_true_iff.
      rewrite !num_column_numeric by selected H2. cbn [mbind option_bind].
      f_equal. unfold sclip_lower. series_norm.
      rewrite as_series_floats.
      - rewrite <- list_fmap_compose. apply set_column_assign.
      - apply Forall_fmap, Forall_true. intros r'. unfold compose.
        by apply is_float_reprint_recommendation. }
  cbn [mbind option_bind]. unfold l2, l1, l0.
  by rewrite <- !list_fmap_compose.
Qed.

Lemma has_in sel c : c ∈ sel → has sel c = true.
Proof. unfold has. apply bool_decide_eq_true_2. Qed.

Lemma getn_custom_steps sel (b1 b2 : bool) r c q :
  c ∈ sel → c ∈ custom_numeric_columns → r !! c = Some (Num q) →
  getn c
    (assign_if b2 "4-Week Coverage Ratio" coverage_ratio_cell
       (assign_if b1 "Weeks of Supply" weeks_of_supply_cell
          (project_row sel r)))
  = q.
Proof.
  intros Hc Hn E. unfold assign_if, assign.
  assert (c ≠ "4-Week Coverage Ratio")
    by (intros ->; revert Hn; not_numeric_column).
  assert (c ≠ "Weeks of Supply")
    by (intros ->; revert Hn; not_numeric_column).
  apply getn_lookup.
  destruct b1, b2; rewrite ?lookup_insert_ne by done;
    by rewrite project_row_lookup.
Qed.

Lemma custom_row_reprint_recommendation sel (aw ac : bool) r x :
  "Retailer number of units in stock" ∈ sel →
  "Current number of units in DK warehouse" ∈ sel →
  "Forecast sales for next 12 weeks" ∈ sel →
  Spec.holds r x →
  custom_row sel aw ac true r !! "Reprint Recommendation"
  = Some (Num (Spec.custom_reprint_recommendation x)).
Proof.
  intros S1 S2 S3 (H1 & H2 & _ & _ & _ & _ & H7).
  unfold custom_row. cbv zeta.
  rewrite (has_in _ _ S1), (has_in _ _ S2), (has_in _ _ S3).
  cbn [andb]. unfold assign_if at 1, assign.
  rewrite lookup_insert_eq. do 2 f_equal.
  unfold reprint_recommendation_cell.
  by rewrite (getn_custom_steps _ _ _ _ _ _ S1
             ltac:(unfold custom_numeric_columns; set_solver) H1),
    (getn_custom_steps _ _ _ _ _ _ S2
       ltac:(unfold custom_numeric_columns; set_solver) H2),
    (getn_custom_steps _ _ _ _ _ _ S3
       ltac:(unfold custom_numeric_columns; set_solver) H7).
Qed.

End custom.

(** C8. In the custom report, with the box ticked and the three columns
    selected, the Reprint Recommendation of a record is
    max(0, forecast_12wk * 1.2 - units_in_stock - warehouse_units), in
    float64 arithmetic: the product with the float64 nearest to 1.2 and the
    two differences are rounded.  It is a computation of its own, with
    multiplier 1.2 where the reprint candidates use 1.5: for the
    specification's reprint example (12-week forecast 120, stock 50,
    warehouse 20) the custom report recommends 74 and the candidate table
    110. *)
Theorem C8_custom_reprint_recommendation
    (df : DataFrame) (selected_columns : list string)
    (add_wos add_coverage_ratio : bool)
    (i : nat) (r : Row) (x : Spec.inventory) :
  Forall (selection_ok selected_columns) df →
  "Retailer number of units in stock" ∈ selected_columns →
  "Current number of units in DK warehouse" ∈ selected_columns →
  "Forecast sales for next 12 weeks" ∈ selected_columns →
  df !! i = Some r →
  Spec.holds r x →
  (∃ report r',
     InventoryDashboard.custom_report df selected_columns
       add_wos add_coverage_ratio true = Some report ∧
     report !! i = Some r' ∧
     r' !! "Reprint Recommendation"
       = Some (Num (Spec.custom_reprint_recommendation x))) ∧
  (nlt (I64 0) (Spec.forecast_12wk Examples.reprint_example) = true ∧
   (report ← InventoryDashboard.custom_report
               [Spec.inventory_row Examples.reprint_example
                  Examples.catalogue]
               ["Retailer number of units in stock";
                "Current number of units in DK warehouse";
                "Forecast sales for next 12 weeks"] false false true;
    r' ← report !! 0%nat; r' !! "Reprint Recommendation")
   = Some (Num (F64 (of_int 74))) ∧
   (tables ← InventoryDashboard.stock_replenishment
               [Spec.inventory_row Examples.reprint_example
                  Examples.catalogue];
    r' ← tables.1 !! 0%nat; r' !! "Recommended Reprint")
   = Some (Num (F64 (of_int 110)))).
Proof.
  intros Hdf S1 S2 S3 Hi Hx. split.
  - exists (custom_row selected_columns add_wos add_coverage_ratio true
              <$> df),
      (custom_row selected_columns add_wos add_coverage_ratio true r).
    split; [by apply custom_report_rows|].
    split; [by rewrite list_lookup_fmap, Hi|].
    by apply custom_row_reprint_recommendation.
  - split; [vm_compute; reflexivity|].
    split; apply (bool_decide_unpack _); vm_compute; exact I.
Qed.

Lemma C8_witness :
  ∃ report r',
    InventoryDashboard.custom_report
      [Spec.inventory_row Examples.reprint_example Examples.catalogue]
      ["Retailer number of units in stock";
       "Current number of units in DK warehouse";
       "Forecast sales for next 12 weeks"] false false true = Some report ∧
    report !! 0%nat = Some r' ∧
    r' !! "Reprint Recommendation"
      = Some (Num (Spec.custom_reprint_recommendation
                     Examples.reprint_example)).
Proof.
  destruct (C8_custom_reprint_recommendation
              [Spec.inventory_row Examples.reprint_example Examples.catalogue]
              ["Retailer number of units in stock";
               "Current number of units in DK warehouse";
               "Forecast sales for next 12 weeks"] false false
              0 (Spec.inventory_row Examples.reprint_example
                   Examples.catalogue)
              Examples.reprint_example)
    as [H _].
  - constructor; [|constructor]. intros c Hc.
    rewrite !elem_of_cons, elem_of_nil in Hc.
    destruct Hc as [->|[->|[->|[]]]];
      (split; [by eexists | intros _; by eexists]).
  - by repeat constructor.
  - by repeat constructor.
  - by repeat constructor.
  - reflexivity.
  - vm_compute. repeat split.
  - exact H.
Defined.

(** C7. Not every division that produces a derived field is guarded: two
    of them have no floor.  For a title with 5 units in stock and a 4-week
    forecast of 0, the custom report's 4-Week Coverage Ratio is 5 / 0 = inf,
    and the brand table's Stock Coverage Ratio of its brand is 5 / 0 = inf
    as well, while the Weeks of Supply computed next to them is floored
    (5 / 0.1 = 50). *)
Theorem C7_coverage_ratios_divide_by_zero :
  Spec.forecast_4wk Examples.no_forecast = F64 (of_int 0) ∧
  (report ← InventoryDashboard.custom_report
              [Spec.inventory_row Examples.no_forecast Examples.catalogue]
              ["Retailer number of units in stock";
               "Forecast sales for this week";
               "Forecast sales for next 4 weeks"] true true false;
   r' ← report !! 0%nat; r' !! "4-Week Coverage Ratio")
  = Some (Num PInf) ∧
  (health ← InventoryDashboard.calculated_wos
              [Spec.inventory_row Examples.no_forecast Examples.catalogue];
   brands ← InventoryDashboard.brand_health health;
   r' ← brands !! 0%nat; r' !! "Stock Coverage Ratio")
  = Some (Num PInf) ∧
  (report ← InventoryDashboard.custom_report
              [Spec.inventory_row Examples.no_forecast Examples.catalogue]
              ["Retailer number of units in stock";
               "Forecast sales for this week";
               "Forecast sales for next 4 weeks"] true true false;
   r' ← report !! 0%nat; r' !! "Weeks of Supply")
  = Some (Num (F64 (of_int 50))).
Proof.
  split; [reflexivity|].
  repeat split; apply (bool_decide_unpack _); vm_compute; exact I.
Qed.

